(** * Legato Data Hub: the I/O API and the Query API over the resource tree

    A shallow embedding of [ioService.c] (the client-facing producer/consumer
    API, [io_*]) and [queryService.c] (the read-side API, [query_*]).

    - C [double]s are Rocq's primitive binary64 floats, so [NAN], [-0.0] and
      the comparisons [<] and [==] behave as in C.
    - An entry reference ([resTree_EntryRef_t]) is the absolute path of the
      entry, as a list of segments; [NULL] is [None]. A path cannot go
      stale; properties about a cached namespace are stated for a namespace
      that is in the tree.
    - The resource tree is a finite map from absolute paths to entries.
    - Effects (tree mutation, the IPC session context pointer, killing the
      client, writing to an output file) are threaded through a state
      monad; [LE_FATAL] aborts the computation.
    - An out-parameter is an [option]: [None] when the callee wrote nothing
      through the pointer.
    - The resource tree (resTree.c) and the data samples (dataSample.c) that
      the two files call into are modelled from the specification; each such
      definition says so. The handler list and the mandatory flag of a
      resource are kept by resTree.c: its entry points for them are
      parameters of the handler functions and of [io_MarkOptional]. *)

From Stdlib Require Import Floats.PrimFloat Strings.Ascii Strings.String.
From stdpp Require Import gmap strings list fin_maps.

Abbreviation Path := (list string).

(** ** Enumerations *)

(** The result codes of the Legato framework that the two files use. *)
Inductive le_result_t :=
| LE_OK
| LE_NOT_FOUND
| LE_DUPLICATE
| LE_UNAVAILABLE
| LE_UNSUPPORTED
| LE_FORMAT_ERROR
| LE_OVERFLOW
| LE_NO_MEMORY
| LE_FAULT.

(** Modelled from the spec: the kinds of data sample (the io API's
    declarations are absent), under the names ioService.c uses. *)
Inductive io_DataType_t :=
| IO_DATA_TYPE_TRIGGER
| IO_DATA_TYPE_BOOLEAN
| IO_DATA_TYPE_NUMERIC
| IO_DATA_TYPE_STRING
| IO_DATA_TYPE_JSON.

(** Modelled from the spec: the roles of an entry (the admin API's
    declarations are absent), under the names the two files use;
    [ADMIN_ENTRY_TYPE_NONE] is the type the switches of ioService.c treat as
    unexpected. *)
Inductive admin_EntryType_t :=
| ADMIN_ENTRY_TYPE_NONE
| ADMIN_ENTRY_TYPE_NAMESPACE
| ADMIN_ENTRY_TYPE_PLACEHOLDER
| ADMIN_ENTRY_TYPE_INPUT
| ADMIN_ENTRY_TYPE_OUTPUT
| ADMIN_ENTRY_TYPE_OBSERVATION.

#[global] Instance le_result_eq_dec : EqDecision le_result_t.
Proof. solve_decision. Defined.

#[global] Instance io_DataType_eq_dec : EqDecision io_DataType_t.
Proof. solve_decision. Defined.

#[global] Instance admin_EntryType_eq_dec : EqDecision admin_EntryType_t.
Proof. solve_decision. Defined.

(** ** Data samples *)

(** Modelled from the spec: the kind-discriminated payload of a sample
    (dataSample.c is absent). *)
Inductive Payload :=
| PTrigger
| PBoolean (b : bool)
| PNumeric (x : float)
| PString (str : string)
| PJson (json : string).

(** Modelled from the spec: a Data Sample, a timestamp in seconds since
    the Epoch and a payload (dataSample.c is absent). *)
Record dataSample := mkSample {
  timestamp : float;
  payload : Payload;
}.

(** Modelled from the spec: the constructor of a Trigger sample
    (dataSample.c is absent). *)
Definition dataSample_CreateTrigger (ts : float) : dataSample :=
  mkSample ts PTrigger.

(** Modelled from the spec: the constructor of a Boolean sample
    (dataSample.c is absent). *)
Definition dataSample_CreateBoolean (ts : float) (value : bool) : dataSample :=
  mkSample ts (PBoolean value).

(** Modelled from the spec: the constructor of a Numeric sample
    (dataSample.c is absent). *)
Definition dataSample_CreateNumeric (ts : float) (value : float) : dataSample :=
  mkSample ts (PNumeric value).

(** Modelled from the spec: the constructor of a String sample
    (dataSample.c is absent). *)
Definition dataSample_CreateString (ts : float) (value : string) : dataSample :=
  mkSample ts (PString value).

(** Modelled from the spec: the constructor of a Json sample
    (dataSample.c is absent). *)
Definition dataSample_CreateJson (ts : float) (value : string) : dataSample :=
  mkSample ts (PJson value).

(** The kind of a sample, read off its payload. *)
Definition kindOf (sample : dataSample) : io_DataType_t :=
  match payload sample with
  | PTrigger => IO_DATA_TYPE_TRIGGER
  | PBoolean _ => IO_DATA_TYPE_BOOLEAN
  | PNumeric _ => IO_DATA_TYPE_NUMERIC
  | PString _ => IO_DATA_TYPE_STRING
  | PJson _ => IO_DATA_TYPE_JSON
  end.

(** Modelled from the spec: the timestamp accessor (dataSample.c is
    absent). *)
Definition dataSample_GetTimestamp (sample : dataSample) : float :=
  timestamp sample.

(** Modelled from the spec: the Boolean accessor (dataSample.c is absent).
    The caller must know the kind; on a sample of another kind the model
    answers a fixed dummy, here [false]. *)
Definition dataSample_GetBoolean (sample : dataSample) : bool :=
  match payload sample with PBoolean b => b | _ => false end.

(** Modelled from the spec: the Numeric accessor (dataSample.c is absent);
    the dummy is [0]. *)
Definition dataSample_GetNumeric (sample : dataSample) : float :=
  match payload sample with PNumeric x => x | _ => 0%float end.

(** Modelled from the spec: the String accessor (dataSample.c is absent);
    the dummy is the empty text. *)
Definition dataSample_GetString (sample : dataSample) : string :=
  match payload sample with PString str => str | _ => EmptyString end.

(** Modelled from the spec: the Json accessor (dataSample.c is absent);
    the dummy is the empty text. *)
Definition dataSample_GetJson (sample : dataSample) : string :=
  match payload sample with PJson json => json | _ => EmptyString end.

(** ** Text buffers *)

(** Number of bytes of the UTF-8 character that starts with [lead]. *)
Definition utf8CharLen (lead : ascii) : nat :=
  let n := nat_of_ascii lead in
  if n <? 192 then 1 else if n <? 224 then 2 else if n <? 240 then 3 else 4.

(** The longest prefix of [src] made of whole characters that fits in
    [room] bytes; [pending] counts the continuation bytes still owed to a
    character already admitted. *)
Fixpoint utf8Take (pending room : nat) (src : string) : string :=
  match src with
  | EmptyString => EmptyString
  | String c rest =>
      match pending with
      | S p => String c (utf8Take p room rest)
      | O =>
          let k := utf8CharLen c in
          if k <=? room then String c (utf8Take (k - 1) (room - k) rest)
          else EmptyString
      end
  end.

(** [le_utf8_Copy(dest, src, destSize, NULL)] of the Legato framework: the
    result code and the text left in [dest] (terminator not counted). The
    text fits when it is shorter than [destSize]; otherwise the copy stops
    at the last whole character that leaves room for the terminator. *)
Definition le_utf8_Copy (src : string) (destSize : nat) : le_result_t * string :=
  if String.length src <? destSize then (LE_OK, src)
  else (LE_OVERFLOW, utf8Take 0 (destSize - 1) src).

(** The double-quote character. *)
Definition dquote : ascii := ascii_of_nat 34.

Section JsonProjection.

(** The C library's formatting of a double, and the escaping of a text
    into the inside of a JSON string literal. *)
Variable printDouble : float -> string.
Variable jsonEscape : string -> string.

(** Modelled from the spec: the JSON projection of a sample read at the
    given data type (dataSample.c is absent). Trigger is [null], Boolean
    [true]/[false], Numeric the printed double, String an escaped string
    literal, Json the text verbatim. *)
Definition jsonProjection (sample : dataSample) (dataType : io_DataType_t) : string :=
  match dataType with
  | IO_DATA_TYPE_TRIGGER => "null"
  | IO_DATA_TYPE_BOOLEAN => if dataSample_GetBoolean sample then "true" else "false"
  | IO_DATA_TYPE_NUMERIC => printDouble (dataSample_GetNumeric sample)
  | IO_DATA_TYPE_STRING =>
      String dquote (jsonEscape (dataSample_GetString sample) +:+ String dquote EmptyString)
  | IO_DATA_TYPE_JSON => dataSample_GetJson sample
  end.

(** Modelled from the spec: [dataSample_ConvertToJson] writes the
    projection into the caller's buffer; overflow when it does not fit. *)
Definition dataSample_ConvertToJson (sample : dataSample) (dataType : io_DataType_t)
    (valueBuffSize : nat) : le_result_t * string :=
  le_utf8_Copy (jsonProjection sample dataType) valueBuffSize.

End JsonProjection.

(** ** Entries and the resource tree *)

(** Modelled from the spec: an entry of the resource tree with the
    resource state it carries (resTree.c is absent). [buffer] (oldest sample
    first) and its two caps matter for Observations only; handlers and the
    mandatory flag play no part in what follows and are left out. *)
Record Entry := mkEntry {
  entryType : admin_EntryType_t;
  dataType : io_DataType_t;
  units : string;
  currentValue : option dataSample;
  defaultValue : option dataSample;
  buffer : list dataSample;
  bufferMaxCount : nat;
  bufferMaxWindow : float;
}.

(** A fresh entry of a given role: Trigger type, no units, no data. *)
Definition newEntry (type : admin_EntryType_t) : Entry :=
  mkEntry type IO_DATA_TYPE_TRIGGER EmptyString None None [] 0 infinity.

(** A fresh Input or Output. *)
Definition newIO (type : admin_EntryType_t) (dt : io_DataType_t) (u : string) : Entry :=
  mkEntry type dt u None None [] 0 infinity.

(** Field updates. *)
Definition setDataType (dt : io_DataType_t) (e : Entry) : Entry :=
  mkEntry (entryType e) dt (units e) (currentValue e) (defaultValue e)
          (buffer e) (bufferMaxCount e) (bufferMaxWindow e).

Definition setCurrentValue (v : option dataSample) (e : Entry) : Entry :=
  mkEntry (entryType e) (dataType e) (units e) v (defaultValue e)
          (buffer e) (bufferMaxCount e) (bufferMaxWindow e).

Definition setDefaultValue (v : option dataSample) (e : Entry) : Entry :=
  mkEntry (entryType e) (dataType e) (units e) (currentValue e) v
          (buffer e) (bufferMaxCount e) (bufferMaxWindow e).

Definition setBuffer (b : list dataSample) (e : Entry) : Entry :=
  mkEntry (entryType e) (dataType e) (units e) (currentValue e) (defaultValue e)
          b (bufferMaxCount e) (bufferMaxWindow e).

Abbreviation Tree := (gmap (list string) Entry).

(** A reference to an entry is the path of the entry, [None] for [NULL].
    A path does not go stale the way a C pointer does: where an entry has
    been removed while a reference to it is still held (the namespace
    cached for a session, after the last resource below it was deleted),
    what the C code does through that reference is not in the sources, and
    the properties below that involve a cached namespace are stated for a
    namespace that is in the tree. *)
Abbreviation resTree_EntryRef_t := (option (list string)).

(** The entry a reference designates; [NULL] and dangling references read
    as an entry of type [ADMIN_ENTRY_TYPE_NONE]. *)
Definition entryAt (t : Tree) (ref : resTree_EntryRef_t) : Entry :=
  match ref with
  | Some p => default (newEntry ADMIN_ENTRY_TYPE_NONE) (t !! p)
  | None => newEntry ADMIN_ENTRY_TYPE_NONE
  end.

(** *** Paths *)

(** Modelled from the spec: a path cut at every ['/'] (resTree.c is
    absent); empty segments are kept. *)
Fixpoint splitPath (path : string) : list string :=
  match path with
  | EmptyString => [EmptyString]
  | String c rest =>
      if Ascii.eqb c "/" then EmptyString :: splitPath rest
      else match splitPath rest with
           | seg :: segs => String c seg :: segs
           | [] => [String c EmptyString]
           end
  end.

(** Modelled from the spec: an absolute path starts with ['/']; this
    drops that one character (resTree.c is absent). *)
Definition stripLeadingSlash (path : string) : string :=
  match path with
  | String c rest => if Ascii.eqb c "/" then rest else path
  | EmptyString => path
  end.

(** Modelled from the spec: the path grammar of the Resource Tree
    (resTree.c is absent). One leading ['/'] is allowed, segments are
    non-empty, and the empty path names the base itself; anything else is
    malformed. *)
Definition parsePath (path : string) : option (list string) :=
  let p := stripLeadingSlash path in
  if String.eqb p EmptyString then Some []
  else
    let segs := splitPath p in
    if existsb (String.eqb EmptyString) segs then None else Some segs.

(** *** Lookup and creation *)

(** Modelled from the spec: [getRoot] (resTree.c is absent); the root's
    path is empty. *)
Definition resTree_GetRoot : resTree_EntryRef_t := Some [].

(** Modelled from the spec: [findEntry(base, path)] (resTree.c is absent):
    the entry at [path] under [base], or not-found; a malformed path is
    not-found. A [NULL] base finds nothing. *)
Definition resTree_FindEntry (t : Tree) (base : resTree_EntryRef_t) (path : string)
    : resTree_EntryRef_t :=
  match base, parsePath path with
  | Some b, Some segs =>
      match t !! (b ++ segs) with
      | Some _ => Some (b ++ segs)
      | None => None
      end
  | _, _ => None
  end.

(** Modelled from the spec: [findAtAbsolute(path)] (resTree.c is absent):
    a non-absolute path is not-found. *)
Definition resTree_FindEntryAtAbsolutePath (t : Tree) (path : string) : resTree_EntryRef_t :=
  if String.prefix "/" path then resTree_FindEntry t resTree_GetRoot path else None.

(** Modelled from the spec: lazy creation (resTree.c is absent): walks
    [segs] down from [cur], creating every missing node as a Namespace. *)
Fixpoint materialise (t : Tree) (cur : list string) (segs : list string) : Tree :=
  match segs with
  | [] => t
  | seg :: rest =>
      let next := cur ++ [seg] in
      materialise
        (match t !! next with
         | Some _ => t
         | None => <[next := newEntry ADMIN_ENTRY_TYPE_NAMESPACE]> t
         end)
        next rest
  end.

(** Modelled from the spec: [getEntry(base, path)] (resTree.c is absent):
    the entry at [path] under [base], creating missing nodes. ioService.c
    uses it to obtain namespaces, so missing nodes are created as
    Namespaces and existing entries are returned as they are. Every node on
    the way from the root is looked at, so that the entry has its
    ancestors. *)
Definition resTree_GetEntry (t : Tree) (base : resTree_EntryRef_t) (path : string)
    : resTree_EntryRef_t * Tree :=
  match base, parsePath path with
  | Some b, Some segs => (Some (b ++ segs), materialise t [] (b ++ segs))
  | _, _ => (None, t)
  end.

(** Modelled from the spec: [getInput]/[getOutput] (resTree.c is absent),
    here for the role [type] (Input or Output). A Namespace or Placeholder
    at the path is promoted in place; an entry of the same role with the
    same data type and units is returned as it is; any other resource at
    the path is a conflict ([NULL], tree unchanged); a free path is created
    together with its missing ancestors. The spec does not say what a
    [NULL] base gives; the function answers [NULL] there to be total, and
    [io_CreateInput] and [io_CreateOutput], which hand it the [NULL] of an
    unidentified client, end their run right after it, in
    [resTree_GetEntryName]: no property below is stated of that case. *)
Definition resTree_GetIO (type : admin_EntryType_t) (t : Tree) (base : resTree_EntryRef_t)
    (path : string) (dt : io_DataType_t) (u : string) : resTree_EntryRef_t * Tree :=
  match base, parsePath path with
  | Some b, Some segs =>
      let p := b ++ segs in
      match t !! p with
      | Some e =>
          match entryType e with
          | ADMIN_ENTRY_TYPE_NAMESPACE | ADMIN_ENTRY_TYPE_PLACEHOLDER =>
              (Some p, <[p := newIO type dt u]> t)
          | _ =>
              if decide (entryType e = type ∧ dataType e = dt ∧ units e = u)
              then (Some p, t)
              else (None, t)
          end
      | None => (Some p, <[p := newIO type dt u]> (materialise t [] p))
      end
  | _, _ => (None, t)
  end.

(** Modelled from the spec: [getInput(base, path, dt, units)] (resTree.c
    is absent). *)
Definition resTree_GetInput := resTree_GetIO ADMIN_ENTRY_TYPE_INPUT.

(** Modelled from the spec: [getOutput(base, path, dt, units)], symmetric
    (resTree.c is absent). *)
Definition resTree_GetOutput := resTree_GetIO ADMIN_ENTRY_TYPE_OUTPUT.

(** *** Entry getters *)

(** Modelled from the spec: the role of an entry (resTree.c is absent).
    [FindResource] in ioService.c passes a possibly [NULL] reference, for
    which the answer is [ADMIN_ENTRY_TYPE_NONE]. *)
Definition resTree_GetEntryType (t : Tree) (ref : resTree_EntryRef_t) : admin_EntryType_t :=
  entryType (entryAt t ref).

(** Modelled from the spec: the current data type of an entry (resTree.c
    is absent). *)
Definition resTree_GetDataType (t : Tree) (ref : resTree_EntryRef_t) : io_DataType_t :=
  dataType (entryAt t ref).

(** Modelled from the spec: the units of an entry (resTree.c is absent). *)
Definition resTree_GetUnits (t : Tree) (ref : resTree_EntryRef_t) : string :=
  units (entryAt t ref).

(** Modelled from the spec: a Namespace is the one role that carries no
    resource: the query API answers unsupported for it (resTree.c is
    absent). *)
Definition resTree_IsResource (t : Tree) (ref : resTree_EntryRef_t) : bool :=
  bool_decide (resTree_GetEntryType t ref ≠ ADMIN_ENTRY_TYPE_NAMESPACE).

(** Modelled from the spec: [getCurrentValue(entry)] (resTree.c is absent):
    the current value, else the default, else unavailable. *)
Definition resTree_GetCurrentValue (t : Tree) (ref : resTree_EntryRef_t) : option dataSample :=
  match currentValue (entryAt t ref) with
  | Some sample => Some sample
  | None => defaultValue (entryAt t ref)
  end.

(** Modelled from the spec: whether the optional default is set
    (resTree.c is absent). *)
Definition resTree_HasDefault (t : Tree) (ref : resTree_EntryRef_t) : bool :=
  bool_decide (is_Some (defaultValue (entryAt t ref))).

(** Modelled from the spec: the default is write-once (resTree.c is
    absent); setting it again is a silent no-op. *)
Definition resTree_SetDefault (t : Tree) (ref : resTree_EntryRef_t) (dt : io_DataType_t)
    (sample : dataSample) : Tree :=
  match ref with
  | Some p =>
      match t !! p with
      | Some e =>
          match defaultValue e with
          | Some _ => t
          | None => <[p := setDefaultValue (Some sample) e]> t
          end
      | None => t
      end
  | None => t
  end.

(** *** Deletion *)

(** Modelled from the spec: the parent/child topology (resTree.c is
    absent): [k] is a child of [p] when it is [p] extended by one segment. *)
Definition isChildOf (p k : list string) : bool :=
  bool_decide (k ≠ [] ∧ removelast k = p).

(** Modelled from the spec: whether an entry still has children
    (resTree.c is absent). *)
Definition hasChildren (t : Tree) (p : list string) : bool :=
  existsb (fun kv => isChildOf p kv.1) (map_to_list t).

(** Modelled from the spec: the removal of now-empty Namespace ancestors
    (resTree.c is absent), from the ancestor whose reversed path is [rp]
    upwards; the root stays. *)
Fixpoint pruneUp (t : Tree) (rp : list string) : Tree :=
  match rp with
  | [] => t
  | _ :: up =>
      let p := rev rp in
      match t !! p with
      | Some e =>
          if bool_decide (entryType e = ADMIN_ENTRY_TYPE_NAMESPACE) && negb (hasChildren t p)
          then pruneUp (delete p t) up
          else t
      | None => t
      end
  end.

(** Modelled from the spec: what [deleteIO(entry)] does to the tree
    (resTree.c is absent). An Input or Output with children falls back to a
    Namespace (the role state machine of the spec); without children it is
    removed together with the Namespace ancestors this leaves empty. [None]
    is the fatal caller error for an entry of another role. *)
Definition deleteIO (t : Tree) (ref : resTree_EntryRef_t) : option Tree :=
  match ref with
  | Some p =>
      match t !! p with
      | Some e =>
          if bool_decide (entryType e = ADMIN_ENTRY_TYPE_INPUT
                          ∨ entryType e = ADMIN_ENTRY_TYPE_OUTPUT)
          then
            if hasChildren t p
            then Some (<[p := newEntry ADMIN_ENTRY_TYPE_NAMESPACE]> t)
            else Some (pruneUp (delete p t) (tail (rev p)))
          else None
      | None => None
      end
  | None => None
  end.

(** *** Observation buffers *)

(** Modelled from the spec: [SECONDS_IN_30_YEARS] (dataHub.h is absent),
    thirty years of 365 days. *)
Definition SECONDS_IN_30_YEARS : float := 946080000%float.

(** Modelled from the spec: eviction from an Observation's buffer
    (resTree.c is absent): the oldest samples leave while the buffer holds
    more than [maxCount] samples or spans more than [window] seconds up to
    [newest]. *)
Fixpoint evict (maxCount : nat) (window newest : float) (buf : list dataSample)
    : list dataSample :=
  match buf with
  | [] => []
  | oldest :: rest =>
      if (maxCount <? length buf)
         || PrimFloat.ltb window (PrimFloat.sub newest (timestamp oldest))
      then evict maxCount window newest rest
      else buf
  end.

(** Modelled from the spec: how a read resolves its [startAfter] argument
    (4.4; resTree.c is absent). *)
Inductive ReadStart :=
| RejectedStart
| WholeBuffer
| StartingAfter (start : float).

(** Modelled from the spec: the four cases of [startAfter] (4.4; resTree.c
    is absent): zero or negative is a caller-contract violation; NaN is the
    whole buffer; less than thirty years is that many seconds before [now];
    anything else is seconds since the Epoch. *)
Definition resolveStart (now startAfter : float) : ReadStart :=
  if PrimFloat.ltb startAfter 0 || PrimFloat.eqb startAfter 0 then RejectedStart
  else if PrimFloat.is_nan startAfter then WholeBuffer
  else if PrimFloat.ltb startAfter SECONDS_IN_30_YEARS
       then StartingAfter (PrimFloat.sub now startAfter)
       else StartingAfter startAfter.

(** Modelled from the spec: the samples of a buffer that a read starting
    after [startAfter] reports, in push order, or [None] where the read is
    rejected (resTree.c is absent). *)
Definition samplesAfter (now startAfter : float) (buf : list dataSample)
    : option (list dataSample) :=
  match resolveStart now startAfter with
  | RejectedStart => None
  | WholeBuffer => Some buf
  | StartingAfter start =>
      Some (List.filter (fun sample => PrimFloat.ltb start (timestamp sample)) buf)
  end.

(** ** The hub's state and its monad *)

(** What the IPC layer answers about the client of the current call:
    [le_msg_GetClientProcessId] and [le_appInfo_GetName]. *)
Record ClientIdentity := mkClient {
  processId : le_result_t * Z;
  appName : le_result_t * string;
}.

(** The state of the hub during a client's session: the resource tree,
    the session's context pointer (the cached namespace of the client), who
    the client is, whether the session has been terminated, the wall clock,
    and what has been written to output files, in order. *)
Record HubState := mkHub {
  tree : Tree;
  sessionContextPtr : resTree_EntryRef_t;
  client : ClientIdentity;
  clientKilled : bool;
  wallClock : float;
  outputFiles : list (Z * list dataSample);
}.

(** Field updates. *)
Definition setTree (t : Tree) (s : HubState) : HubState :=
  mkHub t (sessionContextPtr s) (client s) (clientKilled s) (wallClock s) (outputFiles s).

Definition setSessionContextPtr (ref : resTree_EntryRef_t) (s : HubState) : HubState :=
  mkHub (tree s) ref (client s) (clientKilled s) (wallClock s) (outputFiles s).

Definition killClient (s : HubState) : HubState :=
  mkHub (tree s) (sessionContextPtr s) (client s) true (wallClock s) (outputFiles s).

Definition writeFile (fd : Z) (samples : list dataSample) (s : HubState) : HubState :=
  mkHub (tree s) (sessionContextPtr s) (client s) (clientKilled s) (wallClock s)
        (outputFiles s ++ [(fd, samples)]).

(** A call either returns a value in a new state or ends the process: in
    [LE_FATAL], or where a name is read through a [NULL] reference. *)
Inductive Outcome (A : Type) : Type :=
| Done (a : A) (s : HubState)
| Fatal (msg : string).

Arguments Done {A} a s.
Arguments Fatal {A} msg.

(** A call of the hub, as a function of the state it starts in. *)
Definition Hub (A : Type) : Type := HubState -> Outcome A.

(** Returning a value. *)
Definition hub_ret {A} (a : A) : Hub A := fun s => Done a s.

(** Sequencing: a fatal error ends the call. *)
Definition hub_bind {A B} (m : Hub A) (k : A -> Hub B) : Hub B :=
  fun s => match m s with
           | Done a s' => k a s'
           | Fatal msg => Fatal msg
           end.

Declare Scope hub_scope.
Delimit Scope hub_scope with hub.
Bind Scope hub_scope with Hub.

Notation "x <- m ;; k" := (hub_bind m (fun x => k))
  (at level 100, m at next level, right associativity) : hub_scope.
Notation "m ;; k" := (hub_bind m (fun _ => k))
  (at level 100, right associativity) : hub_scope.

Local Open Scope hub_scope.

(** Reading from the resource tree. *)
Definition readTree {A} (f : Tree -> A) : Hub A := fun s => Done (f (tree s)) s.

(** Acting on the resource tree. *)
Definition onTree {A} (f : Tree -> A * Tree) : Hub A :=
  fun s => let (a, t) := f (tree s) in Done a (setTree t s).

(** Reading from the state. *)
Definition gets {A} (f : HubState -> A) : Hub A := fun s => Done (f s) s.

(** Changing the state. *)
Definition modify (f : HubState -> HubState) : Hub unit := fun s => Done tt (f s).

(** [LE_KILL_CLIENT]: the client session is terminated; the call goes on. *)
Definition LE_KILL_CLIENT (msg : string) : Hub unit := modify killClient.

(** [LE_FATAL]: the process dies. *)
Definition LE_FATAL {A} (msg : string) : Hub A := fun _ => Fatal msg.

(** Modelled from the spec: the push pipeline [push(entry, kind, sample)]
    (resTree.c is absent). A zero timestamp is replaced by the wall clock; an
    Input or Output rejects a sample of another kind than its data type and
    the caller is a contract violator; an Observation or Placeholder takes
    any kind and its data type follows; the sample becomes the current value
    and, on an Observation, joins the buffer, the oldest samples leaving when
    a cap is exceeded. A Namespace in the pipeline is an internal error.
    Handler fan-out does not touch the tree and is left out, and so are the
    observations bound to the entry, which are set up administratively. *)
Definition resTree_Push (ref : resTree_EntryRef_t) (kind : io_DataType_t)
    (sample : dataSample) : Hub unit :=
  now <- gets wallClock ;;
  t <- gets tree ;;
  let stamped :=
    if PrimFloat.eqb (timestamp sample) 0 then mkSample now (payload sample) else sample in
  match ref with
  | Some p =>
      let e := entryAt t ref in
      match entryType e with
      | ADMIN_ENTRY_TYPE_INPUT | ADMIN_ENTRY_TYPE_OUTPUT =>
          if decide (kind = dataType e)
          then modify (setTree (<[p := setCurrentValue (Some stamped) e]> t))
          else LE_KILL_CLIENT "Push of the wrong data type."
      | ADMIN_ENTRY_TYPE_PLACEHOLDER =>
          modify (setTree (<[p := setCurrentValue (Some stamped) (setDataType kind e)]> t))
      | ADMIN_ENTRY_TYPE_OBSERVATION =>
          let buf := evict (bufferMaxCount e) (bufferMaxWindow e) (timestamp stamped)
                           (buffer e ++ [stamped]) in
          modify (setTree
            (<[p := setBuffer buf (setCurrentValue (Some stamped) (setDataType kind e))]> t))
      | _ => LE_FATAL "Unexpected entry type."
      end
  | None => LE_FATAL "Unexpected entry type."
  end.

(** Modelled from the spec: [readBufferJson(entry, startAfter, sink, ...)]
    (4.4 and 7; resTree.c is absent): a [startAfter] of zero or less is a
    caller-contract violation, the client session is terminated and nothing
    is written; otherwise the matching samples of the entry's buffer go to
    the output file, as one JSON array. The file is recorded with the
    samples the array lists. *)
Definition resTree_ReadBufferJson (ref : resTree_EntryRef_t) (startAfter : float)
    (outputFile : Z) : Hub unit :=
  now <- gets wallClock ;;
  t <- gets tree ;;
  match samplesAfter now startAfter (buffer (entryAt t ref)) with
  | None => LE_KILL_CLIENT "startAfter is zero or negative."
  | Some samples => modify (writeFile outputFile samples)
  end.

(** Modelled from the spec: [resTree_DeleteIO] (resTree.c is absent):
    [deleteIO] on the hub's tree; a wrong role is fatal. *)
Definition resTree_DeleteIO (ref : resTree_EntryRef_t) : Hub unit :=
  t <- gets tree ;;
  match deleteIO t ref with
  | Some t' => modify (setTree t')
  | None => LE_FATAL "Not an Input or an Output."
  end.

(** Modelled from the spec: the name of an entry, the last segment of its
    path, empty for the root (3.1; resTree.c is absent). There is no entry
    behind a [NULL] reference to take a name from: the run ends there, as a
    read through a null pointer ends the process. *)
Definition resTree_GetEntryName (ref : resTree_EntryRef_t) : Hub string :=
  match ref with
  | Some p => hub_ret (List.last p EmptyString)
  | None => fun _ => Fatal "NULL entry reference."
  end.

(** ** ioService.c *)

(** What a getter hands back: its result code and what it wrote through
    its timestamp and value pointers. *)
Record Fetched (V : Type) := mkFetched {
  result : le_result_t;
  timestampOut : option float;
  valueOut : option V;
}.

Arguments mkFetched {V} result timestampOut valueOut.
Arguments result {V} f.
Arguments timestampOut {V} f.
Arguments valueOut {V} f.

(** Get the client app's namespace. *)
Definition GetClientNamespace : Hub resTree_EntryRef_t :=
  nsRef <- gets sessionContextPtr ;;
  match nsRef with
  | Some _ => hub_ret nsRef
  | None =>
      id <- gets client ;;
      let (result, clientPid) := processId id in
      if decide (result ≠ LE_OK)
      then (LE_KILL_CLIENT "Unable to retrieve client process ID" ;; hub_ret None)
      else
        let (result, name) := appName id in
        if decide (result ≠ LE_OK)
        then (LE_KILL_CLIENT "Unable to retrieve client app name" ;; hub_ret None)
        else
          nsRef <- onTree (fun t => resTree_GetEntry t resTree_GetRoot "app") ;;
          nsRef <- onTree (fun t => resTree_GetEntry t nsRef name) ;;
          modify (setSessionContextPtr nsRef) ;;
          hub_ret nsRef
  end.

(** Get the resource at a given path within the app's namespace. *)
Definition FindResource (path : string) : Hub resTree_EntryRef_t :=
  entryRef <- GetClientNamespace ;;
  entryRef <- match entryRef with
              | Some _ => readTree (fun t => resTree_FindEntry t entryRef path)
              | None => hub_ret entryRef
              end ;;
  entryType <- readTree (fun t => resTree_GetEntryType t entryRef) ;;
  if bool_decide (entryType ≠ ADMIN_ENTRY_TYPE_INPUT)
     && bool_decide (entryType ≠ ADMIN_ENTRY_TYPE_OUTPUT)
  then hub_ret None
  else hub_ret entryRef.

(** Create an input resource. *)
Definition io_CreateInput (path : string) (dataType : io_DataType_t) (units : string)
    : Hub le_result_t :=
  nsRef <- GetClientNamespace ;;
  resRef <- match nsRef with
            | Some _ => readTree (fun t => resTree_FindEntry t nsRef path)
            | None => hub_ret None
            end ;;
  let create : Hub le_result_t :=
    resRef <- onTree (fun t => resTree_GetInput t nsRef path dataType units) ;;
    match resRef with
    | None =>
        name <- resTree_GetEntryName nsRef ;;
        LE_KILL_CLIENT ("Failed to create Input '/app/" +:+ name +:+ "/" +:+ path +:+ "'.") ;;
        hub_ret LE_FAULT
    | Some _ => hub_ret LE_OK
    end in
  match resRef with
  | Some _ =>
      type <- readTree (fun t => resTree_GetEntryType t resRef) ;;
      match type with
      | ADMIN_ENTRY_TYPE_INPUT =>
          actualType <- readTree (fun t => resTree_GetDataType t resRef) ;;
          actualUnits <- readTree (fun t => resTree_GetUnits t resRef) ;;
          if bool_decide (actualType ≠ dataType) || bool_decide (units ≠ actualUnits)
          then hub_ret LE_DUPLICATE
          else hub_ret LE_OK
      | ADMIN_ENTRY_TYPE_OUTPUT | ADMIN_ENTRY_TYPE_OBSERVATION => hub_ret LE_DUPLICATE
      | ADMIN_ENTRY_TYPE_NAMESPACE | ADMIN_ENTRY_TYPE_PLACEHOLDER => create
      | ADMIN_ENTRY_TYPE_NONE => LE_FATAL "Unexpected entry type."
      end
  | None => create
  end.

(** Create an output resource. *)
Definition io_CreateOutput (path : string) (dataType : io_DataType_t) (units : string)
    : Hub le_result_t :=
  nsRef <- GetClientNamespace ;;
  resRef <- match nsRef with
            | Some _ => readTree (fun t => resTree_FindEntry t nsRef path)
            | None => hub_ret None
            end ;;
  let create : Hub le_result_t :=
    resRef <- onTree (fun t => resTree_GetOutput t nsRef path dataType units) ;;
    match resRef with
    | None =>
        name <- resTree_GetEntryName nsRef ;;
        LE_KILL_CLIENT ("Failed to create Output '/app/" +:+ name +:+ "/" +:+ path +:+ "'.") ;;
        hub_ret LE_FAULT
    | Some _ => hub_ret LE_OK
    end in
  match resRef with
  | Some _ =>
      type <- readTree (fun t => resTree_GetEntryType t resRef) ;;
      match type with
      | ADMIN_ENTRY_TYPE_OUTPUT =>
          actualType <- readTree (fun t => resTree_GetDataType t resRef) ;;
          actualUnits <- readTree (fun t => resTree_GetUnits t resRef) ;;
          if bool_decide (actualType ≠ dataType) || bool_decide (units ≠ actualUnits)
          then hub_ret LE_DUPLICATE
          else hub_ret LE_OK
      | ADMIN_ENTRY_TYPE_INPUT | ADMIN_ENTRY_TYPE_OBSERVATION => hub_ret LE_DUPLICATE
      | ADMIN_ENTRY_TYPE_NAMESPACE | ADMIN_ENTRY_TYPE_PLACEHOLDER => create
      | ADMIN_ENTRY_TYPE_NONE => LE_FATAL "Unexpected entry type."
      end
  | None => create
  end.

(** Delete a resource. Does nothing if the resource doesn't exist. *)
Definition io_DeleteResource (path : string) : Hub unit :=
  resRef <- FindResource path ;;
  match resRef with
  | Some _ => resTree_DeleteIO resRef
  | None => hub_ret tt
  end.

(** Push a trigger type data sample. *)
Definition io_PushTrigger (path : string) (timestamp : float) : Hub unit :=
  resRef <- FindResource path ;;
  match resRef with
  | None => LE_KILL_CLIENT "Client tried to push data to a non-existent resource."
  | Some _ =>
      let sampleRef := dataSample_CreateTrigger timestamp in
      resTree_Push resRef IO_DATA_TYPE_TRIGGER sampleRef
  end.

(** Push a Boolean type data sample. *)
Definition io_PushBoolean (path : string) (timestamp : float) (value : bool) : Hub unit :=
  resRef <- FindResource path ;;
  match resRef with
  | None => LE_KILL_CLIENT "Client tried to push data to a non-existent resource."
  | Some _ =>
      let sampleRef := dataSample_CreateBoolean timestamp value in
      resTree_Push resRef IO_DATA_TYPE_BOOLEAN sampleRef
  end.

(** Push a numeric type data sample. *)
Definition io_PushNumeric (path : string) (timestamp : float) (value : float) : Hub unit :=
  resRef <- FindResource path ;;
  match resRef with
  | None => LE_KILL_CLIENT "Client tried to push data to a non-existent resource."
  | Some _ =>
      let sampleRef := dataSample_CreateNumeric timestamp value in
      resTree_Push resRef IO_DATA_TYPE_NUMERIC sampleRef
  end.

(** Push a string type data sample. *)
Definition io_PushString (path : string) (timestamp : float) (value : string) : Hub unit :=
  resRef <- FindResource path ;;
  match resRef with
  | None => LE_KILL_CLIENT "Client tried to push data to a non-existent resource."
  | Some _ =>
      let sampleRef := dataSample_CreateString timestamp value in
      resTree_Push resRef IO_DATA_TYPE_STRING sampleRef
  end.

(** Push a JSON data sample. *)
Definition io_PushJson (path : string) (timestamp : float) (value : string) : Hub unit :=
  resRef <- FindResource path ;;
  match resRef with
  | None => LE_KILL_CLIENT "Client tried to push data to a non-existent resource."
  | Some _ =>
      let sampleRef := dataSample_CreateJson timestamp value in
      resTree_Push resRef IO_DATA_TYPE_JSON sampleRef
  end.

(** Set a Boolean type value as the default value of a given resource. *)
Definition io_SetBooleanDefault (path : string) (value : bool) : Hub unit :=
  resRef <- FindResource path ;;
  t <- gets tree ;;
  match resRef with
  | None => LE_KILL_CLIENT "Attempt to set default value of non-existent resource."
  | Some _ =>
      if bool_decide (resTree_GetDataType t resRef ≠ IO_DATA_TYPE_BOOLEAN)
      then LE_KILL_CLIENT "Attempt to set default value to wrong type for resource."
      else if negb (resTree_HasDefault t resRef)
      then
        let sampleRef := dataSample_CreateBoolean 0 value in
        modify (setTree (resTree_SetDefault t resRef IO_DATA_TYPE_BOOLEAN sampleRef))
      else hub_ret tt
  end.

(** Set a numeric type value as the default value of a given resource. *)
Definition io_SetNumericDefault (path : string) (value : float) : Hub unit :=
  resRef <- FindResource path ;;
  t <- gets tree ;;
  match resRef with
  | None => LE_KILL_CLIENT "Attempt to set default value of non-existent resource."
  | Some _ =>
      if bool_decide (resTree_GetDataType t resRef ≠ IO_DATA_TYPE_NUMERIC)
      then LE_KILL_CLIENT "Attempt to set default value to wrong type for resource."
      else if negb (resTree_HasDefault t resRef)
      then
        let sampleRef := dataSample_CreateNumeric 0 value in
        modify (setTree (resTree_SetDefault t resRef IO_DATA_TYPE_NUMERIC sampleRef))
      else hub_ret tt
  end.

(** Set a string type value as the default value of a given resource. *)
Definition io_SetStringDefault (path : string) (value : string) : Hub unit :=
  resRef <- FindResource path ;;
  t <- gets tree ;;
  match resRef with
  | None => LE_KILL_CLIENT "Attempt to set default value of non-existent resource."
  | Some _ =>
      if bool_decide (resTree_GetDataType t resRef ≠ IO_DATA_TYPE_STRING)
      then LE_KILL_CLIENT "Attempt to set default value to wrong type for resource."
      else if negb (resTree_HasDefault t resRef)
      then
        let sampleRef := dataSample_CreateString 0 value in
        modify (setTree (resTree_SetDefault t resRef IO_DATA_TYPE_STRING sampleRef))
      else hub_ret tt
  end.

(** Set a JSON type value as the default value of a given resource. *)
Definition io_SetJsonDefault (path : string) (value : string) : Hub unit :=
  resRef <- FindResource path ;;
  t <- gets tree ;;
  match resRef with
  | None => LE_KILL_CLIENT "Attempt to set default value of non-existent resource."
  | Some _ =>
      if bool_decide (resTree_GetDataType t resRef ≠ IO_DATA_TYPE_JSON)
      then LE_KILL_CLIENT "Attempt to set default value to wrong type for resource."
      else if negb (resTree_HasDefault t resRef)
      then
        let sampleRef := dataSample_CreateJson 0 value in
        modify (setTree (resTree_SetDefault t resRef IO_DATA_TYPE_JSON sampleRef))
      else hub_ret tt
  end.

(** Get the current value of a given resource, with type check. Kills the
    client if the type doesn't match. *)
Definition GetCurrentValue (resRef : resTree_EntryRef_t) (dataType : io_DataType_t)
    : Hub (option dataSample) :=
  t <- gets tree ;;
  if bool_decide (resTree_GetDataType t resRef ≠ dataType)
  then (LE_KILL_CLIENT "Fetch of wrong data type on resource." ;; hub_ret None)
  else hub_ret (resTree_GetCurrentValue t resRef).

(** Fetch the timestamp of the current value of an Input or Output. *)
Definition io_GetTimestamp (path : string) : Hub (le_result_t * option float) :=
  resRef <- FindResource path ;;
  t <- gets tree ;;
  match resRef with
  | None => hub_ret (LE_NOT_FOUND, None)
  | Some _ =>
      match resTree_GetCurrentValue t resRef with
      | None => hub_ret (LE_UNAVAILABLE, None)
      | Some currentValue => hub_ret (LE_OK, Some (dataSample_GetTimestamp currentValue))
      end
  end.

(** Fetch the current value of a Boolean type Input or Output. *)
Definition io_GetBoolean (path : string) : Hub (Fetched bool) :=
  resRef <- FindResource path ;;
  match resRef with
  | None => hub_ret (mkFetched LE_NOT_FOUND None None)
  | Some _ =>
      currentValue <- GetCurrentValue resRef IO_DATA_TYPE_BOOLEAN ;;
      match currentValue with
      | None => hub_ret (mkFetched LE_UNAVAILABLE None None)
      | Some sample => hub_ret (mkFetched LE_OK None (Some (dataSample_GetBoolean sample)))
      end
  end.

(** Fetch the current value of a numeric type Input or Output. *)
Definition io_GetNumeric (path : string) : Hub (Fetched float) :=
  resRef <- FindResource path ;;
  match resRef with
  | None => hub_ret (mkFetched LE_NOT_FOUND None None)
  | Some _ =>
      currentValue <- GetCurrentValue resRef IO_DATA_TYPE_NUMERIC ;;
      match currentValue with
      | None => hub_ret (mkFetched LE_UNAVAILABLE None None)
      | Some sample => hub_ret (mkFetched LE_OK None (Some (dataSample_GetNumeric sample)))
      end
  end.

(** Fetch the current value of a string type Input or Output. *)
Definition io_GetString (path : string) (valueSize : nat) : Hub (Fetched string) :=
  resRef <- FindResource path ;;
  match resRef with
  | None => hub_ret (mkFetched LE_NOT_FOUND None None)
  | Some _ =>
      currentValue <- GetCurrentValue resRef IO_DATA_TYPE_STRING ;;
      match currentValue with
      | None => hub_ret (mkFetched LE_UNAVAILABLE None None)
      | Some sample =>
          let (copied, value) := le_utf8_Copy (dataSample_GetString sample) valueSize in
          hub_ret (mkFetched copied None (Some value))
      end
  end.

Section JsonGetters.

Variable printDouble : float -> string.
Variable jsonEscape : string -> string.

(** Fetch the current value of an Input or Output (of any data type) in
    JSON format. *)
Definition io_GetJson (path : string) (valueSize : nat) : Hub (Fetched string) :=
  resRef <- FindResource path ;;
  t <- gets tree ;;
  match resRef with
  | None => hub_ret (mkFetched LE_NOT_FOUND None None)
  | Some _ =>
      match resTree_GetCurrentValue t resRef with
      | None => hub_ret (mkFetched LE_UNAVAILABLE None None)
      | Some currentValue =>
          let (converted, value) :=
            dataSample_ConvertToJson printDouble jsonEscape currentValue
                                     (resTree_GetDataType t resRef) valueSize in
          hub_ret (mkFetched converted None (Some value))
      end
  end.

(** Get the current value of a resource of any type, in JSON format. *)
Definition query_GetJson (t : Tree) (path : string) (valueSize : nat) : Fetched string :=
  let entryRef := resTree_FindEntryAtAbsolutePath t path in
  match entryRef with
  | None => mkFetched LE_NOT_FOUND None None
  | Some _ =>
      if negb (resTree_IsResource t entryRef) then mkFetched LE_UNSUPPORTED None None
      else
        match resTree_GetCurrentValue t entryRef with
        | None => mkFetched LE_UNAVAILABLE None None
        | Some sampleRef =>
            let timestampPtr := Some (dataSample_GetTimestamp sampleRef) in
            let dataType := resTree_GetDataType t entryRef in
            if decide (dataType = IO_DATA_TYPE_JSON)
            then
              let (copied, value) := le_utf8_Copy (dataSample_GetJson sampleRef) valueSize in
              mkFetched copied timestampPtr (Some value)
            else
              let (converted, value) :=
                dataSample_ConvertToJson printDouble jsonEscape sampleRef dataType valueSize in
              mkFetched converted timestampPtr (Some value)
        end
  end.

End JsonGetters.

(** ** queryService.c *)

(** Find an Observation. *)
Definition FindObservation (t : Tree) (path : string) : resTree_EntryRef_t :=
  let checked (entry : resTree_EntryRef_t) : resTree_EntryRef_t :=
    match entry with
    | None => None
    | Some _ =>
        if bool_decide (resTree_GetEntryType t entry ≠ ADMIN_ENTRY_TYPE_OBSERVATION)
        then None
        else entry
    end in
  if String.prefix "/obs/" path
  then checked (resTree_FindEntry t resTree_GetRoot path)
  else if String.prefix "/" path
  then None
  else
    match resTree_FindEntry t resTree_GetRoot "obs" with
    | None => None
    | Some obsNamespace => checked (resTree_FindEntry t (Some obsNamespace) path)
    end.

(** Read data out of a buffer. *)
Definition query_ReadBufferJson (obsPath : string) (startAfter : float) (outputFile : Z)
    : Hub le_result_t :=
  entryRef <- readTree (fun t => FindObservation t obsPath) ;;
  match entryRef with
  | None => hub_ret LE_NOT_FOUND
  | Some _ =>
      if PrimFloat.ltb startAfter 0
      then (LE_KILL_CLIENT "Negative startAfter time provided." ;; hub_ret LE_OK)
      else (resTree_ReadBufferJson entryRef startAfter outputFile ;; hub_ret LE_OK)
  end.

(** Get the minimum value found in an Observation's data set within a
    given time span. *)
Definition query_GetMin (t : Tree) (obsPath : string) (startTime : float) : float :=
  match FindObservation t obsPath with
  | None => nan
  | Some _ => nan
  end.

(** Get the maximum value found within a given time span in an
    Observation's buffer. *)
Definition query_GetMax (t : Tree) (obsPath : string) (startTime : float) : float :=
  match FindObservation t obsPath with
  | None => nan
  | Some _ => nan
  end.

(** Get the mean of all values found within a given time span in an
    Observation's buffer. *)
Definition query_GetMean (t : Tree) (obsPath : string) (startTime : float) : float :=
  match FindObservation t obsPath with
  | None => nan
  | Some _ => nan
  end.

(** Get the standard deviation of all values found within a given time
    span in an Observation's buffer. *)
Definition query_GetStdDev (t : Tree) (obsPath : string) (startTime : float) : float :=
  match FindObservation t obsPath with
  | None => nan
  | Some _ => nan
  end.

(** Get the current data type of a resource. *)
Definition query_GetDataType (t : Tree) (path : string) : le_result_t * option io_DataType_t :=
  let entryRef := resTree_FindEntryAtAbsolutePath t path in
  match entryRef with
  | None => (LE_NOT_FOUND, None)
  | Some _ =>
      if negb (resTree_IsResource t entryRef) then (LE_UNSUPPORTED, None)
      else (LE_OK, Some (resTree_GetDataType t entryRef))
  end.

(** Get the current units of a resource. *)
Definition query_GetUnits (t : Tree) (path : string) (unitsSize : nat)
    : le_result_t * option string :=
  let entryRef := resTree_FindEntryAtAbsolutePath t path in
  match entryRef with
  | None => (LE_NOT_FOUND, None)
  | Some _ =>
      if negb (resTree_IsResource t entryRef) then (LE_UNSUPPORTED, None)
      else
        let (copied, units) := le_utf8_Copy (resTree_GetUnits t entryRef) unitsSize in
        (copied, Some units)
  end.

(** Get the timestamp of the current value of a resource. *)
Definition query_GetTimestamp (t : Tree) (path : string) : le_result_t * option float :=
  let entryRef := resTree_FindEntryAtAbsolutePath t path in
  match entryRef with
  | None => (LE_NOT_FOUND, None)
  | Some _ =>
      if negb (resTree_IsResource t entryRef) then (LE_UNSUPPORTED, None)
      else
        match resTree_GetCurrentValue t entryRef with
        | None => (LE_UNAVAILABLE, None)
        | Some sampleRef => (LE_OK, Some (dataSample_GetTimestamp sampleRef))
        end
  end.

(** Get the current value of a resource, if it's Boolean type. *)
Definition query_GetBoolean (t : Tree) (path : string) : Fetched bool :=
  let entryRef := resTree_FindEntryAtAbsolutePath t path in
  match entryRef with
  | None => mkFetched LE_NOT_FOUND None None
  | Some _ =>
      if negb (resTree_IsResource t entryRef) then mkFetched LE_UNSUPPORTED None None
      else
        match resTree_GetCurrentValue t entryRef with
        | None => mkFetched LE_UNAVAILABLE None None
        | Some sampleRef =>
            if bool_decide (resTree_GetDataType t entryRef ≠ IO_DATA_TYPE_BOOLEAN)
            then mkFetched LE_FORMAT_ERROR None None
            else mkFetched LE_OK (Some (dataSample_GetTimestamp sampleRef))
                           (Some (dataSample_GetBoolean sampleRef))
        end
  end.

(** Get the current value of a resource, if it's numeric type. *)
Definition query_GetNumeric (t : Tree) (path : string) : Fetched float :=
  let entryRef := resTree_FindEntryAtAbsolutePath t path in
  match entryRef with
  | None => mkFetched LE_NOT_FOUND None None
  | Some _ =>
      if negb (resTree_IsResource t entryRef) then mkFetched LE_UNSUPPORTED None None
      else
        match resTree_GetCurrentValue t entryRef with
        | None => mkFetched LE_UNAVAILABLE None None
        | Some sampleRef =>
            if bool_decide (resTree_GetDataType t entryRef ≠ IO_DATA_TYPE_NUMERIC)
            then mkFetched LE_FORMAT_ERROR None None
            else mkFetched LE_OK (Some (dataSample_GetTimestamp sampleRef))
                           (Some (dataSample_GetNumeric sampleRef))
        end
  end.

(** Get the current value of a resource, if it's a string type. *)
Definition query_GetString (t : Tree) (path : string) (valueSize : nat) : Fetched string :=
  let entryRef := resTree_FindEntryAtAbsolutePath t path in
  match entryRef with
  | None => mkFetched LE_NOT_FOUND None None
  | Some _ =>
      if negb (resTree_IsResource t entryRef) then mkFetched LE_UNSUPPORTED None None
      else
        match resTree_GetCurrentValue t entryRef with
        | None => mkFetched LE_UNAVAILABLE None None
        | Some sampleRef =>
            if bool_decide (resTree_GetDataType t entryRef ≠ IO_DATA_TYPE_STRING)
            then mkFetched LE_FORMAT_ERROR None None
            else
              let (copied, value) := le_utf8_Copy (dataSample_GetString sampleRef) valueSize in
              mkFetched copied (Some (dataSample_GetTimestamp sampleRef)) (Some value)
        end
  end.

(** ** Running calls *)

(** The state a call leaves; a fatal call leaves no state, and the state
    before it is reported. *)
Definition stateAfter {A} (m : Hub A) (s : HubState) : HubState :=
  match m s with
  | Done _ s' => s'
  | Fatal _ => s
  end.

(** The value a call returns, if it returns. *)
Definition valueOf {A} (m : Hub A) (s : HubState) : option A :=
  match m s with
  | Done a _ => Some a
  | Fatal _ => None
  end.

(** Every entry but the root has its parent in the tree (the spec's
    "each entry has exactly one parent except the root"). *)
Definition tree_wf (t : Tree) : Prop :=
  map_Forall (fun k _ => is_Some (t !! removelast k)) t.

#[global] Instance tree_wf_dec (t : Tree) : Decision (tree_wf t).
Proof. unfold tree_wf. apply _. Defined.

(** The roles that carry a client-visible or administrative resource. *)
Definition isResourceRole (type : admin_EntryType_t) : Prop :=
  type = ADMIN_ENTRY_TYPE_INPUT ∨ type = ADMIN_ENTRY_TYPE_OUTPUT
  ∨ type = ADMIN_ENTRY_TYPE_OBSERVATION.

(** An existing resource [e] stands in the way of creating a resource of
    role [type] with data type [dt] and units [u]: another role, or the
    same role with another data type or other units. *)
Definition conflictsWith (type : admin_EntryType_t) (dt : io_DataType_t) (u : string)
    (e : Entry) : Prop :=
  isResourceRole (entryType e)
  ∧ (entryType e ≠ type ∨ dataType e ≠ dt ∨ units e ≠ u).

(** ** The aggregates as the documentation states them *)

(** The numeric values of the samples at or after [start]. *)
Definition numericInRange (start : float) (buf : list dataSample) : list float :=
  flat_map (fun sample =>
              match payload sample with
              | PNumeric x => if PrimFloat.leb start (timestamp sample) then [x] else []
              | _ => []
              end) buf.

Definition floatSum (xs : list float) : float :=
  fold_left PrimFloat.add xs 0%float.

Definition floatCount (xs : list float) : float :=
  fold_left (fun n _ => PrimFloat.add n 1) xs 0%float.

(** Minimum, maximum, arithmetic mean and population standard deviation
    of a list of values; NaN for the empty list. *)
Definition documented_min (xs : list float) : float :=
  match xs with
  | [] => nan
  | x :: rest => fold_left (fun m y => if PrimFloat.ltb y m then y else m) rest x
  end.

Definition documented_max (xs : list float) : float :=
  match xs with
  | [] => nan
  | x :: rest => fold_left (fun m y => if PrimFloat.ltb m y then y else m) rest x
  end.

Definition documented_mean (xs : list float) : float :=
  match xs with
  | [] => nan
  | _ => PrimFloat.div (floatSum xs) (floatCount xs)
  end.

Definition documented_stddev (xs : list float) : float :=
  match xs with
  | [] => nan
  | _ =>
      let mean := documented_mean xs in
      let squares := List.map (fun x => PrimFloat.mul (PrimFloat.sub x mean)
                                                      (PrimFloat.sub x mean)) xs in
      PrimFloat.sqrt (PrimFloat.div (floatSum squares) (floatCount xs))
  end.

(** ** Sample states *)

Definition sensord : ClientIdentity := mkClient (LE_OK, 42%Z) (LE_OK, "sensord").

(** The tree of a hub that has just started: the root alone. *)
Definition emptyTree : Tree := {[ [] := newEntry ADMIN_ENTRY_TYPE_NAMESPACE ]}.

Definition startHub : HubState :=
  mkHub emptyTree None sensord false 1700000100%float [].

(** An Observation [/obs/o] that keeps up to three samples. *)
Definition observationTree : Tree :=
  <[ ["obs"; "o"] := mkEntry ADMIN_ENTRY_TYPE_OBSERVATION IO_DATA_TYPE_TRIGGER EmptyString
                             None None [] 3 infinity ]>
    (<[ ["obs"] := newEntry ADMIN_ENTRY_TYPE_NAMESPACE ]> emptyTree).

(** [/obs/o] after three numeric pushes: 10, 20 and 30, one second apart. *)
Definition observationHub : HubState :=
  let obs := Some ["obs"; "o"] in
  stateAfter
    (resTree_Push obs IO_DATA_TYPE_NUMERIC (dataSample_CreateNumeric 1700000001 10) ;;
     resTree_Push obs IO_DATA_TYPE_NUMERIC (dataSample_CreateNumeric 1700000002 20) ;;
     resTree_Push obs IO_DATA_TYPE_NUMERIC (dataSample_CreateNumeric 1700000003 30))
    (mkHub observationTree None sensord false 1700000100%float []).

(** The client has created the numeric Input [temp] in degrees Celsius. *)
Definition inputHub : HubState :=
  stateAfter (io_CreateInput "temp" IO_DATA_TYPE_NUMERIC "degC") startHub.

(** The client has created the Boolean Output [y]. *)
Definition outputHub : HubState :=
  stateAfter (io_CreateOutput "y" IO_DATA_TYPE_BOOLEAN EmptyString) startHub.

(** The client has created [temp] and the hub also holds [/obs/o]. *)
Definition mixedHub : HubState :=
  stateAfter (io_CreateInput "temp" IO_DATA_TYPE_NUMERIC "degC")
             (mkHub (tree observationHub) None sensord false 1700000100%float []).

(** The client has pushed 21.5 to [temp]. *)
Definition pushedHub : HubState :=
  stateAfter (io_PushNumeric "temp" 1700000000 21.5) inputHub.

(** A stand-in for the C library's number formatting, for running the
    JSON getters on samples that are not numeric. *)
Definition printNothing (x : float) : string := EmptyString.

(** The client has created the Input [a/b]; [a] is a Namespace of its. *)
Definition nestedHub : HubState :=
  stateAfter (io_CreateInput "a/b" IO_DATA_TYPE_NUMERIC EmptyString) startHub.

(** The client has created the numeric Output [x] in metres. *)
Definition outputXHub : HubState :=
  stateAfter (io_CreateOutput "x" IO_DATA_TYPE_NUMERIC "m") startHub.

(** The entry an observation path names, whatever its role: an absolute
    path is read from the root, a relative one from [/obs]. *)
Definition entryOfObservationPath (t : Tree) (path : string) : resTree_EntryRef_t :=
  if String.prefix "/" path
  then resTree_FindEntry t resTree_GetRoot path
  else resTree_FindEntry t (resTree_FindEntry t resTree_GetRoot "obs") path.

(** [/obs/o], which keeps three samples, after pushes at the seconds 1, 2,
    3 and 4. *)
Definition windowHub : HubState :=
  let obs := Some ["obs"; "o"] in
  stateAfter
    (resTree_Push obs IO_DATA_TYPE_TRIGGER (dataSample_CreateTrigger 1) ;;
     resTree_Push obs IO_DATA_TYPE_TRIGGER (dataSample_CreateTrigger 2) ;;
     resTree_Push obs IO_DATA_TYPE_TRIGGER (dataSample_CreateTrigger 3) ;;
     resTree_Push obs IO_DATA_TYPE_TRIGGER (dataSample_CreateTrigger 4))
    (mkHub observationTree None sensord false 1700000100%float []).

(** The Boolean Output [y] with the default [true]. *)
Definition defaultedHub : HubState :=
  stateAfter (io_SetBooleanDefault "y" true) outputHub.

(** ** The hub over time *)

(** The shape the hub keeps: the tree has its root and is well formed, and
    the namespace cached for the session is not the root. *)
Definition hub_ok (s : HubState) : Prop :=
  is_Some (tree s !! []) ∧ tree_wf (tree s) ∧ sessionContextPtr s ≠ Some [].

(** The calls a client can make, with their arguments. *)
Inductive ApiCall :=
| CallCreateInput (path : string) (dt : io_DataType_t) (u : string)
| CallCreateOutput (path : string) (dt : io_DataType_t) (u : string)
| CallDeleteResource (path : string)
| CallPushTrigger (path : string) (ts : float)
| CallPushBoolean (path : string) (ts : float) (value : bool)
| CallPushNumeric (path : string) (ts : float) (value : float)
| CallPushString (path : string) (ts : float) (value : string)
| CallPushJson (path : string) (ts : float) (value : string)
| CallSetBooleanDefault (path : string) (value : bool)
| CallSetNumericDefault (path : string) (value : float)
| CallSetStringDefault (path : string) (value : string)
| CallSetJsonDefault (path : string) (value : string)
| CallGetTimestamp (path : string)
| CallGetBoolean (path : string)
| CallGetNumeric (path : string)
| CallGetString (path : string) (valueSize : nat)
| CallReadBufferJson (obsPath : string) (startAfter : float) (outputFile : Z).

(** A call, run for its effect on the hub. *)
Definition perform (call : ApiCall) : Hub unit :=
  match call with
  | CallCreateInput path dt u => io_CreateInput path dt u ;; hub_ret tt
  | CallCreateOutput path dt u => io_CreateOutput path dt u ;; hub_ret tt
  | CallDeleteResource path => io_DeleteResource path
  | CallPushTrigger path ts => io_PushTrigger path ts
  | CallPushBoolean path ts value => io_PushBoolean path ts value
  | CallPushNumeric path ts value => io_PushNumeric path ts value
  | CallPushString path ts value => io_PushString path ts value
  | CallPushJson path ts value => io_PushJson path ts value
  | CallSetBooleanDefault path value => io_SetBooleanDefault path value
  | CallSetNumericDefault path value => io_SetNumericDefault path value
  | CallSetStringDefault path value => io_SetStringDefault path value
  | CallSetJsonDefault path value => io_SetJsonDefault path value
  | CallGetTimestamp path => io_GetTimestamp path ;; hub_ret tt
  | CallGetBoolean path => io_GetBoolean path ;; hub_ret tt
  | CallGetNumeric path => io_GetNumeric path ;; hub_ret tt
  | CallGetString path valueSize => io_GetString path valueSize ;; hub_ret tt
  | CallReadBufferJson obsPath startAfter outputFile =>
      query_ReadBufferJson obsPath startAfter outputFile ;; hub_ret tt
  end.

(** The states the hub goes through: it starts with the root alone; a
    client makes a call; a session begins for some client at some time. *)
Inductive reachable : HubState -> Prop :=
| reachable_start (who : ClientIdentity) (now : float) :
    reachable (mkHub emptyTree None who false now [])
| reachable_call (s s' : HubState) (call : ApiCall) :
    reachable s -> perform call s = Done tt s' -> reachable s'
| reachable_session (s : HubState) (who : ClientIdentity) (now : float) :
    reachable s -> reachable (mkHub (tree s) None who false now (outputFiles s)).

(** The reference [FindResource] lets through: Inputs and Outputs only. *)
Definition onlyIO (t : Tree) (ref : resTree_EntryRef_t) : resTree_EntryRef_t :=
  if bool_decide (resTree_GetEntryType t ref ≠ ADMIN_ENTRY_TYPE_INPUT)
     && bool_decide (resTree_GetEntryType t ref ≠ ADMIN_ENTRY_TYPE_OUTPUT)
  then None
  else ref.

(** ** ioService.c: push handlers, the optional mark and polling *)

Abbreviation hub_HandlerRef_t := (option Z).

(** Field update: another client is being served. *)
Definition setClient (who : ClientIdentity) (s : HubState) : HubState :=
  mkHub (tree s) (sessionContextPtr s) who (clientKilled s) (wallClock s) (outputFiles s).

Section Handlers.

(** The handler list and the mandatory flag of a resource are kept by
    resTree.c; its three entry points are taken as they come. Callback and
    context pointers are opaque numbers. *)
Variable resTree_AddPushHandler :
  resTree_EntryRef_t -> io_DataType_t -> Z -> Z -> Hub hub_HandlerRef_t.
Variable resTree_RemovePushHandler : hub_HandlerRef_t -> Hub unit.
Variable resTree_MarkOptional : resTree_EntryRef_t -> Hub unit.

(** Add handler function for an event. *)
Definition AddPushHandler (path : string) (dataType : io_DataType_t)
    (callbackPtr contextPtr : Z) : Hub hub_HandlerRef_t :=
  nsRef <- GetClientNamespace ;;
  match nsRef with
  | None =>
      LE_KILL_CLIENT "Client tried to register a push handler before creating any resources." ;;
      hub_ret None
  | Some _ =>
      resRef <- readTree (fun t => resTree_FindEntry t nsRef path) ;;
      match resRef with
      | None =>
          name <- resTree_GetEntryName nsRef ;;
          LE_KILL_CLIENT ("Attempt to register Push handler on non-existent resource '/app/"
                          +:+ name +:+ "/" +:+ path +:+ "'.") ;;
          hub_ret None
      | Some _ =>
          entryType <- readTree (fun t => resTree_GetEntryType t resRef) ;;
          if bool_decide (entryType ≠ ADMIN_ENTRY_TYPE_INPUT)
             && bool_decide (entryType ≠ ADMIN_ENTRY_TYPE_OUTPUT)
          then (name <- resTree_GetEntryName nsRef ;;
                LE_KILL_CLIENT ("Attempt to register Push handler before creating resource '/app/"
                                +:+ name +:+ "/" +:+ path +:+ "'.") ;;
                hub_ret None)
          else resTree_AddPushHandler resRef dataType callbackPtr contextPtr
      end
  end.

(** Add handler function for EVENT 'io_TriggerPush'. *)
Definition io_AddTriggerPushHandler (path : string) (callbackPtr contextPtr : Z)
    : Hub hub_HandlerRef_t :=
  AddPushHandler path IO_DATA_TYPE_TRIGGER callbackPtr contextPtr.

(** Remove handler function for EVENT 'io_TriggerPush'. *)
Definition io_RemoveTriggerPushHandler (handlerRef : hub_HandlerRef_t) : Hub unit :=
  resTree_RemovePushHandler handlerRef.

(** Add handler function for EVENT 'io_BooleanPush'. *)
Definition io_AddBooleanPushHandler (path : string) (callbackPtr contextPtr : Z)
    : Hub hub_HandlerRef_t :=
  AddPushHandler path IO_DATA_TYPE_BOOLEAN callbackPtr contextPtr.

(** Remove handler function for EVENT 'io_BooleanPush'. *)
Definition io_RemoveBooleanPushHandler (handlerRef : hub_HandlerRef_t) : Hub unit :=
  resTree_RemovePushHandler handlerRef.

(** Add handler function for EVENT 'io_NumericPush'. *)
Definition io_AddNumericPushHandler (path : string) (callbackPtr contextPtr : Z)
    : Hub hub_HandlerRef_t :=
  AddPushHandler path IO_DATA_TYPE_NUMERIC callbackPtr contextPtr.

(** Remove handler function for EVENT 'io_NumericPush'. *)
Definition io_RemoveNumericPushHandler (handlerRef : hub_HandlerRef_t) : Hub unit :=
  resTree_RemovePushHandler handlerRef.

(** Add handler function for EVENT 'io_StringPush'. *)
Definition io_AddStringPushHandler (path : string) (callbackPtr contextPtr : Z)
    : Hub hub_HandlerRef_t :=
  AddPushHandler path IO_DATA_TYPE_STRING callbackPtr contextPtr.

(** Remove handler function for EVENT 'io_StringPush'. *)
Definition io_RemoveStringPushHandler (handlerRef : hub_HandlerRef_t) : Hub unit :=
  resTree_RemovePushHandler handlerRef.

(** Add handler function for EVENT 'io_JsonPush'. *)
Definition io_AddJsonPushHandler (path : string) (callbackPtr contextPtr : Z)
    : Hub hub_HandlerRef_t :=
  AddPushHandler path IO_DATA_TYPE_JSON callbackPtr contextPtr.

(** Remove handler function for EVENT 'io_JsonPush'. *)
Definition io_RemoveJsonPushHandler (handlerRef : hub_HandlerRef_t) : Hub unit :=
  resTree_RemovePushHandler handlerRef.

(** Mark an Output resource "optional". *)
Definition io_MarkOptional (path : string) : Hub unit :=
  resRef <- FindResource path ;;
  t <- gets tree ;;
  match resRef with
  | None => LE_KILL_CLIENT "Attempt to mark non-existent resource optional."
  | Some _ =>
      if bool_decide (resTree_GetEntryType t resRef ≠ ADMIN_ENTRY_TYPE_OUTPUT)
      then LE_KILL_CLIENT "Attempt to mark non-Output resource optional."
      else resTree_MarkOptional resRef
  end.

End Handlers.

(** Add handler function for EVENT 'io_Poll': polling is not supported. *)
Definition io_AddPollHandler (path : string) (callbackPtr contextPtr : Z)
    : Hub hub_HandlerRef_t :=
  hub_ret None.

(** Remove handler function for EVENT 'io_Poll'. *)
Definition io_RemovePollHandler (handlerRef : hub_HandlerRef_t) : Hub unit :=
  hub_ret tt.

(** A registry that hands out the callback pointer as the handler
    reference, for running the handler calls. *)
Definition echoAddPushHandler (resRef : resTree_EntryRef_t) (dataType : io_DataType_t)
    (callbackPtr contextPtr : Z) : Hub hub_HandlerRef_t :=
  hub_ret (Some callbackPtr).

(** A mark that keeps no record, for running [io_MarkOptional]. *)
Definition idleMarkOptional (resRef : resTree_EntryRef_t) : Hub unit :=
  hub_ret tt.

(** A hub whose client the IPC layer cannot identify. *)
Definition strangerHub : HubState :=
  mkHub emptyTree None (mkClient (LE_FAULT, 0%Z) (LE_OK, "sensord")) false
        1700000100%float [].

(** No entry of the tree has the type [ADMIN_ENTRY_TYPE_NONE]. *)
Definition typed_tree (t : Tree) : Prop :=
  map_Forall (fun _ e => entryType e ≠ ADMIN_ENTRY_TYPE_NONE) t.

#[global] Instance typed_tree_dec (t : Tree) : Decision (typed_tree t).
Proof. unfold typed_tree. apply _. Defined.

(** * Properties *)

Ltac hub_unfold :=
  unfold LE_KILL_CLIENT, LE_FATAL, hub_bind, hub_ret, gets, readTree, onTree, modify in *.

Lemma Done_inj {A} (a a' : A) (s s' : HubState) :
  Done a s = Done a' s' -> a = a' ∧ s = s'.
Proof. by intros [= -> ->]. Qed.

(** ** The resource tree *)

Lemma tree_wf_prefix (t : Tree) (p q : list string) :
  tree_wf t -> is_Some (t !! (p ++ q)) -> is_Some (t !! p).
Proof.
  intros Hwf. induction q as [|seg q IH] using rev_ind.
  - by rewrite app_nil_r.
  - intros [e He]. apply IH.
    specialize (Hwf _ _ He). simpl in Hwf.
    rewrite app_assoc, removelast_last in Hwf. exact Hwf.
Qed.

Lemma materialise_subseteq (t : Tree) (b segs : list string) :
  t ⊆ materialise t b segs.
Proof.
  revert t b. induction segs as [|seg rest IH]; intros t b; cbn [materialise]; [done|].
  destruct (t !! (b ++ [seg])) eqn:Hnext; [apply IH|].
  etrans; [|apply IH]. by apply insert_subseteq.
Qed.

Lemma materialise_present (t : Tree) (b segs : list string) :
  tree_wf t -> is_Some (t !! (b ++ segs)) -> materialise t b segs = t.
Proof.
  intros Hwf. revert b. induction segs as [|seg rest IH]; intros b Hsome; cbn [materialise]; [done|].
  assert (is_Some (t !! (b ++ [seg]))) as [e He].
  { apply (tree_wf_prefix t _ rest Hwf). by rewrite <- app_assoc. }
  rewrite He. apply IH. by rewrite <- app_assoc.
Qed.

Lemma materialise_lookup (t : Tree) (b segs p : list string) (e : Entry) :
  materialise t b segs !! p = Some e ->
  t !! p = Some e ∨ (t !! p = None ∧ e = newEntry ADMIN_ENTRY_TYPE_NAMESPACE).
Proof.
  revert t b. induction segs as [|seg rest IH]; intros t b; cbn [materialise]; [by left|].
  destruct (t !! (b ++ [seg])) eqn:Hnext; [by apply IH|].
  intros H. apply IH in H.
  destruct (decide (b ++ [seg] = p)) as [Heq|Hne].
  - rewrite Heq in *. rewrite lookup_insert_eq in H. destruct H as [H|[H _]]; [|done].
    right. split; [done|congruence].
  - by rewrite lookup_insert_ne in H.
Qed.

Lemma materialise_leaf (t : Tree) (b segs : list string) :
  is_Some (t !! b) -> is_Some (materialise t b segs !! (b ++ segs)).
Proof.
  revert t b. induction segs as [|seg rest IH]; intros t b Hb; cbn [materialise].
  - by rewrite app_nil_r.
  - replace (b ++ seg :: rest) with ((b ++ [seg]) ++ rest) by by rewrite <- app_assoc.
    apply IH. destruct (t !! (b ++ [seg])) eqn:Hnext; [by rewrite Hnext|].
    by rewrite lookup_insert_eq.
Qed.

(** Replacing an entry that exists does not change what paths resolve to. *)
Lemma resTree_FindEntry_insert (t : Tree) (p : list string) (e : Entry)
    (base : resTree_EntryRef_t) (path : string) :
  is_Some (t !! p) ->
  resTree_FindEntry (<[p := e]> t) base path = resTree_FindEntry t base path.
Proof.
  intros [e0 He0]. unfold resTree_FindEntry.
  destruct base as [b|]; [|done]. destruct (parsePath path) as [segs|]; [|done].
  destruct (decide (p = b ++ segs)) as [->|Hne].
  - by rewrite lookup_insert_eq, He0.
  - by rewrite lookup_insert_ne.
Qed.

Lemma resTree_FindEntry_lookup (t : Tree) (base : resTree_EntryRef_t) (path : string)
    (ref : list string) :
  resTree_FindEntry t base path = Some ref ->
  ∃ b segs e, base = Some b ∧ parsePath path = Some segs ∧ ref = b ++ segs
              ∧ t !! ref = Some e.
Proof.
  unfold resTree_FindEntry. destruct base as [b|]; [|done].
  destruct (parsePath path) as [segs|]; [|done].
  destruct (t !! (b ++ segs)) as [e|] eqn:He; [|done].
  intros [= <-]. by exists b, segs, e.
Qed.

Lemma resTree_FindEntry_weaken (t t' : Tree) (base : resTree_EntryRef_t) (path : string)
    (ref : list string) :
  t ⊆ t' ->
  resTree_FindEntry t base path = Some ref ->
  resTree_FindEntry t' base path = Some ref.
Proof.
  intros Hsub Hfind.
  destruct (resTree_FindEntry_lookup _ _ _ _ Hfind) as (b & segs & e & -> & Hp & -> & He).
  unfold resTree_FindEntry. rewrite Hp.
  by rewrite (lookup_weaken _ _ _ _ He Hsub).
Qed.

(** ** The client's namespace *)

Lemma GetClientNamespace_cached (s : HubState) (ns : list string) :
  sessionContextPtr s = Some ns -> GetClientNamespace s = Done (Some ns) s.
Proof. intros H. unfold GetClientNamespace. hub_unfold. by rewrite H. Qed.

Lemma GetClientNamespace_returns (s : HubState) :
  ∃ ns s1, GetClientNamespace s = Done ns s1.
Proof.
  unfold GetClientNamespace. hub_unfold.
  destruct (sessionContextPtr s); [by eauto|].
  destruct (processId (client s)) as [r pid]. destruct (decide (r ≠ LE_OK)); [by eauto|].
  destruct (appName (client s)) as [r' name]. destruct (decide (r' ≠ LE_OK)); [by eauto|].
  destruct (resTree_GetEntry (tree s) resTree_GetRoot "app") as [ns1 t1]. simpl.
  destruct (resTree_GetEntry t1 ns1 name) as [ns2 t2]. simpl. by eauto.
Qed.

(** A successful lookup of the namespace caches it and only ever adds
    Namespaces to the tree; nothing is added when the namespace is there. *)
Lemma GetClientNamespace_Some (s s1 : HubState) (ns : list string) :
  GetClientNamespace s = Done (Some ns) s1 ->
  sessionContextPtr s1 = Some ns
  ∧ tree s ⊆ tree s1
  ∧ clientKilled s1 = clientKilled s
  ∧ outputFiles s1 = outputFiles s
  ∧ wallClock s1 = wallClock s
  ∧ client s1 = client s
  ∧ (tree_wf (tree s) -> is_Some (tree s !! ns) -> s1 = setSessionContextPtr (Some ns) s).
Proof.
  unfold GetClientNamespace. hub_unfold.
  destruct (sessionContextPtr s) as [ns0|] eqn:Hctx.
  { intros [= -> <-]. repeat split; try done.
    intros _ _. destruct s; simpl in *. by subst. }
  destruct (processId (client s)) as [r pid]. destruct (decide (r ≠ LE_OK)); [done|].
  destruct (appName (client s)) as [r' name]. destruct (decide (r' ≠ LE_OK)); [done|].
  unfold resTree_GetEntry, resTree_GetRoot.
  change (parsePath "app") with (Some ["app"%string]).
  cbn [setTree tree]. destruct (parsePath name) as [segs|] eqn:Hname; [|done].
  cbn [setTree tree setSessionContextPtr].
  intros [Hns <-]%Done_inj. apply (inj Some) in Hns as <-.
  cbn [sessionContextPtr tree clientKilled outputFiles wallClock client].
  repeat split; try done.
  - etrans; apply materialise_subseteq.
  - intros Hwf Hns.
    assert (materialise (tree s) [] ([] ++ ["app"%string]) = tree s) as Happ.
    { apply materialise_present; [done|]. by apply (tree_wf_prefix _ _ segs). }
    rewrite Happ. rewrite materialise_present; [|done|done].
    by destruct s.
Qed.

Lemma GetClientNamespace_None (s s1 : HubState) :
  GetClientNamespace s = Done None s1 -> sessionContextPtr s1 = None.
Proof.
  unfold GetClientNamespace. hub_unfold.
  destruct (sessionContextPtr s) as [ns0|] eqn:Hctx; [done|].
  destruct (processId (client s)) as [r pid]. destruct (decide (r ≠ LE_OK)).
  { intros [= <-]. done. }
  destruct (appName (client s)) as [r' name]. destruct (decide (r' ≠ LE_OK)).
  { intros [= <-]. done. }
  destruct (resTree_GetEntry (tree s) resTree_GetRoot "app") as [ns1 t1]. cbn.
  destruct (resTree_GetEntry t1 ns1 name) as [ns2 t2]. cbn.
  by intros [= -> <-].
Qed.

(** ** Finding the client's resource *)

Lemma FindResource_eq (path : string) (s : HubState) :
  FindResource path s =
  match GetClientNamespace s with
  | Done ns s1 => Done (onlyIO (tree s1) (resTree_FindEntry (tree s1) ns path)) s1
  | Fatal msg => Fatal msg
  end.
Proof.
  unfold FindResource, onlyIO. hub_unfold.
  destruct (GetClientNamespace s) as [[ns|] s1|]; [|reflexivity..].
  by destruct (_ && _).
Qed.

Lemma FindResource_cached (path : string) (s : HubState) (ns : list string) :
  sessionContextPtr s = Some ns ->
  FindResource path s
  = Done (onlyIO (tree s) (resTree_FindEntry (tree s) (Some ns) path)) s.
Proof. intros H. by rewrite FindResource_eq, (GetClientNamespace_cached _ _ H). Qed.

Lemma FindResource_returns (path : string) (s : HubState) :
  ∃ ref s1, FindResource path s = Done ref s1.
Proof.
  rewrite FindResource_eq.
  destruct (GetClientNamespace_returns s) as (ns & s1 & ->). by eauto.
Qed.

Lemma onlyIO_Some (t : Tree) (ref : resTree_EntryRef_t) (p : list string) :
  onlyIO t ref = Some p ->
  ref = Some p
  ∧ ∃ e, t !! p = Some e
         ∧ (entryType e = ADMIN_ENTRY_TYPE_INPUT ∨ entryType e = ADMIN_ENTRY_TYPE_OUTPUT).
Proof.
  unfold onlyIO, resTree_GetEntryType, entryAt.
  destruct ref as [q|]; [|by destruct (_ && _)].
  destruct (t !! q) as [e|] eqn:He; simpl.
  - destruct (entryType e) eqn:Htype; simpl; try done;
      intros [= ->]; (split; [done|]); exists e; rewrite Htype; by eauto.
  - done.
Qed.

Lemma onlyIO_io (t : Tree) (p : list string) (e : Entry) :
  t !! p = Some e ->
  entryType e = ADMIN_ENTRY_TYPE_INPUT ∨ entryType e = ADMIN_ENTRY_TYPE_OUTPUT ->
  onlyIO t (Some p) = Some p.
Proof.
  intros He Htype. unfold onlyIO, resTree_GetEntryType, entryAt. rewrite He. simpl.
  by destruct Htype as [-> | ->].
Qed.

Lemma onlyIO_other (t : Tree) (ref : resTree_EntryRef_t) :
  resTree_GetEntryType t ref ≠ ADMIN_ENTRY_TYPE_INPUT ->
  resTree_GetEntryType t ref ≠ ADMIN_ENTRY_TYPE_OUTPUT ->
  onlyIO t ref = None.
Proof.
  intros H1 H2. unfold onlyIO.
  by rewrite (bool_decide_eq_true_2 _ H1), (bool_decide_eq_true_2 _ H2).
Qed.

(** What a found resource tells about the state [FindResource] leaves. *)
Lemma FindResource_found (path : string) (s s1 : HubState) (ref : list string) :
  FindResource path s = Done (Some ref) s1 ->
  ∃ ns e,
    GetClientNamespace s = Done (Some ns) s1
    ∧ sessionContextPtr s1 = Some ns
    ∧ resTree_FindEntry (tree s1) (Some ns) path = Some ref
    ∧ tree s1 !! ref = Some e
    ∧ (entryType e = ADMIN_ENTRY_TYPE_INPUT ∨ entryType e = ADMIN_ENTRY_TYPE_OUTPUT).
Proof.
  rewrite FindResource_eq.
  destruct (GetClientNamespace s) as [ns s0|] eqn:Hns; [|done].
  intros [= Hio <-]. apply onlyIO_Some in Hio as [Hfind (e & He & Htype)].
  destruct ns as [ns|]; [|done].
  exists ns, e. repeat split; try done.
  by apply GetClientNamespace_Some in Hns as [? _].
Qed.

(** ** The query API: observations *)

Lemma FindObservation_Some (t : Tree) (path : string) (ref : list string) :
  FindObservation t path = Some ref ->
  resTree_GetEntryType t (Some ref) = ADMIN_ENTRY_TYPE_OBSERVATION.
Proof.
  unfold FindObservation.
  assert (∀ entry : resTree_EntryRef_t,
            match entry with
            | Some _ =>
                if bool_decide (resTree_GetEntryType t entry ≠ ADMIN_ENTRY_TYPE_OBSERVATION)
                then None else entry
            | None => None
            end = Some ref ->
            resTree_GetEntryType t (Some ref) = ADMIN_ENTRY_TYPE_OBSERVATION) as Hchecked.
  { intros [q|]; [|done]. case_bool_decide as Htype; [done|].
    intros [= ->].
    by destruct (decide (resTree_GetEntryType t (Some ref) = ADMIN_ENTRY_TYPE_OBSERVATION)). }
  destruct (String.prefix "/obs/" path); [by apply Hchecked|].
  destruct (String.prefix "/" path); [done|].
  destruct (resTree_FindEntry t resTree_GetRoot "obs"); [by apply Hchecked|done].
Qed.

Lemma FindObservation_outside_obs (t : Tree) (path : string) :
  String.prefix "/" path = true -> String.prefix "/obs/" path = false ->
  FindObservation t path = None.
Proof. intros Habs Hobs. unfold FindObservation. by rewrite Hobs, Habs. Qed.

Lemma prefix_obs_absolute (path : string) :
  String.prefix "/obs/" path = true -> String.prefix "/" path = true.
Proof.
  destruct path as [|c rest]; [done|]. cbn [String.prefix].
  destruct (ascii_dec "/" c); [|done]. intros _. by destruct rest.
Qed.

Lemma FindObservation_other_role (t : Tree) (path : string) (ref : list string) :
  entryOfObservationPath t path = Some ref ->
  resTree_GetEntryType t (Some ref) ≠ ADMIN_ENTRY_TYPE_OBSERVATION ->
  FindObservation t path = None.
Proof.
  unfold entryOfObservationPath, FindObservation. intros Hentry Htype.
  destruct (String.prefix "/obs/" path) eqn:Hobs.
  - rewrite (prefix_obs_absolute _ Hobs) in Hentry.
    rewrite Hentry. by rewrite (bool_decide_eq_true_2 _ Htype).
  - destruct (String.prefix "/" path); [done|].
    destruct (resTree_FindEntry t resTree_GetRoot "obs") as [ns|]; [|done].
    rewrite Hentry. by rewrite (bool_decide_eq_true_2 _ Htype).
Qed.

(** The four aggregates answer NaN whatever the tree holds. *)
Lemma query_aggregates_nan (t : Tree) (obsPath : string) (startTime : float) :
  query_GetMin t obsPath startTime = nan
  ∧ query_GetMax t obsPath startTime = nan
  ∧ query_GetMean t obsPath startTime = nan
  ∧ query_GetStdDev t obsPath startTime = nan.
Proof.
  unfold query_GetMin, query_GetMax, query_GetMean, query_GetStdDev.
  by destruct (FindObservation t obsPath).
Qed.

Lemma query_ReadBufferJson_not_found (s : HubState) (obsPath : string) (startAfter : float)
    (outputFile : Z) :
  FindObservation (tree s) obsPath = None ->
  query_ReadBufferJson obsPath startAfter outputFile s = Done LE_NOT_FOUND s.
Proof. intros H. unfold query_ReadBufferJson. hub_unfold. by rewrite H. Qed.

(** C1: [query_GetMin], [query_GetMax], [query_GetMean] and
    [query_GetStdDev] answer NaN on every input, and so do not compute what
    they are documented to. On the Observation [/obs/o] holding the numeric
    samples 10, 20 and 30, all at or after the start time 1700000000
    (seconds since the Epoch), the documented answers are 10 (minimum), 30
    (maximum), 20 (mean) and a number (standard deviation); the four
    functions answer NaN. *)
Theorem query_aggregates_are_stubs :
  (∀ (t : Tree) (obsPath : string) (startTime : float),
      query_GetMin t obsPath startTime = nan
      ∧ query_GetMax t obsPath startTime = nan
      ∧ query_GetMean t obsPath startTime = nan
      ∧ query_GetStdDev t obsPath startTime = nan)
  ∧ FindObservation (tree observationHub) "/obs/o" = Some ["obs"%string; "o"%string]
  ∧ numericInRange 1700000000
      (buffer (entryAt (tree observationHub) (Some ["obs"%string; "o"%string])))
    = [10%float; 20%float; 30%float]
  ∧ documented_min [10%float; 20%float; 30%float] = 10%float
  ∧ documented_max [10%float; 20%float; 30%float] = 30%float
  ∧ documented_mean [10%float; 20%float; 30%float] = 20%float
  ∧ PrimFloat.is_nan (documented_stddev [10%float; 20%float; 30%float]) = false
  ∧ query_GetMin (tree observationHub) "/obs/o" 1700000000 = nan
  ∧ query_GetMax (tree observationHub) "/obs/o" 1700000000 = nan
  ∧ query_GetMean (tree observationHub) "/obs/o" 1700000000 = nan
  ∧ query_GetStdDev (tree observationHub) "/obs/o" 1700000000 = nan.
Proof.
  split; [exact query_aggregates_nan|].
  repeat split; try apply query_aggregates_nan; vm_compute; reflexivity.
Qed.

(** C9: for the buffer read and the aggregates, an absolute path outside
    [/obs/] is not found even when an entry exists there, and so is any path
    that names an entry whose role is not Observation:
    [query_ReadBufferJson] returns [LE_NOT_FOUND] and changes nothing, the
    aggregates return NaN. *)
Theorem query_observations_only (s : HubState) (obsPath : string) (startAfter : float)
    (outputFile : Z) (startTime : float) :
  (String.prefix "/" obsPath = true ∧ String.prefix "/obs/" obsPath = false)
  ∨ (∃ ref, entryOfObservationPath (tree s) obsPath = Some ref
            ∧ resTree_GetEntryType (tree s) (Some ref) ≠ ADMIN_ENTRY_TYPE_OBSERVATION) ->
  FindObservation (tree s) obsPath = None
  ∧ query_ReadBufferJson obsPath startAfter outputFile s = Done LE_NOT_FOUND s
  ∧ query_GetMin (tree s) obsPath startTime = nan
  ∧ query_GetMax (tree s) obsPath startTime = nan
  ∧ query_GetMean (tree s) obsPath startTime = nan
  ∧ query_GetStdDev (tree s) obsPath startTime = nan.
Proof.
  intros H.
  assert (FindObservation (tree s) obsPath = None) as Hnone.
  { destruct H as [[Habs Hobs]|(ref & Hentry & Htype)].
    - by apply FindObservation_outside_obs.
    - by apply (FindObservation_other_role _ _ ref). }
  split; [done|]. split; [by apply query_ReadBufferJson_not_found|].
  apply query_aggregates_nan.
Qed.

(** The Input [/app/sensord/temp] exists, is absolute and lies outside
    [/obs/]. *)
Lemma query_observations_only_witness :
  resTree_FindEntryAtAbsolutePath (tree mixedHub) "/app/sensord/temp"
    = Some ["app"%string; "sensord"%string; "temp"%string]
  ∧ FindObservation (tree mixedHub) "/app/sensord/temp" = None
  ∧ query_ReadBufferJson "/app/sensord/temp" nan 7 mixedHub = Done LE_NOT_FOUND mixedHub
  ∧ query_GetMin (tree mixedHub) "/app/sensord/temp" 1700000000 = nan
  ∧ query_GetMax (tree mixedHub) "/app/sensord/temp" 1700000000 = nan
  ∧ query_GetMean (tree mixedHub) "/app/sensord/temp" 1700000000 = nan
  ∧ query_GetStdDev (tree mixedHub) "/app/sensord/temp" 1700000000 = nan.
Proof.
  split; [vm_compute; reflexivity|].
  apply (query_observations_only mixedHub "/app/sensord/temp" nan 7 1700000000).
  left. split; vm_compute; reflexivity.
Defined.

(** ** The query API: reading a buffer *)

Lemma query_ReadBufferJson_negative (s : HubState) (obsPath : string) (startAfter : float)
    (outputFile : Z) (ref : list string) :
  FindObservation (tree s) obsPath = Some ref ->
  PrimFloat.ltb startAfter 0 = true ->
  query_ReadBufferJson obsPath startAfter outputFile s = Done LE_OK (killClient s).
Proof.
  intros Hobs Hneg. unfold query_ReadBufferJson. hub_unfold. by rewrite Hobs, Hneg.
Qed.

(** What the guard of [query_ReadBufferJson] lets through is handed to the
    reader. *)
Lemma query_ReadBufferJson_reads (s : HubState) (obsPath : string) (startAfter : float)
    (outputFile : Z) (ref : list string) :
  FindObservation (tree s) obsPath = Some ref ->
  PrimFloat.ltb startAfter 0 = false ->
  query_ReadBufferJson obsPath startAfter outputFile s
  = Done LE_OK
      (match samplesAfter (wallClock s) startAfter (buffer (entryAt (tree s) (Some ref))) with
       | None => killClient s
       | Some samples => writeFile outputFile samples s
       end).
Proof.
  intros Hobs Hneg. unfold query_ReadBufferJson, resTree_ReadBufferJson. hub_unfold.
  rewrite Hobs, Hneg. by destruct (samplesAfter _ _ _).
Qed.

Lemma samplesAfter_rejected (now startAfter : float) (buf : list dataSample) :
  PrimFloat.ltb startAfter 0 = true ∨ PrimFloat.eqb startAfter 0 = true ->
  samplesAfter now startAfter buf = None.
Proof.
  intros Hle. unfold samplesAfter, resolveStart.
  destruct Hle as [-> | ->]; [done|]. by rewrite orb_true_r.
Qed.

Lemma samplesAfter_accepted (now startAfter : float) (buf : list dataSample) :
  PrimFloat.ltb startAfter 0 = false -> PrimFloat.eqb startAfter 0 = false ->
  ∃ samples, samplesAfter now startAfter buf = Some samples.
Proof.
  intros Hneg Hzero. unfold samplesAfter, resolveStart. rewrite Hneg, Hzero. cbn [orb].
  destruct (PrimFloat.is_nan startAfter); [by eauto|].
  destruct (PrimFloat.ltb startAfter SECONDS_IN_30_YEARS); by eauto.
Qed.

Lemma samplesAfter_nan (now : float) (buf : list dataSample) :
  samplesAfter now nan buf = Some buf.
Proof. reflexivity. Qed.

(** C4: for every existing Observation, a [startAfter] that is negative
    or zero is rejected as a caller-contract violation: the client session
    is terminated and nothing is written, the tree being left as it is (a
    negative one by the guard of [query_ReadBufferJson], zero by the reader
    it hands over to); for NaN the whole buffer is read. Nothing else is
    rejected: with any other [startAfter] the session goes on and one array
    is written. *)
Theorem query_ReadBufferJson_startAfter (s : HubState) (obsPath : string)
    (startAfter : float) (outputFile : Z) (ref : list string) :
  FindObservation (tree s) obsPath = Some ref ->
  (PrimFloat.ltb startAfter 0 = true ∨ PrimFloat.eqb startAfter 0 = true ->
   query_ReadBufferJson obsPath startAfter outputFile s = Done LE_OK (killClient s)
   ∧ clientKilled (killClient s) = true
   ∧ outputFiles (killClient s) = outputFiles s
   ∧ tree (killClient s) = tree s)
  ∧ (∃ s', query_ReadBufferJson obsPath nan outputFile s = Done LE_OK s'
           ∧ clientKilled s' = clientKilled s
           ∧ tree s' = tree s
           ∧ outputFiles s'
             = outputFiles s ++ [(outputFile, buffer (entryAt (tree s) (Some ref)))])
  ∧ (PrimFloat.ltb startAfter 0 = false -> PrimFloat.eqb startAfter 0 = false ->
     ∃ s' samples,
       query_ReadBufferJson obsPath startAfter outputFile s = Done LE_OK s'
       ∧ clientKilled s' = clientKilled s
       ∧ tree s' = tree s
       ∧ outputFiles s' = outputFiles s ++ [(outputFile, samples)]).
Proof.
  intros Hobs. split; [|split].
  - intros Hle.
    pose proof (samplesAfter_rejected (wallClock s) startAfter
                  (buffer (entryAt (tree s) (Some ref))) Hle) as Hrejected.
    destruct (PrimFloat.ltb startAfter 0) eqn:Hneg.
    + by rewrite (query_ReadBufferJson_negative _ _ _ _ _ Hobs Hneg).
    + by rewrite (query_ReadBufferJson_reads _ _ _ _ _ Hobs Hneg), Hrejected.
  - eexists. rewrite (query_ReadBufferJson_reads _ _ _ _ _ Hobs); [|reflexivity].
    by rewrite samplesAfter_nan.
  - intros Hneg Hzero.
    destruct (samplesAfter_accepted (wallClock s) startAfter
                (buffer (entryAt (tree s) (Some ref))) Hneg Hzero) as [samples Hsamples].
    exists (writeFile outputFile samples s), samples.
    by rewrite (query_ReadBufferJson_reads _ _ _ _ _ Hobs Hneg), Hsamples.
Qed.

(** On [/obs/o], which holds three samples: a read with [startAfter] zero
    and one with a negative [startAfter] terminate the client session and
    write nothing; a read with NaN reports the three samples. *)
Lemma query_ReadBufferJson_startAfter_witness :
  FindObservation (tree observationHub) "/obs/o" = Some ["obs"%string; "o"%string]
  ∧ query_ReadBufferJson "/obs/o" 0 7 observationHub = Done LE_OK (killClient observationHub)
  ∧ query_ReadBufferJson "/obs/o" (-5) 7 observationHub
    = Done LE_OK (killClient observationHub)
  ∧ outputFiles (killClient observationHub) = outputFiles observationHub
  ∧ ∃ s', query_ReadBufferJson "/obs/o" nan 7 observationHub = Done LE_OK s'
          ∧ clientKilled s' = clientKilled observationHub
          ∧ tree s' = tree observationHub
          ∧ outputFiles s'
            = outputFiles observationHub
              ++ [(7%Z, buffer (entryAt (tree observationHub)
                                        (Some ["obs"%string; "o"%string])))].
Proof.
  assert (FindObservation (tree observationHub) "/obs/o" = Some ["obs"%string; "o"%string])
    as Hobs by (vm_compute; reflexivity).
  split; [exact Hobs|].
  destruct (query_ReadBufferJson_startAfter observationHub "/obs/o" 0 7
              ["obs"%string; "o"%string] Hobs) as (Hzero & Hnan & _).
  destruct (query_ReadBufferJson_startAfter observationHub "/obs/o" (-5) 7
              ["obs"%string; "o"%string] Hobs) as (Hneg & _ & _).
  destruct Hzero as (Hzero & _ & Hfiles & _); [right; reflexivity|].
  destruct Hneg as (Hneg & _); [left; reflexivity|].
  split; [exact Hzero|]. split; [exact Hneg|]. split; [exact Hfiles|]. exact Hnan.
Defined.

(** ** Fetching a value of the wrong kind *)

Lemma GetCurrentValue_wrong_kind (resRef : resTree_EntryRef_t) (dt : io_DataType_t)
    (s : HubState) :
  resTree_GetDataType (tree s) resRef ≠ dt ->
  GetCurrentValue resRef dt s = Done None (killClient s).
Proof.
  intros H. unfold GetCurrentValue. hub_unfold. by rewrite (bool_decide_eq_true_2 _ H).
Qed.

Lemma GetCurrentValue_right_kind (resRef : resTree_EntryRef_t) (dt : io_DataType_t)
    (s : HubState) :
  resTree_GetDataType (tree s) resRef = dt ->
  GetCurrentValue resRef dt s = Done (resTree_GetCurrentValue (tree s) resRef) s.
Proof.
  intros H. unfold GetCurrentValue. hub_unfold.
  rewrite bool_decide_eq_false_2; [done|]. by intros ?.
Qed.

(** C6: on a resource that has a current value and another data type than
    the one asked for, [query_GetBoolean], [query_GetNumeric] and
    [query_GetString] return [LE_FORMAT_ERROR] and write nothing through
    their pointers; [io_GetBoolean], [io_GetNumeric] and [io_GetString]
    terminate the client session and return [LE_UNAVAILABLE], not
    [LE_FORMAT_ERROR]. *)
Theorem wrong_kind_fetch (s s1 : HubState) (path ioPath : string) (valueSize : nat)
    (ref ioRef : list string) :
  resTree_FindEntryAtAbsolutePath (tree s) path = Some ref ->
  resTree_IsResource (tree s) (Some ref) = true ->
  is_Some (resTree_GetCurrentValue (tree s) (Some ref)) ->
  FindResource ioPath s = Done (Some ioRef) s1 ->
  is_Some (resTree_GetCurrentValue (tree s1) (Some ioRef)) ->
  (resTree_GetDataType (tree s) (Some ref) ≠ IO_DATA_TYPE_BOOLEAN ->
   query_GetBoolean (tree s) path = mkFetched LE_FORMAT_ERROR None None)
  ∧ (resTree_GetDataType (tree s) (Some ref) ≠ IO_DATA_TYPE_NUMERIC ->
     query_GetNumeric (tree s) path = mkFetched LE_FORMAT_ERROR None None)
  ∧ (resTree_GetDataType (tree s) (Some ref) ≠ IO_DATA_TYPE_STRING ->
     query_GetString (tree s) path valueSize = mkFetched LE_FORMAT_ERROR None None)
  ∧ (resTree_GetDataType (tree s1) (Some ioRef) ≠ IO_DATA_TYPE_BOOLEAN ->
     io_GetBoolean ioPath s = Done (mkFetched LE_UNAVAILABLE None None) (killClient s1))
  ∧ (resTree_GetDataType (tree s1) (Some ioRef) ≠ IO_DATA_TYPE_NUMERIC ->
     io_GetNumeric ioPath s = Done (mkFetched LE_UNAVAILABLE None None) (killClient s1))
  ∧ (resTree_GetDataType (tree s1) (Some ioRef) ≠ IO_DATA_TYPE_STRING ->
     io_GetString ioPath valueSize s
     = Done (mkFetched LE_UNAVAILABLE None None) (killClient s1))
  ∧ clientKilled (killClient s1) = true
  ∧ tree (killClient s1) = tree s1.
Proof.
  intros Hfind Hres [sample Hcur] Hio _.
  repeat split.
  - intros Hkind. unfold query_GetBoolean. rewrite Hfind, Hres, Hcur. cbn [negb].
    by rewrite (bool_decide_eq_true_2 _ Hkind).
  - intros Hkind. unfold query_GetNumeric. rewrite Hfind, Hres, Hcur. cbn [negb].
    by rewrite (bool_decide_eq_true_2 _ Hkind).
  - intros Hkind. unfold query_GetString. rewrite Hfind, Hres, Hcur. cbn [negb].
    by rewrite (bool_decide_eq_true_2 _ Hkind).
  - intros Hkind. unfold io_GetBoolean, hub_bind. rewrite Hio.
    by rewrite (GetCurrentValue_wrong_kind _ _ _ Hkind).
  - intros Hkind. unfold io_GetNumeric, hub_bind. rewrite Hio.
    by rewrite (GetCurrentValue_wrong_kind _ _ _ Hkind).
  - intros Hkind. unfold io_GetString, hub_bind. rewrite Hio.
    by rewrite (GetCurrentValue_wrong_kind _ _ _ Hkind).
Qed.

(** The numeric Input [temp] holds 21.5; a Boolean fetch is answered
    [LE_FORMAT_ERROR] by the query API and kills the client of the I/O
    API. *)
Lemma wrong_kind_fetch_witness :
  query_GetBoolean (tree pushedHub) "/app/sensord/temp"
    = mkFetched LE_FORMAT_ERROR None None
  ∧ io_GetBoolean "temp" pushedHub
    = Done (mkFetched LE_UNAVAILABLE None None) (killClient pushedHub).
Proof.
  pose proof (wrong_kind_fetch pushedHub pushedHub "/app/sensord/temp" "temp" 16
                ["app"%string; "sensord"%string; "temp"%string]
                ["app"%string; "sensord"%string; "temp"%string]) as H.
  destruct H as (Hq & _ & _ & Hio & _).
  - vm_compute; reflexivity.
  - vm_compute; reflexivity.
  - vm_compute. by eexists.
  - vm_compute; reflexivity.
  - vm_compute. by eexists.
  - split; [apply Hq|apply Hio]; vm_compute; discriminate.
Defined.

(** ** Fetching a value as JSON *)

Lemma le_utf8_Copy_result (src : string) (destSize : nat) :
  (String.length src < destSize ∧ le_utf8_Copy src destSize = (LE_OK, src))
  ∨ (destSize ≤ String.length src ∧ (le_utf8_Copy src destSize).1 = LE_OVERFLOW).
Proof.
  unfold le_utf8_Copy. destruct (Nat.ltb_spec (String.length src) destSize).
  - by left.
  - by right.
Qed.

Lemma query_GetJson_eq (printDouble : float -> string) (jsonEscape : string -> string)
    (t : Tree) (path : string) (valueSize : nat) (ref : list string) (sample : dataSample) :
  resTree_FindEntryAtAbsolutePath t path = Some ref ->
  resTree_IsResource t (Some ref) = true ->
  resTree_GetCurrentValue t (Some ref) = Some sample ->
  query_GetJson printDouble jsonEscape t path valueSize
  = mkFetched
      (le_utf8_Copy (jsonProjection printDouble jsonEscape sample
                                    (resTree_GetDataType t (Some ref))) valueSize).1
      (Some (timestamp sample))
      (Some (le_utf8_Copy (jsonProjection printDouble jsonEscape sample
                                          (resTree_GetDataType t (Some ref))) valueSize).2).
Proof.
  intros Hfind Hres Hcur. unfold query_GetJson. rewrite Hfind, Hres, Hcur. cbn [negb].
  unfold dataSample_ConvertToJson, dataSample_GetTimestamp.
  destruct (decide (resTree_GetDataType t (Some ref) = IO_DATA_TYPE_JSON)) as [-> | _].
  - cbn [jsonProjection]. by destruct (le_utf8_Copy _ _).
  - by destruct (le_utf8_Copy _ _).
Qed.

(** [query_GetJson] has no path to [LE_FORMAT_ERROR]. *)
Lemma query_GetJson_never_format_error (printDouble : float -> string)
    (jsonEscape : string -> string) (t : Tree) (path : string) (valueSize : nat) :
  result (query_GetJson printDouble jsonEscape t path valueSize) ≠ LE_FORMAT_ERROR.
Proof.
  unfold query_GetJson.
  destruct (resTree_FindEntryAtAbsolutePath t path) as [ref|]; [|done].
  destruct (resTree_IsResource t (Some ref)); [|done]. cbn [negb].
  destruct (resTree_GetCurrentValue t (Some ref)) as [sample|]; [|done].
  unfold dataSample_ConvertToJson.
  destruct (decide _).
  - destruct (le_utf8_Copy_result (dataSample_GetJson sample) valueSize) as [[_ ->]|[_ H]];
      [done|]. destruct (le_utf8_Copy _ _). cbn in *. by subst.
  - match goal with |- context [le_utf8_Copy ?src ?n] =>
      destruct (le_utf8_Copy_result src n) as [[_ ->]|[_ H]]; [done|];
      destruct (le_utf8_Copy src n); cbn in *; by subst
    end.
Qed.

(** C8: on a resource that exists and has a current value,
    [query_GetJson] never returns [LE_FORMAT_ERROR], whatever the data
    type: it writes the timestamp and the JSON projection of the current
    value and returns [LE_OK], or [LE_OVERFLOW] when the projection does not
    fit the caller's buffer. *)
Theorem query_GetJson_any_kind (printDouble : float -> string)
    (jsonEscape : string -> string) (t : Tree) (path : string) (valueSize : nat)
    (ref : list string) (sample : dataSample) :
  resTree_FindEntryAtAbsolutePath t path = Some ref ->
  resTree_IsResource t (Some ref) = true ->
  resTree_GetCurrentValue t (Some ref) = Some sample ->
  result (query_GetJson printDouble jsonEscape t path valueSize) ≠ LE_FORMAT_ERROR
  ∧ timestampOut (query_GetJson printDouble jsonEscape t path valueSize)
    = Some (timestamp sample)
  ∧ (String.length (jsonProjection printDouble jsonEscape sample
                                   (resTree_GetDataType t (Some ref))) < valueSize ->
     query_GetJson printDouble jsonEscape t path valueSize
     = mkFetched LE_OK (Some (timestamp sample))
                 (Some (jsonProjection printDouble jsonEscape sample
                                       (resTree_GetDataType t (Some ref)))))
  ∧ (valueSize ≤ String.length (jsonProjection printDouble jsonEscape sample
                                               (resTree_GetDataType t (Some ref))) ->
     result (query_GetJson printDouble jsonEscape t path valueSize) = LE_OVERFLOW)
  ∧ (kindOf sample = resTree_GetDataType t (Some ref) ->
     jsonProjection printDouble jsonEscape sample (resTree_GetDataType t (Some ref))
     = jsonProjection printDouble jsonEscape sample (kindOf sample)).
Proof.
  intros Hfind Hres Hcur.
  split; [apply query_GetJson_never_format_error|].
  rewrite (query_GetJson_eq _ _ _ _ _ _ _ Hfind Hres Hcur). cbn [timestampOut result].
  split; [done|]. repeat split.
  - intros Hfits.
    destruct (le_utf8_Copy_result
                (jsonProjection printDouble jsonEscape sample
                                (resTree_GetDataType t (Some ref))) valueSize)
      as [[_ ->]|[Hbig _]]; [done|lia].
  - intros Hbig.
    destruct (le_utf8_Copy_result
                (jsonProjection printDouble jsonEscape sample
                                (resTree_GetDataType t (Some ref))) valueSize)
      as [[Hfits _]|[_ ->]]; [lia|done].
  - by intros ->.
Qed.

(** The Boolean Output [y] with the default [true]: its JSON reading is
    the text [true]. *)
Lemma query_GetJson_any_kind_witness :
  query_GetJson printNothing id
    (tree (stateAfter (io_SetBooleanDefault "y" true) outputHub)) "/app/sensord/y" 16
  = mkFetched LE_OK (Some 0%float) (Some "true"%string).
Proof.
  pose proof (query_GetJson_any_kind printNothing id
                (tree (stateAfter (io_SetBooleanDefault "y" true) outputHub))
                "/app/sensord/y" 16 ["app"%string; "sensord"%string; "y"%string]
                (mkSample 0 (PBoolean true))) as H.
  destruct H as (_ & _ & Hok & _).
  - vm_compute; reflexivity.
  - vm_compute; reflexivity.
  - vm_compute; reflexivity.
  - rewrite Hok; [vm_compute; reflexivity|]. vm_compute. lia.
Defined.

(** ** The I/O API on what is not an Input or an Output *)

(** Whenever [FindResource] answers [NULL], a push kills the client, a
    get returns [LE_NOT_FOUND] and writes nothing, a delete does nothing. *)
Lemma io_calls_without_resource (path : string) (s s1 : HubState) :
  FindResource path s = Done None s1 ->
  (∀ ts, io_PushTrigger path ts s = Done tt (killClient s1))
  ∧ (∀ ts v, io_PushBoolean path ts v s = Done tt (killClient s1))
  ∧ (∀ ts v, io_PushNumeric path ts v s = Done tt (killClient s1))
  ∧ (∀ ts v, io_PushString path ts v s = Done tt (killClient s1))
  ∧ (∀ ts v, io_PushJson path ts v s = Done tt (killClient s1))
  ∧ io_GetTimestamp path s = Done (LE_NOT_FOUND, None) s1
  ∧ io_GetBoolean path s = Done (mkFetched LE_NOT_FOUND None None) s1
  ∧ io_GetNumeric path s = Done (mkFetched LE_NOT_FOUND None None) s1
  ∧ (∀ size, io_GetString path size s = Done (mkFetched LE_NOT_FOUND None None) s1)
  ∧ (∀ printDouble jsonEscape size,
       io_GetJson printDouble jsonEscape path size s
       = Done (mkFetched LE_NOT_FOUND None None) s1)
  ∧ io_DeleteResource path s = Done tt s1.
Proof.
  intros H.
  unfold io_PushTrigger, io_PushBoolean, io_PushNumeric, io_PushString, io_PushJson,
    io_GetTimestamp, io_GetBoolean, io_GetNumeric, io_GetString, io_GetJson,
    io_DeleteResource, hub_bind.
  rewrite H. repeat split.
Qed.

(** C10: an entry of the client's namespace whose role is neither Input
    nor Output is to the I/O API what a missing resource is:
    [FindResource] answers [NULL], so every [io_Push*] terminates the client
    session and leaves the tree as it was, every [io_Get*] returns
    [LE_NOT_FOUND] and writes nothing, and [io_DeleteResource] does
    nothing. *)
Theorem io_ignores_other_roles (s s1 : HubState) (ns ref : list string) (path : string)
    (e : Entry) :
  tree_wf (tree s) ->
  GetClientNamespace s = Done (Some ns) s1 ->
  resTree_FindEntry (tree s) (Some ns) path = Some ref ->
  tree s !! ref = Some e ->
  entryType e ≠ ADMIN_ENTRY_TYPE_INPUT ->
  entryType e ≠ ADMIN_ENTRY_TYPE_OUTPUT ->
  FindResource path s = Done None s1
  ∧ tree s1 = tree s
  ∧ clientKilled s1 = clientKilled s
  ∧ tree (killClient s1) = tree s
  ∧ clientKilled (killClient s1) = true
  ∧ (∀ ts, io_PushTrigger path ts s = Done tt (killClient s1))
  ∧ (∀ ts v, io_PushBoolean path ts v s = Done tt (killClient s1))
  ∧ (∀ ts v, io_PushNumeric path ts v s = Done tt (killClient s1))
  ∧ (∀ ts v, io_PushString path ts v s = Done tt (killClient s1))
  ∧ (∀ ts v, io_PushJson path ts v s = Done tt (killClient s1))
  ∧ io_GetTimestamp path s = Done (LE_NOT_FOUND, None) s1
  ∧ io_GetBoolean path s = Done (mkFetched LE_NOT_FOUND None None) s1
  ∧ io_GetNumeric path s = Done (mkFetched LE_NOT_FOUND None None) s1
  ∧ (∀ size, io_GetString path size s = Done (mkFetched LE_NOT_FOUND None None) s1)
  ∧ (∀ printDouble jsonEscape size,
       io_GetJson printDouble jsonEscape path size s
       = Done (mkFetched LE_NOT_FOUND None None) s1)
  ∧ io_DeleteResource path s = Done tt s1.
Proof.
  intros Hwf Hns Hfind He Hin Hout.
  destruct (resTree_FindEntry_lookup _ _ _ _ Hfind) as (b & segs & e' & [= <-] & Hp & -> & _).
  destruct (GetClientNamespace_Some _ _ _ Hns) as (_ & _ & Hkilled & _ & _ & _ & Hsame).
  assert (s1 = setSessionContextPtr (Some ns) s) as Hs1.
  { apply Hsame; [done|]. apply (tree_wf_prefix _ _ segs Hwf). by rewrite He. }
  assert (tree s1 = tree s) as Htree by by rewrite Hs1.
  assert (FindResource path s = Done None s1) as Hnone.
  { rewrite FindResource_eq, Hns, Htree, Hfind. f_equal.
    apply onlyIO_other; unfold resTree_GetEntryType, entryAt; by rewrite He. }
  split; [done|]. split; [done|]. split; [done|]. split; [done|]. split; [done|].
  by apply io_calls_without_resource.
Qed.

(** [a] is a Namespace of the client that created [a/b]: a push to it
    kills the client, a get does not find it. *)
Lemma io_ignores_other_roles_witness :
  io_PushNumeric "a" 1700000000 21.5 nestedHub = Done tt (killClient nestedHub)
  ∧ io_GetNumeric "a" nestedHub = Done (mkFetched LE_NOT_FOUND None None) nestedHub
  ∧ io_DeleteResource "a" nestedHub = Done tt nestedHub.
Proof.
  pose proof (io_ignores_other_roles nestedHub nestedHub ["app"%string; "sensord"%string]
                ["app"%string; "sensord"%string; "a"%string] "a"
                (newEntry ADMIN_ENTRY_TYPE_NAMESPACE)) as H.
  destruct H as (_ & _ & _ & _ & _ & _ & _ & Hpush & _ & _ & _ & _ & Hget & _ & _ & Hdel).
  - apply (bool_decide_unpack (tree_wf (tree nestedHub))). vm_compute. exact I.
  - vm_compute; reflexivity.
  - vm_compute; reflexivity.
  - vm_compute; reflexivity.
  - vm_compute; discriminate.
  - vm_compute; discriminate.
  - by rewrite Hpush, Hget, Hdel.
Defined.

(** ** Creating a resource where one exists *)

Lemma io_CreateInput_conflict (s s1 : HubState) (ns ref : list string) (path : string)
    (dt : io_DataType_t) (u : string) (e : Entry) :
  GetClientNamespace s = Done (Some ns) s1 ->
  resTree_FindEntry (tree s1) (Some ns) path = Some ref ->
  tree s1 !! ref = Some e ->
  conflictsWith ADMIN_ENTRY_TYPE_INPUT dt u e ->
  io_CreateInput path dt u s = Done LE_DUPLICATE s1.
Proof.
  intros Hns Hfind He [Hrole Hdiff].
  unfold io_CreateInput. hub_unfold. rewrite Hns, Hfind.
  unfold resTree_GetEntryType, resTree_GetDataType, resTree_GetUnits, entryAt.
  rewrite He. cbn [default from_option id].
  destruct Hrole as [Hrole|[Hrole|Hrole]]; rewrite Hrole; [|done..].
  rewrite !He. cbn [default from_option id].
  destruct Hdiff as [Hdiff|[Hdiff|Hdiff]]; [done| |].
  - by rewrite (bool_decide_eq_true_2 _ Hdiff).
  - rewrite (bool_decide_eq_true_2 (u ≠ units e)); [|by intros ->].
    by rewrite orb_true_r.
Qed.

Lemma io_CreateOutput_conflict (s s1 : HubState) (ns ref : list string) (path : string)
    (dt : io_DataType_t) (u : string) (e : Entry) :
  GetClientNamespace s = Done (Some ns) s1 ->
  resTree_FindEntry (tree s1) (Some ns) path = Some ref ->
  tree s1 !! ref = Some e ->
  conflictsWith ADMIN_ENTRY_TYPE_OUTPUT dt u e ->
  io_CreateOutput path dt u s = Done LE_DUPLICATE s1.
Proof.
  intros Hns Hfind He [Hrole Hdiff].
  unfold io_CreateOutput. hub_unfold. rewrite Hns, Hfind.
  unfold resTree_GetEntryType, resTree_GetDataType, resTree_GetUnits, entryAt.
  rewrite He. cbn [default from_option id].
  destruct Hrole as [Hrole|[Hrole|Hrole]]; rewrite Hrole; [done| |done].
  rewrite !He. cbn [default from_option id].
  destruct Hdiff as [Hdiff|[Hdiff|Hdiff]]; [done| |].
  - by rewrite (bool_decide_eq_true_2 _ Hdiff).
  - rewrite (bool_decide_eq_true_2 (u ≠ units e)); [|by intros ->].
    by rewrite orb_true_r.
Qed.

(** C3: where the path already holds an Input, an Output or an
    Observation, [io_CreateInput] and [io_CreateOutput] called with a
    conflicting role, or with the same role and another data type or other
    units, return [LE_DUPLICATE]; the entry (role, data type, units, current
    value, default) is as it was and the client is not killed. *)
Theorem io_Create_duplicate (s s1 : HubState) (ns ref : list string) (path : string)
    (dt : io_DataType_t) (u : string) (e : Entry) :
  GetClientNamespace s = Done (Some ns) s1 ->
  resTree_FindEntry (tree s) (Some ns) path = Some ref ->
  tree s !! ref = Some e ->
  isResourceRole (entryType e) ->
  (conflictsWith ADMIN_ENTRY_TYPE_INPUT dt u e ->
   io_CreateInput path dt u s = Done LE_DUPLICATE s1)
  ∧ (conflictsWith ADMIN_ENTRY_TYPE_OUTPUT dt u e ->
     io_CreateOutput path dt u s = Done LE_DUPLICATE s1)
  ∧ tree s1 !! ref = Some e
  ∧ clientKilled s1 = clientKilled s.
Proof.
  intros Hns Hfind He _.
  destruct (GetClientNamespace_Some _ _ _ Hns) as (_ & Hsub & Hkilled & _).
  pose proof (resTree_FindEntry_weaken _ _ _ _ _ Hsub Hfind) as Hfind1.
  pose proof (lookup_weaken _ _ _ _ He Hsub) as He1.
  repeat split; try done.
  - intros Hconflict. by apply (io_CreateInput_conflict _ _ ns ref _ _ _ e).
  - intros Hconflict. by apply (io_CreateOutput_conflict _ _ ns ref _ _ _ e).
Qed.

(** [temp] is a numeric Input in degrees Celsius: creating an Output
    there, or an Input in other units, is a duplicate. *)
Lemma io_Create_duplicate_witness :
  io_CreateOutput "temp" IO_DATA_TYPE_NUMERIC "degC" inputHub = Done LE_DUPLICATE inputHub
  ∧ io_CreateInput "temp" IO_DATA_TYPE_NUMERIC "m" inputHub = Done LE_DUPLICATE inputHub
  ∧ tree inputHub !! ["app"%string; "sensord"%string; "temp"%string]
    = Some (newIO ADMIN_ENTRY_TYPE_INPUT IO_DATA_TYPE_NUMERIC "degC").
Proof.
  assert (GetClientNamespace inputHub = Done (Some ["app"%string; "sensord"%string]) inputHub)
    as Hns by (vm_compute; reflexivity).
  assert (resTree_FindEntry (tree inputHub) (Some ["app"%string; "sensord"%string]) "temp"
          = Some ["app"%string; "sensord"%string; "temp"%string])
    as Hfind by (vm_compute; reflexivity).
  assert (tree inputHub !! ["app"%string; "sensord"%string; "temp"%string]
          = Some (newIO ADMIN_ENTRY_TYPE_INPUT IO_DATA_TYPE_NUMERIC "degC"))
    as He by (vm_compute; reflexivity).
  assert (isResourceRole
            (entryType (newIO ADMIN_ENTRY_TYPE_INPUT IO_DATA_TYPE_NUMERIC "degC")))
    as Hrole by (left; reflexivity).
  split; [|split].
  - apply (io_Create_duplicate _ _ _ _ "temp" IO_DATA_TYPE_NUMERIC "degC" _ Hns Hfind He Hrole).
    split; [exact Hrole|]. left. discriminate.
  - apply (io_Create_duplicate _ _ _ _ "temp" IO_DATA_TYPE_NUMERIC "m" _ Hns Hfind He Hrole).
    split; [exact Hrole|]. right. right. discriminate.
  - exact He.
Defined.

(** ** Creating an Input twice *)

Lemma resTree_GetIO_found (type : admin_EntryType_t) (t t' : Tree)
    (base : resTree_EntryRef_t) (path : string) (dt : io_DataType_t) (u : string)
    (ref : list string) :
  type = ADMIN_ENTRY_TYPE_INPUT ∨ type = ADMIN_ENTRY_TYPE_OUTPUT ->
  resTree_GetIO type t base path dt u = (Some ref, t') ->
  resTree_FindEntry t' base path = Some ref
  ∧ ∃ e, t' !! ref = Some e ∧ entryType e = type ∧ dataType e = dt ∧ units e = u.
Proof.
  intros Htype. unfold resTree_GetIO, resTree_FindEntry.
  destruct base as [b|]; [|done]. destruct (parsePath path) as [segs|]; [|done].
  destruct (t !! (b ++ segs)) as [e|] eqn:He.
  - assert (∀ r : resTree_EntryRef_t * Tree,
              r = (Some (b ++ segs), <[b ++ segs := newIO type dt u]> t) ->
              r = (Some ref, t') ->
              match t' !! (b ++ segs) with
              | Some _ => Some (b ++ segs)
              | None => None
              end = Some ref
              ∧ ∃ e0, t' !! ref = Some e0 ∧ entryType e0 = type ∧ dataType e0 = dt
                      ∧ units e0 = u) as Hpromoted.
    { intros r -> [= <- <-]. rewrite lookup_insert_eq. split; [done|].
      by exists (newIO type dt u). }
    destruct (entryType e) eqn:Hrole; try (by apply (Hpromoted _ eq_refl));
      (destruct (decide _) as [(Hr & Hd & Hu)|]; [|done]);
      intros [= <- <-]; rewrite He; (split; [done|]); exists e; by rewrite Hrole.
  - intros [= <- <-]. rewrite lookup_insert_eq. split; [done|].
    by exists (newIO type dt u).
Qed.

Lemma io_CreateInput_existing (s : HubState) (ns ref : list string) (path : string)
    (dt : io_DataType_t) (u : string) (e : Entry) :
  sessionContextPtr s = Some ns ->
  resTree_FindEntry (tree s) (Some ns) path = Some ref ->
  tree s !! ref = Some e ->
  entryType e = ADMIN_ENTRY_TYPE_INPUT -> dataType e = dt -> units e = u ->
  io_CreateInput path dt u s = Done LE_OK s
  ∧ resTree_GetInput (tree s) (Some ns) path dt u = (Some ref, tree s).
Proof.
  intros Hctx Hfind He Hrole Hdt Hu. split.
  - unfold io_CreateInput. hub_unfold.
    rewrite (GetClientNamespace_cached _ _ Hctx), Hfind.
    unfold resTree_GetEntryType, resTree_GetDataType, resTree_GetUnits, entryAt.
    rewrite He. cbn [default from_option id]. rewrite Hrole.
    rewrite !He. cbn [default from_option id].
    rewrite bool_decide_eq_false_2; [|by intros ?].
    rewrite bool_decide_eq_false_2; [done|]. intros H. by apply H.
  - destruct (resTree_FindEntry_lookup _ _ _ _ Hfind) as (b & segs & e' & [= <-] & Hp & -> & _).
    unfold resTree_GetInput, resTree_GetIO. rewrite Hp, He, Hrole.
    by rewrite decide_True.
Qed.

(** The creating tail of [io_CreateInput], when it ends in [LE_OK]. *)
Lemma io_CreateInput_tail (ns : list string) (path : string) (dt : io_DataType_t)
    (u : string) (s0 s1 : HubState) :
  hub_bind (onTree (fun t => resTree_GetInput t (Some ns) path dt u))
           (fun resRef : resTree_EntryRef_t =>
              match resRef with
              | None => hub_bind (LE_KILL_CLIENT "Failed to create Input.")
                                 (fun _ => hub_ret LE_FAULT)
              | Some _ => hub_ret LE_OK
              end) s0
  = Done LE_OK s1 ->
  sessionContextPtr s0 = Some ns ->
  ∃ ref e,
    resTree_GetInput (tree s0) (Some ns) path dt u = (Some ref, tree s1)
    ∧ sessionContextPtr s1 = Some ns
    ∧ resTree_FindEntry (tree s1) (Some ns) path = Some ref
    ∧ tree s1 !! ref = Some e
    ∧ entryType e = ADMIN_ENTRY_TYPE_INPUT ∧ dataType e = dt ∧ units e = u.
Proof.
  hub_unfold.
  destruct (resTree_GetInput (tree s0) (Some ns) path dt u) as [[ref0|] t0] eqn:Hget; [|done].
  intros [_ <-]%Done_inj Hctx.
  destruct (resTree_GetIO_found _ _ _ _ _ _ _ _ (or_introl eq_refl) Hget)
    as (Hfind & e & He & Hrole & Hdt & Hu).
  by exists ref0, e.
Qed.

(** What a successful [io_CreateInput] leaves behind. *)
Lemma io_CreateInput_Ok (s s1 : HubState) (path : string) (dt : io_DataType_t) (u : string) :
  io_CreateInput path dt u s = Done LE_OK s1 ->
  ∃ ns s0,
    GetClientNamespace s = Done (Some ns) s0
    ∧ ∃ ref e,
        resTree_GetInput (tree s0) (Some ns) path dt u = (Some ref, tree s1)
        ∧ sessionContextPtr s1 = Some ns
        ∧ resTree_FindEntry (tree s1) (Some ns) path = Some ref
        ∧ tree s1 !! ref = Some e
        ∧ entryType e = ADMIN_ENTRY_TYPE_INPUT ∧ dataType e = dt ∧ units e = u.
Proof.
  unfold io_CreateInput. hub_unfold.
  destruct (GetClientNamespace s) as [[ns|] s0|] eqn:Hns; [| |done].
  2: { by cbn. }
  destruct (GetClientNamespace_Some _ _ _ Hns) as (Hctx & _).
  destruct (resTree_FindEntry (tree s0) (Some ns) path) as [ref|] eqn:Hfind.
  - destruct (resTree_FindEntry_lookup _ _ _ _ Hfind) as (b & segs & e & [= <-] & Hp & -> & He).
    unfold resTree_GetEntryType, resTree_GetDataType, resTree_GetUnits, entryAt.
    rewrite He. cbn [default from_option id].
    destruct (entryType e) eqn:Hrole; try done.
    + intros Hrun. exists ns, s0. split; [done|].
      exact (io_CreateInput_tail ns path dt u s0 s1 Hrun Hctx).
    + intros Hrun. exists ns, s0. split; [done|].
      exact (io_CreateInput_tail ns path dt u s0 s1 Hrun Hctx).
    + rewrite !He. cbn [default from_option id].
      case_bool_decide as Hdt; [done|]. case_bool_decide as Hu; [done|].
      cbn [orb]. intros [_ <-]%Done_inj.
      assert (dataType e = dt) as Hdt' by by destruct (decide (dataType e = dt)).
      assert (units e = u) as Hu' by by destruct (decide (u = units e)).
      destruct (io_CreateInput_existing s0 ns (ns ++ segs) path dt u e) as [_ Hget];
        try done.
      exists ns, s0. split; [done|]. by exists (ns ++ segs), e.
  - intros Hrun. exists ns, s0. split; [done|].
    exact (io_CreateInput_tail ns path dt u s0 s1 Hrun Hctx).
Qed.

(** C7 (amended): whenever a first [io_CreateInput(path, dt, u)]
    returns [LE_OK], a second one returns [LE_OK] too and changes nothing,
    and both resolve to the same entry, an Input of data type [dt] and units
    [u]. *)
Theorem io_CreateInput_twice (s s1 : HubState) (path : string) (dt : io_DataType_t)
    (u : string) :
  io_CreateInput path dt u s = Done LE_OK s1 ->
  io_CreateInput path dt u s1 = Done LE_OK s1
  ∧ ∃ ns s0 ref e,
      GetClientNamespace s = Done (Some ns) s0
      ∧ GetClientNamespace s1 = Done (Some ns) s1
      ∧ resTree_GetInput (tree s0) (Some ns) path dt u = (Some ref, tree s1)
      ∧ resTree_GetInput (tree s1) (Some ns) path dt u = (Some ref, tree s1)
      ∧ resTree_FindEntry (tree s1) (Some ns) path = Some ref
      ∧ tree s1 !! ref = Some e
      ∧ entryType e = ADMIN_ENTRY_TYPE_INPUT ∧ dataType e = dt ∧ units e = u.
Proof.
  intros Hfirst.
  destruct (io_CreateInput_Ok _ _ _ _ _ Hfirst)
    as (ns & s0 & Hns & ref & e & Hget & Hctx & Hfind & He & Hrole & Hdt & Hu).
  destruct (io_CreateInput_existing s1 ns ref path dt u e) as [Hsecond Hget1]; try done.
  split; [done|].
  exists ns, s0, ref, e. repeat split; try done.
  by apply GetClientNamespace_cached.
Qed.

(** On a hub that has just started, creating [temp] twice succeeds
    twice. *)
Lemma io_CreateInput_twice_witness :
  io_CreateInput "temp" IO_DATA_TYPE_NUMERIC "degC" startHub = Done LE_OK inputHub
  ∧ io_CreateInput "temp" IO_DATA_TYPE_NUMERIC "degC" inputHub = Done LE_OK inputHub.
Proof.
  assert (io_CreateInput "temp" IO_DATA_TYPE_NUMERIC "degC" startHub = Done LE_OK inputHub)
    as Hfirst by (vm_compute; reflexivity).
  split; [exact Hfirst|].
  exact (proj1 (io_CreateInput_twice startHub inputHub "temp" IO_DATA_TYPE_NUMERIC "degC"
                  Hfirst)).
Defined.

(** Not every path can be created, against C7 as stated: where the path
    holds an Output, the first [io_CreateInput] already returns
    [LE_DUPLICATE]. *)
Lemma io_CreateInput_not_always_ok :
  ¬ (∀ (s : HubState) (path : string) (dt : io_DataType_t) (u : string),
        ∃ s1 s2, io_CreateInput path dt u s = Done LE_OK s1
                 ∧ io_CreateInput path dt u s1 = Done LE_OK s2).
Proof.
  intros H.
  destruct (H outputXHub "x"%string IO_DATA_TYPE_NUMERIC "m"%string) as (s1 & s2 & Hfirst & _).
  assert (valueOf (io_CreateInput "x" IO_DATA_TYPE_NUMERIC "m") outputXHub = Some LE_DUPLICATE)
    as Hrun by (vm_compute; reflexivity).
  unfold valueOf in Hrun. rewrite Hfirst in Hrun. discriminate.
Qed.

(** ** Pushing, then fetching *)

Lemma entryAt_lookup (t : Tree) (ref : list string) (e : Entry) :
  t !! ref = Some e -> entryAt t (Some ref) = e.
Proof. intros H. unfold entryAt. by rewrite H. Qed.

Lemma entryAt_insert (t : Tree) (ref : list string) (e : Entry) :
  entryAt (<[ref := e]> t) (Some ref) = e.
Proof. unfold entryAt. by rewrite lookup_insert_eq. Qed.

(** Once the namespace is cached, a change to the state of an Input or
    Output does not change what its path finds. *)
Lemma io_resource_IsResource (t : Tree) (ref : list string) (e : Entry) :
  t !! ref = Some e ->
  entryType e = ADMIN_ENTRY_TYPE_INPUT ∨ entryType e = ADMIN_ENTRY_TYPE_OUTPUT ->
  resTree_IsResource t (Some ref) = true.
Proof.
  intros He Hrole. unfold resTree_IsResource, resTree_GetEntryType.
  rewrite (entryAt_lookup _ _ _ He). apply bool_decide_eq_true_2.
  by destruct Hrole as [-> | ->].
Qed.

Lemma FindResource_after_update (s1 : HubState) (ns ref : list string) (path : string)
    (e e' : Entry) :
  sessionContextPtr s1 = Some ns ->
  resTree_FindEntry (tree s1) (Some ns) path = Some ref ->
  tree s1 !! ref = Some e ->
  entryType e' = ADMIN_ENTRY_TYPE_INPUT ∨ entryType e' = ADMIN_ENTRY_TYPE_OUTPUT ->
  FindResource path (setTree (<[ref := e']> (tree s1)) s1)
  = Done (Some ref) (setTree (<[ref := e']> (tree s1)) s1).
Proof.
  intros Hctx Hfind He Hrole.
  rewrite (FindResource_cached _ _ ns); [|done]. cbn [tree setTree].
  rewrite resTree_FindEntry_insert; [|by rewrite He]. rewrite Hfind. f_equal.
  apply (onlyIO_io _ _ e'); [apply lookup_insert_eq|done].
Qed.

Lemma resTree_Push_io (ref : list string) (e : Entry) (kind : io_DataType_t)
    (sample : dataSample) (s : HubState) :
  tree s !! ref = Some e ->
  entryType e = ADMIN_ENTRY_TYPE_INPUT ∨ entryType e = ADMIN_ENTRY_TYPE_OUTPUT ->
  dataType e = kind ->
  PrimFloat.eqb (timestamp sample) 0 = false ->
  resTree_Push (Some ref) kind sample s
  = Done tt (setTree (<[ref := setCurrentValue (Some sample) e]> (tree s)) s).
Proof.
  intros He Hrole Hkind Hts. unfold resTree_Push. hub_unfold.
  rewrite (entryAt_lookup _ _ _ He), Hts.
  destruct Hrole as [-> | ->]; by rewrite decide_True.
Qed.

(** None of the typed getters of the I/O API ever writes through its
    timestamp pointer. *)
Lemma io_Get_timestamp_unwritten (printDouble : float -> string)
    (jsonEscape : string -> string) (path : string) (valueSize : nat) (s s' : HubState) :
  (∀ f, io_GetBoolean path s = Done f s' -> timestampOut f = None)
  ∧ (∀ f, io_GetNumeric path s = Done f s' -> timestampOut f = None)
  ∧ (∀ f, io_GetString path valueSize s = Done f s' -> timestampOut f = None)
  ∧ (∀ f, io_GetJson printDouble jsonEscape path valueSize s = Done f s' ->
          timestampOut f = None).
Proof.
  unfold io_GetBoolean, io_GetNumeric, io_GetString, io_GetJson, GetCurrentValue.
  hub_unfold.
  destruct (FindResource path s) as [[ref|] s1|]; repeat split; intros f; try done;
    try (by intros [<- _]%Done_inj).
  - case_bool_decide; [by intros [<- _]%Done_inj|].
    destruct (resTree_GetCurrentValue _ _); by intros [<- _]%Done_inj.
  - case_bool_decide; [by intros [<- _]%Done_inj|].
    destruct (resTree_GetCurrentValue _ _); by intros [<- _]%Done_inj.
  - case_bool_decide; [by intros [<- _]%Done_inj|].
    destruct (resTree_GetCurrentValue _ _); [|by intros [<- _]%Done_inj].
    destruct (le_utf8_Copy _ _). by intros [<- _]%Done_inj.
  - destruct (resTree_GetCurrentValue _ _); [|by intros [<- _]%Done_inj].
    destruct (dataSample_ConvertToJson _ _ _ _ _). by intros [<- _]%Done_inj.
Qed.

(** C2: on a numeric Input or Output and for a timestamp other than
    zero, [io_PushNumeric] stores the sample with that timestamp, and
    [io_GetNumeric] then returns [LE_OK] and writes the pushed value through
    its value pointer; through its timestamp pointer it writes nothing. The
    timestamp is to be had from [io_GetTimestamp] only. *)
Theorem io_GetNumeric_after_push (s s1 : HubState) (path : string) (ref : list string)
    (e : Entry) (ts value : float) :
  FindResource path s = Done (Some ref) s1 ->
  tree s1 !! ref = Some e ->
  dataType e = IO_DATA_TYPE_NUMERIC ->
  PrimFloat.eqb ts 0 = false ->
  ∃ s2,
    io_PushNumeric path ts value s = Done tt s2
    ∧ clientKilled s2 = clientKilled s
    ∧ resTree_GetCurrentValue (tree s2) (Some ref) = Some (mkSample ts (PNumeric value))
    ∧ io_GetNumeric path s2 = Done (mkFetched LE_OK None (Some value)) s2
    ∧ io_GetTimestamp path s2 = Done (LE_OK, Some ts) s2.
Proof.
  intros Hres He Hkind Hts.
  destruct (FindResource_found _ _ _ _ Hres) as (ns & e0 & Hns & Hctx & Hfind & He0 & Hrole).
  assert (e0 = e) as -> by congruence.
  destruct (GetClientNamespace_Some _ _ _ Hns) as (_ & _ & Hkilled & _).
  pose (sample := dataSample_CreateNumeric ts value).
  pose (s2 := setTree (<[ref := setCurrentValue (Some sample) e]> (tree s1)) s1).
  assert (FindResource path s2 = Done (Some ref) s2) as Hres2.
  { by apply (FindResource_after_update s1 ns ref path e). }
  assert (entryAt (tree s2) (Some ref) = setCurrentValue (Some sample) e) as Hentry.
  { apply entryAt_insert. }
  exists s2. repeat split.
  - unfold io_PushNumeric, hub_bind. rewrite Hres.
    by apply resTree_Push_io.
  - done.
  - unfold resTree_GetCurrentValue. by rewrite Hentry.
  - unfold io_GetNumeric, hub_bind. rewrite Hres2.
    rewrite GetCurrentValue_right_kind.
    + unfold resTree_GetCurrentValue. by rewrite Hentry.
    + unfold resTree_GetDataType. by rewrite Hentry.
  - unfold io_GetTimestamp. hub_unfold. rewrite Hres2.
    unfold resTree_GetCurrentValue. by rewrite Hentry.
Qed.

(** The numeric Input [temp], pushed 21.5 at 1700000000: the value comes
    back, the timestamp pointer is left alone. *)
Lemma io_GetNumeric_after_push_witness :
  ∃ s2,
    io_PushNumeric "temp" 1700000000 21.5 inputHub = Done tt s2
    ∧ clientKilled s2 = clientKilled inputHub
    ∧ resTree_GetCurrentValue (tree s2) (Some ["app"%string; "sensord"%string; "temp"%string])
      = Some (mkSample 1700000000 (PNumeric 21.5))
    ∧ io_GetNumeric "temp" s2 = Done (mkFetched LE_OK None (Some 21.5%float)) s2
    ∧ io_GetTimestamp "temp" s2 = Done (LE_OK, Some 1700000000%float) s2.
Proof.
  apply (io_GetNumeric_after_push inputHub inputHub "temp"
           ["app"%string; "sensord"%string; "temp"%string]
           (newIO ADMIN_ENTRY_TYPE_INPUT IO_DATA_TYPE_NUMERIC "degC")).
  - vm_compute; reflexivity.
  - vm_compute; reflexivity.
  - reflexivity.
  - reflexivity.
Defined.

(** ** Defaults are written once *)

(** The state of the hub once the default of [ref] is [sample]. *)
Lemma default_set_state (s1 : HubState) (ns ref : list string) (path : string)
    (e : Entry) (sample : dataSample) :
  sessionContextPtr s1 = Some ns ->
  resTree_FindEntry (tree s1) (Some ns) path = Some ref ->
  tree s1 !! ref = Some e ->
  entryType e = ADMIN_ENTRY_TYPE_INPUT ∨ entryType e = ADMIN_ENTRY_TYPE_OUTPUT ->
  FindResource path (setTree (<[ref := setDefaultValue (Some sample) e]> (tree s1)) s1)
  = Done (Some ref) (setTree (<[ref := setDefaultValue (Some sample) e]> (tree s1)) s1)
  ∧ entryAt (tree (setTree (<[ref := setDefaultValue (Some sample) e]> (tree s1)) s1))
            (Some ref)
    = setDefaultValue (Some sample) e.
Proof.
  intros Hctx Hfind He Hrole. split.
  - by apply (FindResource_after_update s1 ns ref path e).
  - apply entryAt_insert.
Qed.

Ltac default_first Hres He Hkind Hdef :=
  hub_unfold; rewrite Hres;
  unfold resTree_GetDataType, resTree_HasDefault, resTree_SetDefault;
  rewrite (entryAt_lookup _ _ _ He), Hkind, He, Hdef;
  reflexivity.

Ltac default_second Hres2 Hentry Hkind :=
  hub_unfold; rewrite Hres2;
  unfold resTree_GetDataType, resTree_HasDefault;
  rewrite Hentry; cbn [dataType defaultValue setDefaultValue]; rewrite Hkind;
  reflexivity.

Ltac default_query Habs Hio Hsample Hentry Hkind :=
  rewrite Habs, Hio; cbn [negb]; rewrite Hsample;
  unfold resTree_GetDataType; rewrite Hentry; cbn [dataType setDefaultValue];
  rewrite Hkind.

(** C5: on an Input or Output with no default, the first [io_Set*Default]
    of the resource's kind sets the default, with timestamp 0, and a second
    one changes nothing, whether or not a value has been pushed; the current
    value is not touched. While no push has occurred, a read then reports
    the first value with timestamp 0: the typed getters of the Query API
    hand back both, [io_GetBoolean], [io_GetNumeric], [io_GetString] and
    [io_GetJson] hand back the value, [io_GetTimestamp] hands back 0. *)
Theorem io_SetDefault_write_once (s s1 : HubState) (path : string) (ref : list string)
    (e : Entry) :
  FindResource path s = Done (Some ref) s1 ->
  tree s1 !! ref = Some e ->
  defaultValue e = None ->
  (dataType e = IO_DATA_TYPE_BOOLEAN -> ∀ v1 v2 : bool,
     ∃ s2,
       io_SetBooleanDefault path v1 s = Done tt s2
       ∧ io_SetBooleanDefault path v2 s2 = Done tt s2
       ∧ defaultValue (entryAt (tree s2) (Some ref)) = Some (mkSample 0 (PBoolean v1))
       ∧ currentValue (entryAt (tree s2) (Some ref)) = currentValue e
       ∧ (currentValue e = None ->
          resTree_GetCurrentValue (tree s2) (Some ref) = Some (mkSample 0 (PBoolean v1))
          ∧ io_GetBoolean path s2 = Done (mkFetched LE_OK None (Some v1)) s2
          ∧ io_GetTimestamp path s2 = Done (LE_OK, Some 0%float) s2
          ∧ ∀ qpath,
              resTree_FindEntryAtAbsolutePath (tree s2) qpath = Some ref ->
              query_GetBoolean (tree s2) qpath = mkFetched LE_OK (Some 0%float) (Some v1)))
  ∧ (dataType e = IO_DATA_TYPE_NUMERIC -> ∀ v1 v2 : float,
       ∃ s2,
         io_SetNumericDefault path v1 s = Done tt s2
         ∧ io_SetNumericDefault path v2 s2 = Done tt s2
         ∧ defaultValue (entryAt (tree s2) (Some ref)) = Some (mkSample 0 (PNumeric v1))
         ∧ currentValue (entryAt (tree s2) (Some ref)) = currentValue e
         ∧ (currentValue e = None ->
            resTree_GetCurrentValue (tree s2) (Some ref) = Some (mkSample 0 (PNumeric v1))
            ∧ io_GetNumeric path s2 = Done (mkFetched LE_OK None (Some v1)) s2
            ∧ io_GetTimestamp path s2 = Done (LE_OK, Some 0%float) s2
            ∧ ∀ qpath,
                resTree_FindEntryAtAbsolutePath (tree s2) qpath = Some ref ->
                query_GetNumeric (tree s2) qpath
                = mkFetched LE_OK (Some 0%float) (Some v1)))
  ∧ (dataType e = IO_DATA_TYPE_STRING -> ∀ v1 v2 : string,
       ∃ s2,
         io_SetStringDefault path v1 s = Done tt s2
         ∧ io_SetStringDefault path v2 s2 = Done tt s2
         ∧ defaultValue (entryAt (tree s2) (Some ref)) = Some (mkSample 0 (PString v1))
         ∧ currentValue (entryAt (tree s2) (Some ref)) = currentValue e
         ∧ (currentValue e = None ->
            resTree_GetCurrentValue (tree s2) (Some ref) = Some (mkSample 0 (PString v1))
            ∧ (∀ valueSize,
                 io_GetString path valueSize s2
                 = Done (mkFetched (le_utf8_Copy v1 valueSize).1 None
                                   (Some (le_utf8_Copy v1 valueSize).2)) s2)
            ∧ io_GetTimestamp path s2 = Done (LE_OK, Some 0%float) s2
            ∧ ∀ qpath valueSize,
                resTree_FindEntryAtAbsolutePath (tree s2) qpath = Some ref ->
                query_GetString (tree s2) qpath valueSize
                = mkFetched (le_utf8_Copy v1 valueSize).1 (Some 0%float)
                            (Some (le_utf8_Copy v1 valueSize).2)))
  ∧ (dataType e = IO_DATA_TYPE_JSON -> ∀ v1 v2 : string,
       ∃ s2,
         io_SetJsonDefault path v1 s = Done tt s2
         ∧ io_SetJsonDefault path v2 s2 = Done tt s2
         ∧ defaultValue (entryAt (tree s2) (Some ref)) = Some (mkSample 0 (PJson v1))
         ∧ currentValue (entryAt (tree s2) (Some ref)) = currentValue e
         ∧ (currentValue e = None ->
            resTree_GetCurrentValue (tree s2) (Some ref) = Some (mkSample 0 (PJson v1))
            ∧ (∀ valueSize printDouble jsonEscape,
                 io_GetJson printDouble jsonEscape path valueSize s2
                 = Done (mkFetched (le_utf8_Copy v1 valueSize).1 None
                                   (Some (le_utf8_Copy v1 valueSize).2)) s2)
            ∧ io_GetTimestamp path s2 = Done (LE_OK, Some 0%float) s2
            ∧ ∀ qpath valueSize printDouble jsonEscape,
                resTree_FindEntryAtAbsolutePath (tree s2) qpath = Some ref ->
                query_GetJson printDouble jsonEscape (tree s2) qpath valueSize
                = mkFetched (le_utf8_Copy v1 valueSize).1 (Some 0%float)
                            (Some (le_utf8_Copy v1 valueSize).2))).
Proof.
  intros Hres He Hdef.
  destruct (FindResource_found _ _ _ _ Hres) as (ns & e0 & Hns & Hctx & Hfind & He0 & Hrole).
  assert (e0 = e) as -> by congruence.
  assert (∀ sample, currentValue e = None ->
            resTree_GetCurrentValue
              (tree (setTree (<[ref := setDefaultValue (Some sample) e]> (tree s1)) s1))
              (Some ref) = Some sample) as Hread.
  { intros sample Hcur. unfold resTree_GetCurrentValue. cbn [tree setTree].
    rewrite entryAt_insert. cbn [currentValue defaultValue setDefaultValue].
    by rewrite Hcur. }
  assert (∀ sample, currentValue e = None ->
            io_GetTimestamp path
              (setTree (<[ref := setDefaultValue (Some sample) e]> (tree s1)) s1)
            = Done (LE_OK, Some (timestamp sample))
                   (setTree (<[ref := setDefaultValue (Some sample) e]> (tree s1)) s1))
    as Hstamp.
  { intros sample Hcur.
    destruct (default_set_state s1 ns ref path e sample Hctx Hfind He Hrole) as [Hres2 _].
    unfold io_GetTimestamp. hub_unfold. rewrite Hres2. by rewrite (Hread _ Hcur). }
  assert (∀ sample,
            resTree_IsResource
              (tree (setTree (<[ref := setDefaultValue (Some sample) e]> (tree s1)) s1))
              (Some ref) = true) as Hio.
  { intros sample. apply (io_resource_IsResource _ _ (setDefaultValue (Some sample) e)).
    - cbn [tree setTree]. apply lookup_insert_eq.
    - exact Hrole. }
  split; [|split; [|split]].
  - intros Hkind v1 v2.
    destruct (default_set_state s1 ns ref path e (dataSample_CreateBoolean 0 v1)
                Hctx Hfind He Hrole) as [Hres2 Hentry].
    eexists. split; [|split; [|split; [|split]]].
    + unfold io_SetBooleanDefault. default_first Hres He Hkind Hdef.
    + unfold io_SetBooleanDefault. default_second Hres2 Hentry Hkind.
    + by rewrite Hentry.
    + by rewrite Hentry.
    + intros Hcur. split; [by apply Hread|]. split; [|split; [by apply Hstamp|]].
      * unfold io_GetBoolean, hub_bind. rewrite Hres2.
        rewrite GetCurrentValue_right_kind; [by rewrite (Hread _ Hcur)|].
        unfold resTree_GetDataType. by rewrite Hentry.
      * intros qpath Habs. unfold query_GetBoolean.
        default_query Habs (Hio (dataSample_CreateBoolean 0 v1))
                      (Hread (dataSample_CreateBoolean 0 v1) Hcur) Hentry Hkind.
        by rewrite bool_decide_eq_false_2 by (intros Hne; by apply Hne).
  - intros Hkind v1 v2.
    destruct (default_set_state s1 ns ref path e (dataSample_CreateNumeric 0 v1)
                Hctx Hfind He Hrole) as [Hres2 Hentry].
    eexists. split; [|split; [|split; [|split]]].
    + unfold io_SetNumericDefault. default_first Hres He Hkind Hdef.
    + unfold io_SetNumericDefault. default_second Hres2 Hentry Hkind.
    + by rewrite Hentry.
    + by rewrite Hentry.
    + intros Hcur. split; [by apply Hread|]. split; [|split; [by apply Hstamp|]].
      * unfold io_GetNumeric, hub_bind. rewrite Hres2.
        rewrite GetCurrentValue_right_kind; [by rewrite (Hread _ Hcur)|].
        unfold resTree_GetDataType. by rewrite Hentry.
      * intros qpath Habs. unfold query_GetNumeric.
        default_query Habs (Hio (dataSample_CreateNumeric 0 v1))
                      (Hread (dataSample_CreateNumeric 0 v1) Hcur) Hentry Hkind.
        by rewrite bool_decide_eq_false_2 by (intros Hne; by apply Hne).
  - intros Hkind v1 v2.
    destruct (default_set_state s1 ns ref path e (dataSample_CreateString 0 v1)
                Hctx Hfind He Hrole) as [Hres2 Hentry].
    eexists. split; [|split; [|split; [|split]]].
    + unfold io_SetStringDefault. default_first Hres He Hkind Hdef.
    + unfold io_SetStringDefault. default_second Hres2 Hentry Hkind.
    + by rewrite Hentry.
    + by rewrite Hentry.
    + intros Hcur. split; [by apply Hread|]. split; [|split; [by apply Hstamp|]].
      * intros valueSize. unfold io_GetString, hub_bind. rewrite Hres2.
        rewrite GetCurrentValue_right_kind.
        -- rewrite (Hread _ Hcur).
           cbn [dataSample_GetString dataSample_CreateString payload].
           by destruct (le_utf8_Copy v1 valueSize).
        -- unfold resTree_GetDataType. by rewrite Hentry.
      * intros qpath valueSize Habs. unfold query_GetString.
        default_query Habs (Hio (dataSample_CreateString 0 v1))
                      (Hread (dataSample_CreateString 0 v1) Hcur) Hentry Hkind.
        rewrite bool_decide_eq_false_2 by (intros Hne; by apply Hne).
        cbn [dataSample_GetString dataSample_GetTimestamp dataSample_CreateString payload
             timestamp].
        by destruct (le_utf8_Copy v1 valueSize).
  - intros Hkind v1 v2.
    destruct (default_set_state s1 ns ref path e (dataSample_CreateJson 0 v1)
                Hctx Hfind He Hrole) as [Hres2 Hentry].
    eexists. split; [|split; [|split; [|split]]].
    + unfold io_SetJsonDefault. default_first Hres He Hkind Hdef.
    + unfold io_SetJsonDefault. default_second Hres2 Hentry Hkind.
    + by rewrite Hentry.
    + by rewrite Hentry.
    + intros Hcur. split; [by apply Hread|]. split; [|split; [by apply Hstamp|]].
      * intros valueSize printDouble jsonEscape.
        unfold io_GetJson. hub_unfold. rewrite Hres2, (Hread _ Hcur).
        unfold resTree_GetDataType. rewrite Hentry.
        cbn [dataType setDefaultValue]. rewrite Hkind.
        unfold dataSample_ConvertToJson.
        cbn [jsonProjection dataSample_GetJson dataSample_CreateJson payload].
        by destruct (le_utf8_Copy v1 valueSize).
      * intros qpath valueSize printDouble jsonEscape Habs. unfold query_GetJson.
        default_query Habs (Hio (dataSample_CreateJson 0 v1))
                      (Hread (dataSample_CreateJson 0 v1) Hcur) Hentry Hkind.
        rewrite decide_True by done.
        cbn [dataSample_GetJson dataSample_GetTimestamp dataSample_CreateJson payload
             timestamp].
        by destruct (le_utf8_Copy v1 valueSize).
Qed.

(** The Boolean Output [y], never pushed to: the default [true] survives a
    second setting to [false], and is what a read reports, with timestamp 0.
    The numeric Input [temp], to which 21.5 has been pushed: the default 1
    survives a second setting to 2, and the value pushed stays the current
    value. *)
Lemma io_SetDefault_write_once_witness :
  (∃ s2,
     io_SetBooleanDefault "y" true outputHub = Done tt s2
     ∧ io_SetBooleanDefault "y" false s2 = Done tt s2
     ∧ defaultValue (entryAt (tree s2) (Some ["app"%string; "sensord"%string; "y"%string]))
       = Some (mkSample 0 (PBoolean true))
     ∧ resTree_GetCurrentValue (tree s2) (Some ["app"%string; "sensord"%string; "y"%string])
       = Some (mkSample 0 (PBoolean true))
     ∧ io_GetBoolean "y" s2 = Done (mkFetched LE_OK None (Some true)) s2
     ∧ io_GetTimestamp "y" s2 = Done (LE_OK, Some 0%float) s2)
  ∧ (∃ s2,
       io_SetNumericDefault "temp" 1 pushedHub = Done tt s2
       ∧ io_SetNumericDefault "temp" 2 s2 = Done tt s2
       ∧ defaultValue
           (entryAt (tree s2) (Some ["app"%string; "sensord"%string; "temp"%string]))
         = Some (mkSample 0 (PNumeric 1))
       ∧ currentValue
           (entryAt (tree s2) (Some ["app"%string; "sensord"%string; "temp"%string]))
         = Some (mkSample 1700000000 (PNumeric 21.5))).
Proof.
  split.
  - pose proof (io_SetDefault_write_once outputHub outputHub "y"
                  ["app"%string; "sensord"%string; "y"%string]
                  (newIO ADMIN_ENTRY_TYPE_OUTPUT IO_DATA_TYPE_BOOLEAN EmptyString)) as H.
    destruct H as (Hbool & _).
    + vm_compute; reflexivity.
    + vm_compute; reflexivity.
    + reflexivity.
    + destruct (Hbool eq_refl true false) as (s2 & Hfirst & Hsecond & Hdef & _ & Hreads).
      destruct (Hreads eq_refl) as (Hcur & Hget & Hstamp & _).
      exists s2. by repeat split.
  - pose proof (io_SetDefault_write_once pushedHub pushedHub "temp"
                  ["app"%string; "sensord"%string; "temp"%string]
                  (setCurrentValue (Some (mkSample 1700000000 (PNumeric 21.5)))
                     (newIO ADMIN_ENTRY_TYPE_INPUT IO_DATA_TYPE_NUMERIC "degC"))) as H.
    destruct H as (_ & Hnum & _).
    + vm_compute; reflexivity.
    + vm_compute; reflexivity.
    + reflexivity.
    + destruct (Hnum eq_refl 1%float 2%float) as (s2 & Hfirst & Hsecond & Hdef & Hcur & _).
      exists s2. by repeat split.
Defined.

(** ** The shape of the tree is kept *)

Lemma tree_wf_insert (t : Tree) (k : list string) (e : Entry) :
  tree_wf t -> is_Some (t !! removelast k) ∨ k = [] -> tree_wf (<[k := e]> t).
Proof.
  intros Hwf Hparent k' e' Hk'. cbn beta.
  apply lookup_insert_is_Some'.
  destruct (decide (k = k')) as [<-|Hne].
  - destruct Hparent as [Hparent| ->]; [by right|by left].
  - right. rewrite lookup_insert_ne in Hk' by done. by apply (Hwf _ _ Hk').
Qed.

Lemma tree_wf_update (t : Tree) (k : list string) (e e' : Entry) :
  tree_wf t -> t !! k = Some e -> tree_wf (<[k := e']> t).
Proof. intros Hwf Hk. apply tree_wf_insert; [done|]. left. by apply (Hwf _ _ Hk). Qed.

Lemma materialise_wf (t : Tree) (cur segs : list string) :
  tree_wf t -> is_Some (t !! cur) -> tree_wf (materialise t cur segs).
Proof.
  revert t cur. induction segs as [|seg rest IH]; intros t cur Hwf Hcur;
    cbn [materialise]; [done|].
  destruct (t !! (cur ++ [seg])) eqn:Hnext.
  - apply IH; [done|]. by rewrite Hnext.
  - apply IH.
    + apply tree_wf_insert; [done|]. left. by rewrite removelast_last.
    + by rewrite lookup_insert_eq.
Qed.

Lemma hasChildren_false (t : Tree) (p k : list string) (e : Entry) :
  hasChildren t p = false -> t !! k = Some e -> k ≠ [] -> removelast k ≠ p.
Proof.
  intros Hnone Hk Hne Hparent.
  assert (hasChildren t p = true) as Hsome; [|congruence].
  unfold hasChildren. apply existsb_exists. exists (k, e). split.
  - apply list_elem_of_In. by apply elem_of_map_to_list.
  - unfold isChildOf. cbn. by apply bool_decide_eq_true_2.
Qed.

Lemma tree_wf_delete (t : Tree) (p : list string) :
  tree_wf t -> hasChildren t p = false -> tree_wf (delete p t).
Proof.
  intros Hwf Hnone k e Hk. cbn beta.
  apply lookup_delete_Some in Hk as [Hne Hk].
  apply lookup_delete_is_Some. split; [|by apply (Hwf _ _ Hk)].
  intros Hparent. destruct k as [|seg k].
  - by cbn in Hparent.
  - by apply (hasChildren_false t p (seg :: k) e).
Qed.

Lemma pruneUp_wf (t : Tree) (rp : list string) :
  tree_wf t -> tree_wf (pruneUp t rp).
Proof.
  revert t. induction rp as [|seg up IH]; intros t Hwf; cbn [pruneUp]; [done|].
  destruct (t !! rev (seg :: up)) as [e|]; [|done].
  destruct (_ && _) eqn:Hprune; [|done].
  apply andb_true_iff in Hprune as [_ Hnone%negb_true_iff].
  apply IH. by apply tree_wf_delete.
Qed.

Lemma pruneUp_root (t : Tree) (rp : list string) :
  is_Some (t !! []) -> is_Some (pruneUp t rp !! []).
Proof.
  revert t. induction rp as [|seg up IH]; intros t Hroot; cbn [pruneUp]; [done|].
  destruct (t !! rev (seg :: up)) as [e|]; [|done].
  destruct (_ && _); [|done].
  apply IH. rewrite lookup_delete_ne; [done|].
  cbn [rev]. by destruct (rev up).
Qed.

Lemma deleteIO_ok (t t' : Tree) (ref : list string) :
  is_Some (t !! []) -> tree_wf t -> ref ≠ [] ->
  deleteIO t (Some ref) = Some t' ->
  is_Some (t' !! []) ∧ tree_wf t'.
Proof.
  intros Hroot Hwf Hne. unfold deleteIO.
  destruct (t !! ref) as [e|] eqn:He; [|done].
  case_bool_decide; [|done].
  destruct (hasChildren t ref) eqn:Hchildren; intros [= <-].
  - split; [by apply lookup_insert_is_Some'; right|by apply (tree_wf_update _ _ e)].
  - split.
    + apply pruneUp_root. by rewrite lookup_delete_ne.
    + apply pruneUp_wf. by apply tree_wf_delete.
Qed.

Lemma resTree_GetIO_ok (type : admin_EntryType_t) (t t' : Tree) (base r : resTree_EntryRef_t)
    (path : string) (dt : io_DataType_t) (u : string) :
  is_Some (t !! []) -> tree_wf t ->
  resTree_GetIO type t base path dt u = (r, t') ->
  is_Some (t' !! []) ∧ tree_wf t'.
Proof.
  intros Hroot Hwf. unfold resTree_GetIO.
  destruct base as [b|]; [|by intros [= _ <-]].
  destruct (parsePath path) as [segs|]; [|by intros [= _ <-]].
  destruct (t !! (b ++ segs)) as [e|] eqn:He.
  - assert (is_Some (<[b ++ segs := newIO type dt u]> t !! [])
            ∧ tree_wf (<[b ++ segs := newIO type dt u]> t)) as Hpromoted.
    { split; [by apply lookup_insert_is_Some'; right|by apply (tree_wf_update _ _ e)]. }
    destruct (entryType e); try (by intros [= _ <-]);
      destruct (decide _); by intros [= _ <-].
  - intros [= _ <-].
    pose proof (materialise_leaf t [] (b ++ segs) Hroot) as [e' He'].
    pose proof (materialise_subseteq t [] (b ++ segs)) as Hsub.
    pose proof (materialise_wf t [] (b ++ segs) Hwf Hroot) as Hwf'.
    split; [|by apply (tree_wf_update _ _ e')].
    apply lookup_insert_is_Some'. right. destruct Hroot as [root Hroot].
    by rewrite (lookup_weaken _ _ _ _ Hroot Hsub).
Qed.

Lemma hub_ok_update (s : HubState) (ref : list string) (e e' : Entry) :
  hub_ok s -> tree s !! ref = Some e ->
  hub_ok (setTree (<[ref := e']> (tree s)) s).
Proof.
  intros (Hroot & Hwf & Hctx) He. repeat split; cbn [tree setTree sessionContextPtr].
  - by apply lookup_insert_is_Some'; right.
  - by apply (tree_wf_update _ _ e).
  - done.
Qed.

Lemma hub_ok_kill (s : HubState) : hub_ok s -> hub_ok (killClient s).
Proof. by intros (Hroot & Hwf & Hctx). Qed.

Lemma GetClientNamespace_ok (s s1 : HubState) (r : resTree_EntryRef_t) :
  hub_ok s -> GetClientNamespace s = Done r s1 -> hub_ok s1.
Proof.
  intros Hok. pose proof Hok as (Hroot & Hwf & Hctx0).
  unfold GetClientNamespace. hub_unfold.
  destruct (sessionContextPtr s) as [ns0|] eqn:Hctx.
  { intros [_ <-]%Done_inj. repeat split; try done. by rewrite Hctx. }
  destruct (processId (client s)) as [res pid]. destruct (decide (res ≠ LE_OK)).
  { intros [_ <-]%Done_inj. by apply hub_ok_kill. }
  destruct (appName (client s)) as [res' name]. destruct (decide (res' ≠ LE_OK)).
  { intros [_ <-]%Done_inj. by apply hub_ok_kill. }
  unfold resTree_GetEntry, resTree_GetRoot.
  change (parsePath "app") with (Some ["app"%string]).
  cbn [setTree tree setSessionContextPtr].
  pose proof (materialise_wf (tree s) [] ([] ++ ["app"%string]) Hwf Hroot) as Hwf1.
  pose proof (materialise_subseteq (tree s) [] ([] ++ ["app"%string])) as Hsub1.
  assert (is_Some (materialise (tree s) [] ([] ++ ["app"%string]) !! [])) as Hroot1.
  { destruct Hroot as [root Hroot]. by rewrite (lookup_weaken _ _ _ _ Hroot Hsub1). }
  destruct (parsePath name) as [segs|] eqn:Hname.
  - cbn [setTree tree setSessionContextPtr]. intros [_ <-]%Done_inj.
    repeat split; cbn [tree sessionContextPtr setTree setSessionContextPtr].
    + pose proof (materialise_subseteq (materialise (tree s) [] ([] ++ ["app"%string])) []
                    (([] ++ ["app"%string]) ++ segs)) as Hsub2.
      destruct Hroot1 as [root Hroot1]. by rewrite (lookup_weaken _ _ _ _ Hroot1 Hsub2).
    + by apply materialise_wf.
    + done.
  - cbn [setTree tree setSessionContextPtr]. intros [_ <-]%Done_inj.
    repeat split; cbn [tree sessionContextPtr setTree setSessionContextPtr]; done.
Qed.

Lemma FindResource_ok (path : string) (s s1 : HubState) (r : resTree_EntryRef_t) :
  hub_ok s -> FindResource path s = Done r s1 ->
  hub_ok s1
  ∧ ∀ ref, r = Some ref -> ref ≠ [] ∧ ∃ e, tree s1 !! ref = Some e.
Proof.
  intros Hok Hres. rewrite FindResource_eq in Hres.
  destruct (GetClientNamespace s) as [ns s0|] eqn:Hns; [|done].
  apply Done_inj in Hres as [Hr <-].
  pose proof (GetClientNamespace_ok _ _ _ Hok Hns) as Hok0. split; [done|].
  intros ref ->. apply onlyIO_Some in Hr as [Hfind (e & He & _)].
  split; [|by exists e].
  destruct ns as [ns|]; [|done].
  destruct (GetClientNamespace_Some _ _ _ Hns) as (Hctx & _).
  destruct (resTree_FindEntry_lookup _ _ _ _ Hfind) as (b & segs & e' & [= <-] & _ & -> & _).
  destruct Hok0 as (_ & _ & Hne). rewrite Hctx in Hne.
  intros Hnil. apply app_eq_nil in Hnil as [-> _]. done.
Qed.

Lemma resTree_Push_ok (ref : resTree_EntryRef_t) (kind : io_DataType_t)
    (sample : dataSample) (s s' : HubState) :
  hub_ok s -> resTree_Push ref kind sample s = Done tt s' -> hub_ok s'.
Proof.
  intros Hok. unfold resTree_Push. hub_unfold.
  destruct ref as [p|]; [|done]. unfold entryAt.
  destruct (tree s !! p) as [e|] eqn:He; [|done]. cbn [default from_option id].
  destruct (entryType e); try done.
  - intros [_ <-]%Done_inj. by apply (hub_ok_update _ _ e).
  - destruct (decide _); intros [_ <-]%Done_inj;
      [by apply (hub_ok_update _ _ e)|by apply hub_ok_kill].
  - destruct (decide _); intros [_ <-]%Done_inj;
      [by apply (hub_ok_update _ _ e)|by apply hub_ok_kill].
  - intros [_ <-]%Done_inj. by apply (hub_ok_update _ _ e).
Qed.

Lemma resTree_SetDefault_ok (s : HubState) (ref : resTree_EntryRef_t) (dt : io_DataType_t)
    (sample : dataSample) :
  hub_ok s -> hub_ok (setTree (resTree_SetDefault (tree s) ref dt sample) s).
Proof.
  intros Hok. unfold resTree_SetDefault.
  destruct ref as [p|]; [|by destruct s].
  destruct (tree s !! p) as [e|] eqn:He; [|by destruct s].
  destruct (defaultValue e); [by destruct s|]. by apply (hub_ok_update _ _ e).
Qed.

Lemma io_Create_ok (type : admin_EntryType_t) (s0 s' : HubState) (nsRef : resTree_EntryRef_t)
    (path : string) (dt : io_DataType_t) (u : string) (r : le_result_t) (msg : string) :
  hub_ok s0 ->
  hub_bind (onTree (fun t => resTree_GetIO type t nsRef path dt u))
           (fun resRef : resTree_EntryRef_t =>
              match resRef with
              | None =>
                  hub_bind (resTree_GetEntryName nsRef)
                           (fun _ => hub_bind (LE_KILL_CLIENT msg) (fun _ => hub_ret LE_FAULT))
              | Some _ => hub_ret LE_OK
              end) s0
  = Done r s' ->
  hub_ok s'.
Proof.
  intros (Hroot & Hwf & Hctx). hub_unfold.
  destruct (resTree_GetIO type (tree s0) nsRef path dt u) as [ref t'] eqn:Hget.
  destruct (resTree_GetIO_ok _ _ _ _ _ _ _ _ Hroot Hwf Hget) as [Hroot' Hwf'].
  destruct ref; [by intros [_ <-]%Done_inj|].
  destruct nsRef; [by intros [_ <-]%Done_inj|done].
Qed.

Lemma io_CreateInput_ok (path : string) (dt : io_DataType_t) (u : string)
    (s s' : HubState) (r : le_result_t) :
  hub_ok s -> io_CreateInput path dt u s = Done r s' -> hub_ok s'.
Proof.
  intros Hok. unfold io_CreateInput. hub_unfold.
  destruct (GetClientNamespace s) as [nsRef s0|] eqn:Hns; [|done].
  pose proof (GetClientNamespace_ok _ _ _ Hok Hns) as Hok0.
  destruct nsRef as [ns|].
  - destruct (resTree_FindEntry (tree s0) (Some ns) path) as [ref|].
    + destruct (resTree_GetEntryType (tree s0) (Some ref)); try done.
      * intros Hrun. exact (io_Create_ok ADMIN_ENTRY_TYPE_INPUT s0 s' (Some ns) path dt u r EmptyString Hok0 Hrun).
      * intros Hrun. exact (io_Create_ok ADMIN_ENTRY_TYPE_INPUT s0 s' (Some ns) path dt u r EmptyString Hok0 Hrun).
      * destruct (_ || _); by intros [_ <-]%Done_inj.
      * by intros [_ <-]%Done_inj.
      * by intros [_ <-]%Done_inj.
    + intros Hrun. exact (io_Create_ok ADMIN_ENTRY_TYPE_INPUT s0 s' (Some ns) path dt u r EmptyString Hok0 Hrun).
  - intros Hrun. exact (io_Create_ok ADMIN_ENTRY_TYPE_INPUT s0 s' None path dt u r EmptyString Hok0 Hrun).
Qed.

Lemma io_CreateOutput_ok (path : string) (dt : io_DataType_t) (u : string)
    (s s' : HubState) (r : le_result_t) :
  hub_ok s -> io_CreateOutput path dt u s = Done r s' -> hub_ok s'.
Proof.
  intros Hok. unfold io_CreateOutput. hub_unfold.
  destruct (GetClientNamespace s) as [nsRef s0|] eqn:Hns; [|done].
  pose proof (GetClientNamespace_ok _ _ _ Hok Hns) as Hok0.
  destruct nsRef as [ns|].
  - destruct (resTree_FindEntry (tree s0) (Some ns) path) as [ref|].
    + destruct (resTree_GetEntryType (tree s0) (Some ref)); try done.
      * intros Hrun. exact (io_Create_ok ADMIN_ENTRY_TYPE_OUTPUT s0 s' (Some ns) path dt u r EmptyString Hok0 Hrun).
      * intros Hrun. exact (io_Create_ok ADMIN_ENTRY_TYPE_OUTPUT s0 s' (Some ns) path dt u r EmptyString Hok0 Hrun).
      * by intros [_ <-]%Done_inj.
      * destruct (_ || _); by intros [_ <-]%Done_inj.
      * by intros [_ <-]%Done_inj.
    + intros Hrun. exact (io_Create_ok ADMIN_ENTRY_TYPE_OUTPUT s0 s' (Some ns) path dt u r EmptyString Hok0 Hrun).
  - intros Hrun. exact (io_Create_ok ADMIN_ENTRY_TYPE_OUTPUT s0 s' None path dt u r EmptyString Hok0 Hrun).
Qed.

Lemma io_DeleteResource_ok (path : string) (s s' : HubState) :
  hub_ok s -> io_DeleteResource path s = Done tt s' -> hub_ok s'.
Proof.
  intros Hok. unfold io_DeleteResource, resTree_DeleteIO. hub_unfold.
  destruct (FindResource path s) as [r s1|] eqn:Hres; [|done].
  destruct (FindResource_ok _ _ _ _ Hok Hres) as [Hok1 Hfound].
  destruct r as [ref|]; [|by intros [_ <-]%Done_inj].
  destruct (Hfound ref eq_refl) as [Hne _].
  destruct (deleteIO (tree s1) (Some ref)) as [t'|] eqn:Hdel; [|done].
  intros [_ <-]%Done_inj.
  destruct Hok1 as (Hroot & Hwf & Hctx).
  destruct (deleteIO_ok _ _ _ Hroot Hwf Hne Hdel) as [Hroot' Hwf'].
  by repeat split.
Qed.

Ltac push_ok Hok :=
  hub_unfold;
  match goal with
  | |- context [FindResource ?path ?s] =>
      let Hres := fresh "Hres" in
      destruct (FindResource path s) as [[?|] ?|] eqn:Hres; [| |done];
      destruct (FindResource_ok _ _ _ _ Hok Hres) as [? _];
      [ intros Hrun; by apply (resTree_Push_ok _ _ _ _ _ ltac:(eassumption) Hrun)
      | intros [_ <-]%Done_inj; by apply hub_ok_kill ]
  end.

Ltac default_ok Hok :=
  hub_unfold;
  match goal with
  | |- context [FindResource ?path ?s] =>
      let Hres := fresh "Hres" in
      destruct (FindResource path s) as [[?|] ?|] eqn:Hres; [| |done];
      destruct (FindResource_ok _ _ _ _ Hok Hres) as [? _];
      [ case_bool_decide;
        [ intros [_ <-]%Done_inj; by apply hub_ok_kill
        | destruct (negb _); intros [_ <-]%Done_inj;
          [by apply resTree_SetDefault_ok|done] ]
      | intros [_ <-]%Done_inj; by apply hub_ok_kill ]
  end.

Ltac get_ok Hok :=
  unfold GetCurrentValue; hub_unfold;
  match goal with
  | |- context [FindResource ?path ?s] =>
      let Hres := fresh "Hres" in
      destruct (FindResource path s) as [[?|] ?|] eqn:Hres; [| |done];
      destruct (FindResource_ok _ _ _ _ Hok Hres) as [? _];
      repeat first
        [ case_bool_decide
        | destruct (resTree_GetCurrentValue _ _)
        | destruct (le_utf8_Copy _ _) ];
      intros [_ <-]%Done_inj;
      first [done|by apply hub_ok_kill]
  end.

(** Every call of a client keeps the shape of the hub. *)
Lemma perform_ok (call : ApiCall) (s s' : HubState) :
  hub_ok s -> perform call s = Done tt s' -> hub_ok s'.
Proof.
  intros Hok. destruct call; cbn [perform].
  - unfold hub_bind, hub_ret.
    destruct (io_CreateInput path dt u s) as [r s1|] eqn:Hrun; [|done].
    intros [_ <-]%Done_inj. by apply (io_CreateInput_ok _ _ _ _ _ _ Hok Hrun).
  - unfold hub_bind, hub_ret.
    destruct (io_CreateOutput path dt u s) as [r s1|] eqn:Hrun; [|done].
    intros [_ <-]%Done_inj. by apply (io_CreateOutput_ok _ _ _ _ _ _ Hok Hrun).
  - by apply io_DeleteResource_ok.
  - unfold io_PushTrigger. push_ok Hok.
  - unfold io_PushBoolean. push_ok Hok.
  - unfold io_PushNumeric. push_ok Hok.
  - unfold io_PushString. push_ok Hok.
  - unfold io_PushJson. push_ok Hok.
  - unfold io_SetBooleanDefault. default_ok Hok.
  - unfold io_SetNumericDefault. default_ok Hok.
  - unfold io_SetStringDefault. default_ok Hok.
  - unfold io_SetJsonDefault. default_ok Hok.
  - unfold io_GetTimestamp. get_ok Hok.
  - unfold io_GetBoolean. get_ok Hok.
  - unfold io_GetNumeric. get_ok Hok.
  - unfold io_GetString. get_ok Hok.
  - unfold query_ReadBufferJson, resTree_ReadBufferJson. hub_unfold.
    destruct (FindObservation (tree s) obsPath); [|by intros [_ <-]%Done_inj].
    destruct (PrimFloat.ltb startAfter 0);
      [intros [_ <-]%Done_inj; by apply hub_ok_kill|].
    destruct (samplesAfter _ _ _); intros [_ <-]%Done_inj;
      [done|by apply hub_ok_kill].
Qed.

(** The hub is well formed in every state it reaches: the tree keeps its
    root, every entry has its parent, and the cached namespace is never the
    root. *)
Lemma reachable_ok (s : HubState) : reachable s -> hub_ok s.
Proof.
  induction 1 as [who now|s s' call _ IH Hrun|s who now _ IH].
  - repeat split; cbn [tree sessionContextPtr]; [by eexists| |done].
    intros k e Hk. cbn beta. unfold emptyTree in *.
    apply lookup_singleton_Some in Hk as [<- _]. cbn. by eexists.
  - by apply (perform_ok call s).
  - destruct IH as (Hroot & Hwf & _). by repeat split.
Qed.

(** ** The scenarios of the specification *)

(** Create-and-push round trip, read back through the query API. *)
Example scenario_round_trip :
  valueOf (io_CreateInput "temp" IO_DATA_TYPE_NUMERIC "degC") startHub = Some LE_OK
  ∧ query_GetNumeric (tree pushedHub) "/app/sensord/temp"
    = mkFetched LE_OK (Some 1700000000%float) (Some 21.5%float).
Proof. split; vm_compute; reflexivity. Qed.

(** Duplicate conflict: the Input stays what it was. *)
Example scenario_duplicate :
  valueOf (io_CreateOutput "temp" IO_DATA_TYPE_NUMERIC "degC") inputHub = Some LE_DUPLICATE
  ∧ query_GetDataType (tree (stateAfter (io_CreateOutput "temp" IO_DATA_TYPE_NUMERIC "degC")
                                        inputHub)) "/app/sensord/temp"
    = (LE_OK, Some IO_DATA_TYPE_NUMERIC)
  ∧ query_GetUnits (tree inputHub) "/app/sensord/temp" 16 = (LE_OK, Some "degC"%string).
Proof. repeat split; vm_compute; reflexivity. Qed.

(** Default precedence: the default is read until a value is pushed. *)
Example scenario_default_precedence :
  query_GetBoolean (tree defaultedHub) "/app/sensord/y"
  = mkFetched LE_OK (Some 0%float) (Some true)
  ∧ query_GetBoolean (tree (stateAfter (io_PushBoolean "y" 5 false) defaultedHub))
                     "/app/sensord/y"
    = mkFetched LE_OK (Some 5%float) (Some false)
  ∧ query_GetTimestamp (tree (stateAfter (io_PushBoolean "y" 5 false) defaultedHub))
                       "/app/sensord/y"
    = (LE_OK, Some 5%float).
Proof. repeat split; vm_compute; reflexivity. Qed.

(** Buffer window: with room for three samples, the fourth push evicts the
    first, and a read of the whole buffer reports the last three in push
    order. *)
Example scenario_buffer_window :
  List.map timestamp (buffer (entryAt (tree windowHub) (Some ["obs"%string; "o"%string])))
  = [2%float; 3%float; 4%float]
  ∧ valueOf (query_ReadBufferJson "/obs/o" nan 7) windowHub = Some LE_OK
  ∧ outputFiles (stateAfter (query_ReadBufferJson "/obs/o" nan 7) windowHub)
    = [(7%Z, [dataSample_CreateTrigger 2; dataSample_CreateTrigger 3;
              dataSample_CreateTrigger 4])].
Proof. repeat split; vm_compute; reflexivity. Qed.

(** A zero timestamp is replaced by the wall clock when the sample is
    pushed. *)
Example scenario_push_now :
  query_GetNumeric (tree (stateAfter (io_PushNumeric "temp" 0 21.5) inputHub))
                   "/app/sensord/temp"
  = mkFetched LE_OK (Some 1700000100%float) (Some 21.5%float).
Proof. vm_compute; reflexivity. Qed.

(** * Further properties of ioService.c and queryService.c *)

(** ** The client's namespace *)

Lemma GetClientNamespace_fails (s : HubState) :
  sessionContextPtr s = None ->
  (processId (client s)).1 ≠ LE_OK ∨ (appName (client s)).1 ≠ LE_OK ->
  GetClientNamespace s = Done None (killClient s).
Proof.
  intros Hctx Hfail. unfold GetClientNamespace. hub_unfold. rewrite Hctx.
  destruct (processId (client s)) as [r pid]. destruct (decide (r ≠ LE_OK)); [done|].
  destruct (appName (client s)) as [r' name]. destruct (decide (r' ≠ LE_OK)); [done|].
  by destruct Hfail.
Qed.

(** X1: when no namespace is cached for the session and the IPC layer
    cannot give the client's process id or its app name,
    [GetClientNamespace] terminates the client session and returns [NULL];
    the tree is not touched and nothing is cached, so that the next call
    asks again. *)
Theorem GetClientNamespace_unidentified (s : HubState) :
  sessionContextPtr s = None ->
  (processId (client s)).1 ≠ LE_OK ∨ (appName (client s)).1 ≠ LE_OK ->
  ∃ s1, GetClientNamespace s = Done None s1
        ∧ clientKilled s1 = true
        ∧ tree s1 = tree s
        ∧ sessionContextPtr s1 = None
        ∧ GetClientNamespace s1 = Done None s1.
Proof.
  intros Hctx Hfail. exists (killClient s).
  split; [by apply GetClientNamespace_fails|].
  split; [done|]. split; [done|]. split; [done|].
  by apply (GetClientNamespace_fails (killClient s)).
Qed.

(** A client without a process id. *)
Lemma GetClientNamespace_unidentified_witness :
  ∃ s1, GetClientNamespace strangerHub = Done None s1
        ∧ clientKilled s1 = true
        ∧ tree s1 = tree strangerHub
        ∧ sessionContextPtr s1 = None
        ∧ GetClientNamespace s1 = Done None s1.
Proof.
  apply (GetClientNamespace_unidentified strangerHub).
  - reflexivity.
  - left. vm_compute. discriminate.
Defined.

(** X2: once [GetClientNamespace] has found the namespace, it is cached
    in the session: later calls return the same entry and change nothing,
    and the IPC layer is not asked again, whatever it would answer. *)
Theorem GetClientNamespace_cached_for_session (s s1 : HubState) (ns : list string)
    (who : ClientIdentity) :
  GetClientNamespace s = Done (Some ns) s1 ->
  GetClientNamespace s1 = Done (Some ns) s1
  ∧ GetClientNamespace (setClient who s1) = Done (Some ns) (setClient who s1).
Proof.
  intros Hns. destruct (GetClientNamespace_Some _ _ _ Hns) as (Hctx & _).
  split; by apply GetClientNamespace_cached.
Qed.

(** The namespace of [sensord], found on a hub that has just started, is
    still answered when the IPC layer has stopped knowing the client. *)
Lemma GetClientNamespace_cached_for_session_witness :
  GetClientNamespace inputHub = Done (Some ["app"%string; "sensord"%string]) inputHub
  ∧ GetClientNamespace (setClient (client strangerHub) inputHub)
    = Done (Some ["app"%string; "sensord"%string])
           (setClient (client strangerHub) inputHub).
Proof.
  apply (GetClientNamespace_cached_for_session inputHub inputHub
           ["app"%string; "sensord"%string] (client strangerHub)).
  vm_compute; reflexivity.
Defined.

Lemma FindResource_unidentified (path : string) (s : HubState) :
  sessionContextPtr s = None ->
  (processId (client s)).1 ≠ LE_OK ∨ (appName (client s)).1 ≠ LE_OK ->
  FindResource path s = Done None (killClient s).
Proof.
  intros Hctx Hfail. by rewrite FindResource_eq, (GetClientNamespace_fails _ Hctx Hfail).
Qed.

(** X3: a client that cannot be identified gets nothing done: whatever
    the path, its pushes, default settings and delete leave the tree as it
    is, its gets return [LE_NOT_FOUND] and write nothing, and in every case
    the session is terminated. *)
Theorem unidentified_client_calls (s : HubState) (path : string) :
  sessionContextPtr s = None ->
  (processId (client s)).1 ≠ LE_OK ∨ (appName (client s)).1 ≠ LE_OK ->
  clientKilled (killClient s) = true
  ∧ tree (killClient s) = tree s
  ∧ outputFiles (killClient s) = outputFiles s
  ∧ (∀ ts, io_PushTrigger path ts s = Done tt (killClient s))
  ∧ (∀ ts v, io_PushBoolean path ts v s = Done tt (killClient s))
  ∧ (∀ ts v, io_PushNumeric path ts v s = Done tt (killClient s))
  ∧ (∀ ts v, io_PushString path ts v s = Done tt (killClient s))
  ∧ (∀ ts v, io_PushJson path ts v s = Done tt (killClient s))
  ∧ (∀ v, io_SetBooleanDefault path v s = Done tt (killClient s))
  ∧ (∀ v, io_SetNumericDefault path v s = Done tt (killClient s))
  ∧ (∀ v, io_SetStringDefault path v s = Done tt (killClient s))
  ∧ (∀ v, io_SetJsonDefault path v s = Done tt (killClient s))
  ∧ io_GetTimestamp path s = Done (LE_NOT_FOUND, None) (killClient s)
  ∧ io_GetBoolean path s = Done (mkFetched LE_NOT_FOUND None None) (killClient s)
  ∧ io_GetNumeric path s = Done (mkFetched LE_NOT_FOUND None None) (killClient s)
  ∧ (∀ size, io_GetString path size s
             = Done (mkFetched LE_NOT_FOUND None None) (killClient s))
  ∧ (∀ printDouble jsonEscape size,
       io_GetJson printDouble jsonEscape path size s
       = Done (mkFetched LE_NOT_FOUND None None) (killClient s))
  ∧ io_DeleteResource path s = Done tt (killClient s).
Proof.
  intros Hctx Hfail.
  pose proof (FindResource_unidentified path s Hctx Hfail) as Hres.
  unfold io_PushTrigger, io_PushBoolean, io_PushNumeric, io_PushString, io_PushJson,
    io_SetBooleanDefault, io_SetNumericDefault, io_SetStringDefault, io_SetJsonDefault,
    io_GetTimestamp, io_GetBoolean, io_GetNumeric, io_GetString, io_GetJson,
    io_DeleteResource.
  hub_unfold. rewrite Hres. repeat split.
Qed.

(** The stranger pushes, sets a default and reads. *)
Lemma unidentified_client_calls_witness :
  io_PushNumeric "temp" 1700000000 21.5 strangerHub = Done tt (killClient strangerHub)
  ∧ io_SetBooleanDefault "y" true strangerHub = Done tt (killClient strangerHub)
  ∧ io_GetNumeric "temp" strangerHub
    = Done (mkFetched LE_NOT_FOUND None None) (killClient strangerHub).
Proof.
  pose proof (unidentified_client_calls strangerHub "temp") as Htemp.
  pose proof (unidentified_client_calls strangerHub "y") as Hy.
  destruct Htemp as (_ & _ & _ & _ & _ & Hpush & _ & _ & _ & _ & _ & _ & _ & _ & Hget & _);
    [reflexivity|left; vm_compute; discriminate|].
  destruct Hy as (_ & _ & _ & _ & _ & _ & _ & _ & Hset & _);
    [reflexivity|left; vm_compute; discriminate|].
  by rewrite Hpush, Hset, Hget.
Defined.

(** ** No call is fatal *)

Lemma FindEntry_typed (t : Tree) (base : resTree_EntryRef_t) (path : string)
    (ref : list string) :
  typed_tree t -> resTree_FindEntry t base path = Some ref ->
  resTree_GetEntryType t (Some ref) ≠ ADMIN_ENTRY_TYPE_NONE.
Proof.
  intros Htyped Hfind.
  destruct (resTree_FindEntry_lookup _ _ _ _ Hfind) as (b & segs & e & _ & _ & _ & He).
  unfold resTree_GetEntryType. rewrite (entryAt_lookup _ _ _ He). by apply (Htyped _ _ He).
Qed.

Lemma materialise_typed (t : Tree) (cur segs : list string) :
  typed_tree t -> typed_tree (materialise t cur segs).
Proof.
  intros Htyped p e He. cbn beta.
  apply materialise_lookup in He as [He|[_ ->]]; [by apply (Htyped _ _ He)|done].
Qed.

Lemma GetClientNamespace_typed (s s1 : HubState) (r : resTree_EntryRef_t) :
  typed_tree (tree s) -> GetClientNamespace s = Done r s1 -> typed_tree (tree s1).
Proof.
  intros Htyped. unfold GetClientNamespace. hub_unfold.
  destruct (sessionContextPtr s) as [ns0|]; [by intros [_ <-]%Done_inj|].
  destruct (processId (client s)) as [res pid]. destruct (decide (res ≠ LE_OK)).
  { by intros [_ <-]%Done_inj. }
  destruct (appName (client s)) as [res' name]. destruct (decide (res' ≠ LE_OK)).
  { by intros [_ <-]%Done_inj. }
  unfold resTree_GetEntry, resTree_GetRoot.
  change (parsePath "app") with (Some ["app"%string]).
  cbn [setTree tree setSessionContextPtr].
  destruct (parsePath name) as [segs|]; intros [_ <-]%Done_inj;
    cbn [setTree tree setSessionContextPtr]; by repeat apply materialise_typed.
Qed.

Lemma io_Create_returns (type : admin_EntryType_t) (s0 : HubState) (ns : list string)
    (path : string) (dt : io_DataType_t) (u : string) (msg : string) :
  ∃ r s',
    hub_bind (onTree (fun t => resTree_GetIO type t (Some ns) path dt u))
             (fun resRef : resTree_EntryRef_t =>
                match resRef with
                | None => hub_bind (LE_KILL_CLIENT msg) (fun _ => hub_ret LE_FAULT)
                | Some _ => hub_ret LE_OK
                end) s0
    = Done r s'.
Proof.
  hub_unfold.
  destruct (resTree_GetIO type (tree s0) (Some ns) path dt u) as [[ref|] t']; by eauto.
Qed.

Lemma io_CreateInput_returns (path : string) (dt : io_DataType_t) (u : string)
    (s s0 : HubState) (ns : list string) :
  typed_tree (tree s) -> GetClientNamespace s = Done (Some ns) s0 ->
  ∃ r s', io_CreateInput path dt u s = Done r s'.
Proof.
  intros Htyped Hns. unfold io_CreateInput. hub_unfold. rewrite Hns.
  pose proof (GetClientNamespace_typed _ _ _ Htyped Hns) as Htyped0.
  destruct (resTree_FindEntry (tree s0) (Some ns) path) as [ref|] eqn:Hfind;
    [|exact (io_Create_returns ADMIN_ENTRY_TYPE_INPUT s0 ns path dt u EmptyString)].
  pose proof (FindEntry_typed _ _ _ _ Htyped0 Hfind) as Hnone.
  destruct (resTree_GetEntryType (tree s0) (Some ref)); try done;
    try (by eauto);
    try exact (io_Create_returns ADMIN_ENTRY_TYPE_INPUT s0 ns path dt u EmptyString).
  destruct (_ || _); by eauto.
Qed.

Lemma io_CreateOutput_returns (path : string) (dt : io_DataType_t) (u : string)
    (s s0 : HubState) (ns : list string) :
  typed_tree (tree s) -> GetClientNamespace s = Done (Some ns) s0 ->
  ∃ r s', io_CreateOutput path dt u s = Done r s'.
Proof.
  intros Htyped Hns. unfold io_CreateOutput. hub_unfold. rewrite Hns.
  pose proof (GetClientNamespace_typed _ _ _ Htyped Hns) as Htyped0.
  destruct (resTree_FindEntry (tree s0) (Some ns) path) as [ref|] eqn:Hfind;
    [|exact (io_Create_returns ADMIN_ENTRY_TYPE_OUTPUT s0 ns path dt u EmptyString)].
  pose proof (FindEntry_typed _ _ _ _ Htyped0 Hfind) as Hnone.
  destruct (resTree_GetEntryType (tree s0) (Some ref)); try done;
    try (by eauto);
    try exact (io_Create_returns ADMIN_ENTRY_TYPE_OUTPUT s0 ns path dt u EmptyString).
  destruct (_ || _); by eauto.
Qed.

Lemma resTree_Push_returns (ref : list string) (e : Entry) (kind : io_DataType_t)
    (sample : dataSample) (s : HubState) :
  tree s !! ref = Some e ->
  entryType e = ADMIN_ENTRY_TYPE_INPUT ∨ entryType e = ADMIN_ENTRY_TYPE_OUTPUT ->
  ∃ s', resTree_Push (Some ref) kind sample s = Done tt s'.
Proof.
  intros He Hrole. unfold resTree_Push. hub_unfold.
  rewrite (entryAt_lookup _ _ _ He).
  destruct Hrole as [-> | ->]; destruct (decide _); by eauto.
Qed.

Ltac found_returns :=
  hub_unfold;
  match goal with
  | |- context [FindResource ?path ?s] =>
      let Hres := fresh "Hres" in
      destruct (FindResource_returns path s) as ([?|] & ? & Hres); rewrite Hres
  end.

(** Every call of a client that has its namespace returns, as long as
    every entry has a type. *)
Lemma perform_returns (call : ApiCall) (s s1 : HubState) (ns : list string) :
  typed_tree (tree s) -> GetClientNamespace s = Done (Some ns) s1 ->
  ∃ s', perform call s = Done tt s'.
Proof.
  intros Htyped Hns. destruct call; cbn [perform].
  - unfold hub_bind, hub_ret.
    destruct (io_CreateInput_returns path dt u s s1 ns Htyped Hns) as (r & s' & ->).
    by eauto.
  - unfold hub_bind, hub_ret.
    destruct (io_CreateOutput_returns path dt u s s1 ns Htyped Hns) as (r & s' & ->).
    by eauto.
  - unfold io_DeleteResource, resTree_DeleteIO. found_returns; [|by eauto].
    destruct (FindResource_found _ _ _ _ Hres) as (ns' & e & _ & _ & _ & He & Hrole).
    unfold deleteIO. rewrite He. rewrite bool_decide_eq_true_2 by done.
    destruct (hasChildren _ _); by eauto.
  - unfold io_PushTrigger. found_returns; [|by eauto].
    destruct (FindResource_found _ _ _ _ Hres) as (ns' & e & _ & _ & _ & He & Hrole).
    by apply (resTree_Push_returns _ e).
  - unfold io_PushBoolean. found_returns; [|by eauto].
    destruct (FindResource_found _ _ _ _ Hres) as (ns' & e & _ & _ & _ & He & Hrole).
    by apply (resTree_Push_returns _ e).
  - unfold io_PushNumeric. found_returns; [|by eauto].
    destruct (FindResource_found _ _ _ _ Hres) as (ns' & e & _ & _ & _ & He & Hrole).
    by apply (resTree_Push_returns _ e).
  - unfold io_PushString. found_returns; [|by eauto].
    destruct (FindResource_found _ _ _ _ Hres) as (ns' & e & _ & _ & _ & He & Hrole).
    by apply (resTree_Push_returns _ e).
  - unfold io_PushJson. found_returns; [|by eauto].
    destruct (FindResource_found _ _ _ _ Hres) as (ns' & e & _ & _ & _ & He & Hrole).
    by apply (resTree_Push_returns _ e).
  - unfold io_SetBooleanDefault. found_returns; [|by eauto].
    case_bool_decide; [by eauto|]. destruct (negb _); by eauto.
  - unfold io_SetNumericDefault. found_returns; [|by eauto].
    case_bool_decide; [by eauto|]. destruct (negb _); by eauto.
  - unfold io_SetStringDefault. found_returns; [|by eauto].
    case_bool_decide; [by eauto|]. destruct (negb _); by eauto.
  - unfold io_SetJsonDefault. found_returns; [|by eauto].
    case_bool_decide; [by eauto|]. destruct (negb _); by eauto.
  - unfold io_GetTimestamp. found_returns; [|by eauto].
    destruct (resTree_GetCurrentValue _ _); by eauto.
  - unfold io_GetBoolean, GetCurrentValue. found_returns; [|by eauto].
    case_bool_decide; [by eauto|]. destruct (resTree_GetCurrentValue _ _); by eauto.
  - unfold io_GetNumeric, GetCurrentValue. found_returns; [|by eauto].
    case_bool_decide; [by eauto|]. destruct (resTree_GetCurrentValue _ _); by eauto.
  - unfold io_GetString, GetCurrentValue. found_returns; [|by eauto].
    case_bool_decide; [by eauto|].
    destruct (resTree_GetCurrentValue _ _); [|by eauto].
    destruct (le_utf8_Copy _ _). by eauto.
  - unfold query_ReadBufferJson, resTree_ReadBufferJson. hub_unfold.
    destruct (FindObservation (tree s) obsPath); [|by eauto].
    destruct (PrimFloat.ltb startAfter 0); [by eauto|].
    destruct (samplesAfter _ _ _); by eauto.
Qed.

(** ** Every entry keeps a type *)

Lemma typed_insert (t : Tree) (p : list string) (e : Entry) :
  typed_tree t -> entryType e ≠ ADMIN_ENTRY_TYPE_NONE -> typed_tree (<[p := e]> t).
Proof. intros Htyped He. by apply map_Forall_insert_2. Qed.

Lemma typed_delete (t : Tree) (p : list string) :
  typed_tree t -> typed_tree (delete p t).
Proof. intros Htyped. by apply map_Forall_delete. Qed.

Lemma pruneUp_typed (t : Tree) (rp : list string) :
  typed_tree t -> typed_tree (pruneUp t rp).
Proof.
  revert t. induction rp as [|seg up IH]; intros t Htyped; [done|].
  cbn [pruneUp]. destruct (t !! rev (seg :: up)) as [e|]; [|done].
  destruct (_ && _); [|done]. apply IH. by apply typed_delete.
Qed.

Lemma deleteIO_typed (t t' : Tree) (ref : resTree_EntryRef_t) :
  typed_tree t -> deleteIO t ref = Some t' -> typed_tree t'.
Proof.
  intros Htyped. unfold deleteIO.
  destruct ref as [p|]; [|done]. destruct (t !! p) as [e|]; [|done].
  destruct (bool_decide _); [|done].
  destruct (hasChildren t p); intros [= <-].
  - by apply typed_insert.
  - apply pruneUp_typed. by apply typed_delete.
Qed.

Lemma resTree_GetIO_typed (type : admin_EntryType_t) (t t' : Tree)
    (base r : resTree_EntryRef_t) (path : string) (dt : io_DataType_t) (u : string) :
  type = ADMIN_ENTRY_TYPE_INPUT ∨ type = ADMIN_ENTRY_TYPE_OUTPUT ->
  typed_tree t -> resTree_GetIO type t base path dt u = (r, t') -> typed_tree t'.
Proof.
  intros Htype Htyped. unfold resTree_GetIO.
  assert (entryType (newIO type dt u) ≠ ADMIN_ENTRY_TYPE_NONE) as Hnew.
  { by destruct Htype as [-> | ->]. }
  destruct base as [b|]; [|by intros [= _ <-]].
  destruct (parsePath path) as [segs|]; [|by intros [= _ <-]].
  destruct (t !! (b ++ segs)) as [e|].
  - destruct (entryType e); try (intros [= _ <-]; by apply typed_insert);
      destruct (decide _); by intros [= _ <-].
  - intros [= _ <-]. apply typed_insert; [|done]. by apply materialise_typed.
Qed.

Lemma FindResource_typed (path : string) (s s1 : HubState) (r : resTree_EntryRef_t) :
  typed_tree (tree s) -> FindResource path s = Done r s1 -> typed_tree (tree s1).
Proof.
  intros Htyped Hres. rewrite FindResource_eq in Hres.
  destruct (GetClientNamespace s) as [ns s0|] eqn:Hns; [|done].
  apply Done_inj in Hres as [_ <-]. by apply (GetClientNamespace_typed _ _ _ Htyped Hns).
Qed.

Lemma resTree_Push_typed (ref : resTree_EntryRef_t) (kind : io_DataType_t)
    (sample : dataSample) (s s' : HubState) :
  typed_tree (tree s) -> resTree_Push ref kind sample s = Done tt s' ->
  typed_tree (tree s').
Proof.
  intros Htyped. unfold resTree_Push. hub_unfold.
  destruct ref as [p|]; [|done]. unfold entryAt.
  destruct (tree s !! p) as [e|]; [|done]. cbn [default from_option id].
  destruct (entryType e) eqn:Hrole; try done.
  - intros [_ <-]%Done_inj. apply typed_insert; [done|]. cbn. by rewrite Hrole.
  - destruct (decide _); intros [_ <-]%Done_inj; [|done].
    apply typed_insert; [done|]. cbn. by rewrite Hrole.
  - destruct (decide _); intros [_ <-]%Done_inj; [|done].
    apply typed_insert; [done|]. cbn. by rewrite Hrole.
  - intros [_ <-]%Done_inj. apply typed_insert; [done|]. cbn. by rewrite Hrole.
Qed.

Lemma resTree_SetDefault_typed (t : Tree) (ref : resTree_EntryRef_t) (dt : io_DataType_t)
    (sample : dataSample) :
  typed_tree t -> typed_tree (resTree_SetDefault t ref dt sample).
Proof.
  intros Htyped. unfold resTree_SetDefault.
  destruct ref as [p|]; [|done]. destruct (t !! p) as [e|] eqn:He; [|done].
  destruct (defaultValue e); [done|]. apply typed_insert; [done|].
  exact (Htyped _ _ He).
Qed.

Lemma io_Create_typed (type : admin_EntryType_t) (s0 s' : HubState)
    (nsRef : resTree_EntryRef_t) (path : string) (dt : io_DataType_t) (u : string)
    (r : le_result_t) (msg : string) :
  type = ADMIN_ENTRY_TYPE_INPUT ∨ type = ADMIN_ENTRY_TYPE_OUTPUT ->
  typed_tree (tree s0) ->
  hub_bind (onTree (fun t => resTree_GetIO type t nsRef path dt u))
           (fun resRef : resTree_EntryRef_t =>
              match resRef with
              | None =>
                  hub_bind (resTree_GetEntryName nsRef)
                           (fun _ => hub_bind (LE_KILL_CLIENT msg) (fun _ => hub_ret LE_FAULT))
              | Some _ => hub_ret LE_OK
              end) s0
  = Done r s' ->
  typed_tree (tree s').
Proof.
  intros Htype Htyped. hub_unfold.
  destruct (resTree_GetIO type (tree s0) nsRef path dt u) as [ref t'] eqn:Hget.
  pose proof (resTree_GetIO_typed _ _ _ _ _ _ _ _ Htype Htyped Hget) as Htyped'.
  destruct ref; [by intros [_ <-]%Done_inj|].
  destruct nsRef; [by intros [_ <-]%Done_inj|done].
Qed.

Lemma io_CreateInput_typed (path : string) (dt : io_DataType_t) (u : string)
    (s s' : HubState) (r : le_result_t) :
  typed_tree (tree s) -> io_CreateInput path dt u s = Done r s' -> typed_tree (tree s').
Proof.
  intros Htyped. unfold io_CreateInput. hub_unfold.
  destruct (GetClientNamespace s) as [nsRef s0|] eqn:Hns; [|done].
  pose proof (GetClientNamespace_typed _ _ _ Htyped Hns) as Htyped0.
  destruct nsRef as [ns|].
  - destruct (resTree_FindEntry (tree s0) (Some ns) path) as [ref|].
    + destruct (resTree_GetEntryType (tree s0) (Some ref)); try done.
      * intros Hrun. exact (io_Create_typed ADMIN_ENTRY_TYPE_INPUT s0 s' (Some ns) path dt u r EmptyString (or_introl eq_refl) Htyped0 Hrun).
      * intros Hrun. exact (io_Create_typed ADMIN_ENTRY_TYPE_INPUT s0 s' (Some ns) path dt u r EmptyString (or_introl eq_refl) Htyped0 Hrun).
      * destruct (_ || _); by intros [_ <-]%Done_inj.
      * by intros [_ <-]%Done_inj.
      * by intros [_ <-]%Done_inj.
    + intros Hrun. exact (io_Create_typed ADMIN_ENTRY_TYPE_INPUT s0 s' (Some ns) path dt u r EmptyString (or_introl eq_refl) Htyped0 Hrun).
  - intros Hrun. exact (io_Create_typed ADMIN_ENTRY_TYPE_INPUT s0 s' None path dt u r EmptyString (or_introl eq_refl) Htyped0 Hrun).
Qed.

Lemma io_CreateOutput_typed (path : string) (dt : io_DataType_t) (u : string)
    (s s' : HubState) (r : le_result_t) :
  typed_tree (tree s) -> io_CreateOutput path dt u s = Done r s' -> typed_tree (tree s').
Proof.
  intros Htyped. unfold io_CreateOutput. hub_unfold.
  destruct (GetClientNamespace s) as [nsRef s0|] eqn:Hns; [|done].
  pose proof (GetClientNamespace_typed _ _ _ Htyped Hns) as Htyped0.
  destruct nsRef as [ns|].
  - destruct (resTree_FindEntry (tree s0) (Some ns) path) as [ref|].
    + destruct (resTree_GetEntryType (tree s0) (Some ref)); try done.
      * intros Hrun. exact (io_Create_typed ADMIN_ENTRY_TYPE_OUTPUT s0 s' (Some ns) path dt u r EmptyString (or_intror eq_refl) Htyped0 Hrun).
      * intros Hrun. exact (io_Create_typed ADMIN_ENTRY_TYPE_OUTPUT s0 s' (Some ns) path dt u r EmptyString (or_intror eq_refl) Htyped0 Hrun).
      * by intros [_ <-]%Done_inj.
      * destruct (_ || _); by intros [_ <-]%Done_inj.
      * by intros [_ <-]%Done_inj.
    + intros Hrun. exact (io_Create_typed ADMIN_ENTRY_TYPE_OUTPUT s0 s' (Some ns) path dt u r EmptyString (or_intror eq_refl) Htyped0 Hrun).
  - intros Hrun. exact (io_Create_typed ADMIN_ENTRY_TYPE_OUTPUT s0 s' None path dt u r EmptyString (or_intror eq_refl) Htyped0 Hrun).
Qed.

Ltac found_typed Htyped :=
  unfold GetCurrentValue; hub_unfold;
  match goal with
  | |- context [FindResource ?path ?s] =>
      let Hres := fresh "Hres" in
      let Htyped1 := fresh "Htyped1" in
      destruct (FindResource path s) as [[?|] ?|] eqn:Hres; [| |done];
      pose proof (FindResource_typed _ _ _ _ Htyped Hres) as Htyped1
  end.

(** Every call of a client leaves every entry with a type. *)
Lemma perform_typed (call : ApiCall) (s s' : HubState) :
  typed_tree (tree s) -> perform call s = Done tt s' -> typed_tree (tree s').
Proof.
  intros Htyped. destruct call; cbn [perform].
  - unfold hub_bind, hub_ret.
    destruct (io_CreateInput path dt u s) as [r s1|] eqn:Hrun; [|done].
    intros [_ <-]%Done_inj. by apply (io_CreateInput_typed _ _ _ _ _ _ Htyped Hrun).
  - unfold hub_bind, hub_ret.
    destruct (io_CreateOutput path dt u s) as [r s1|] eqn:Hrun; [|done].
    intros [_ <-]%Done_inj. by apply (io_CreateOutput_typed _ _ _ _ _ _ Htyped Hrun).
  - unfold io_DeleteResource, resTree_DeleteIO. found_typed Htyped.
    + destruct (deleteIO _ _) as [t'|] eqn:Hdel; [|done].
      intros [_ <-]%Done_inj. by apply (deleteIO_typed _ _ _ Htyped1 Hdel).
    + by intros [_ <-]%Done_inj.
  - unfold io_PushTrigger. found_typed Htyped;
      [by apply resTree_Push_typed|by intros [_ <-]%Done_inj].
  - unfold io_PushBoolean. found_typed Htyped;
      [by apply resTree_Push_typed|by intros [_ <-]%Done_inj].
  - unfold io_PushNumeric. found_typed Htyped;
      [by apply resTree_Push_typed|by intros [_ <-]%Done_inj].
  - unfold io_PushString. found_typed Htyped;
      [by apply resTree_Push_typed|by intros [_ <-]%Done_inj].
  - unfold io_PushJson. found_typed Htyped;
      [by apply resTree_Push_typed|by intros [_ <-]%Done_inj].
  - unfold io_SetBooleanDefault. found_typed Htyped; [|by intros [_ <-]%Done_inj].
    case_bool_decide; [by intros [_ <-]%Done_inj|].
    destruct (negb _); intros [_ <-]%Done_inj; [by apply resTree_SetDefault_typed|done].
  - unfold io_SetNumericDefault. found_typed Htyped; [|by intros [_ <-]%Done_inj].
    case_bool_decide; [by intros [_ <-]%Done_inj|].
    destruct (negb _); intros [_ <-]%Done_inj; [by apply resTree_SetDefault_typed|done].
  - unfold io_SetStringDefault. found_typed Htyped; [|by intros [_ <-]%Done_inj].
    case_bool_decide; [by intros [_ <-]%Done_inj|].
    destruct (negb _); intros [_ <-]%Done_inj; [by apply resTree_SetDefault_typed|done].
  - unfold io_SetJsonDefault. found_typed Htyped; [|by intros [_ <-]%Done_inj].
    case_bool_decide; [by intros [_ <-]%Done_inj|].
    destruct (negb _); intros [_ <-]%Done_inj; [by apply resTree_SetDefault_typed|done].
  - unfold io_GetTimestamp. found_typed Htyped; [|by intros [_ <-]%Done_inj].
    destruct (resTree_GetCurrentValue _ _); by intros [_ <-]%Done_inj.
  - unfold io_GetBoolean. found_typed Htyped; [|by intros [_ <-]%Done_inj].
    case_bool_decide; [by intros [_ <-]%Done_inj|].
    destruct (resTree_GetCurrentValue _ _); by intros [_ <-]%Done_inj.
  - unfold io_GetNumeric. found_typed Htyped; [|by intros [_ <-]%Done_inj].
    case_bool_decide; [by intros [_ <-]%Done_inj|].
    destruct (resTree_GetCurrentValue _ _); by intros [_ <-]%Done_inj.
  - unfold io_GetString. found_typed Htyped; [|by intros [_ <-]%Done_inj].
    case_bool_decide; [by intros [_ <-]%Done_inj|].
    destruct (resTree_GetCurrentValue _ _); [|by intros [_ <-]%Done_inj].
    destruct (le_utf8_Copy _ _). by intros [_ <-]%Done_inj.
  - unfold query_ReadBufferJson, resTree_ReadBufferJson. hub_unfold.
    destruct (FindObservation (tree s) obsPath); [|by intros [_ <-]%Done_inj].
    destruct (PrimFloat.ltb startAfter 0); [by intros [_ <-]%Done_inj|].
    destruct (samplesAfter _ _ _); by intros [_ <-]%Done_inj.
Qed.

(** X5: no call of a client that has its namespace ends in [LE_FATAL],
    as long as no entry of the tree has the type [ADMIN_ENTRY_TYPE_NONE],
    and the call leaves the tree in that shape: the pushes and the delete
    hand the resource tree Inputs and Outputs only, and the unexpected case
    of the switch in [io_CreateInput] and [io_CreateOutput] is not
    reached. The namespace is the one [GetClientNamespace] returns, and it
    is in the tree; a client that cannot be identified, and a namespace that
    has been removed, are left out. *)
Theorem perform_never_fatal (call : ApiCall) (s s1 : HubState) (ns : list string) :
  typed_tree (tree s) ->
  GetClientNamespace s = Done (Some ns) s1 ->
  is_Some (tree s1 !! ns) ->
  ∃ s', perform call s = Done tt s' ∧ typed_tree (tree s').
Proof.
  intros Htyped Hns _. destruct (perform_returns call s s1 ns Htyped Hns) as [s' Hrun].
  exists s'. split; [done|]. by apply (perform_typed call s).
Qed.

(** Deleting the Input [temp], the one call that could hand the tree an
    entry of the wrong role, returns. *)
Lemma perform_never_fatal_witness :
  ∃ s', perform (CallDeleteResource "temp") inputHub = Done tt s' ∧ typed_tree (tree s').
Proof.
  apply (perform_never_fatal (CallDeleteResource "temp") inputHub inputHub
           ["app"%string; "sensord"%string]).
  - apply (bool_decide_unpack (typed_tree (tree inputHub))). vm_compute. exact I.
  - vm_compute; reflexivity.
  - apply (bool_decide_unpack _). vm_compute. exact I.
Defined.

(** ** What the getters of the I/O API do to the hub *)

(** X6: a get on an Input or Output never changes the tree or the output.
    [io_GetTimestamp] and [io_GetJson] have no type check and leave the
    state as [FindResource] left it; [io_GetBoolean], [io_GetNumeric] and
    [io_GetString] terminate the client session exactly when the data type
    of the resource is not theirs, whether it has a value or not. *)
Theorem io_Get_effects (path : string) (s s1 : HubState) (ref : list string) :
  FindResource path s = Done (Some ref) s1 ->
  (∃ out, io_GetTimestamp path s = Done out s1)
  ∧ (∀ printDouble jsonEscape size,
       ∃ f, io_GetJson printDouble jsonEscape path size s = Done f s1)
  ∧ (∃ f, io_GetBoolean path s
          = Done f (if decide (resTree_GetDataType (tree s1) (Some ref) = IO_DATA_TYPE_BOOLEAN)
                    then s1 else killClient s1))
  ∧ (∃ f, io_GetNumeric path s
          = Done f (if decide (resTree_GetDataType (tree s1) (Some ref) = IO_DATA_TYPE_NUMERIC)
                    then s1 else killClient s1))
  ∧ (∀ size,
       ∃ f, io_GetString path size s
            = Done f (if decide (resTree_GetDataType (tree s1) (Some ref)
                                 = IO_DATA_TYPE_STRING)
                      then s1 else killClient s1))
  ∧ tree (killClient s1) = tree s1
  ∧ outputFiles (killClient s1) = outputFiles s1.
Proof.
  intros Hres.
  unfold io_GetTimestamp, io_GetJson, io_GetBoolean, io_GetNumeric, io_GetString,
    GetCurrentValue.
  hub_unfold. rewrite Hres.
  split; [destruct (resTree_GetCurrentValue _ _); by eauto|].
  split.
  { intros printDouble jsonEscape size.
    destruct (resTree_GetCurrentValue _ _); [|by eauto].
    destruct (dataSample_ConvertToJson _ _ _ _ _). by eauto. }
  split.
  { destruct (decide _) as [Heq|Hne].
    - rewrite bool_decide_eq_false_2 by (by intros ?).
      destruct (resTree_GetCurrentValue _ _); by eauto.
    - rewrite bool_decide_eq_true_2 by done. by eauto. }
  split.
  { destruct (decide _) as [Heq|Hne].
    - rewrite bool_decide_eq_false_2 by (by intros ?).
      destruct (resTree_GetCurrentValue _ _); by eauto.
    - rewrite bool_decide_eq_true_2 by done. by eauto. }
  split; [|done].
  intros size. destruct (decide _) as [Heq|Hne].
  - rewrite bool_decide_eq_false_2 by (by intros ?).
    destruct (resTree_GetCurrentValue _ _); [|by eauto].
    destruct (le_utf8_Copy _ _). by eauto.
  - rewrite bool_decide_eq_true_2 by done. by eauto.
Qed.

(** On the numeric Input [temp], a numeric get leaves the hub alone and a
    Boolean get kills the client. *)
Lemma io_Get_effects_witness :
  (∃ f, io_GetNumeric "temp" pushedHub = Done f pushedHub)
  ∧ (∃ f, io_GetBoolean "temp" pushedHub = Done f (killClient pushedHub)).
Proof.
  pose proof (io_Get_effects "temp" pushedHub pushedHub
                ["app"%string; "sensord"%string; "temp"%string]) as H.
  destruct H as (_ & _ & Hbool & Hnum & _).
  - vm_compute; reflexivity.
  - split; [exact Hnum|exact Hbool].
Defined.

(** ** The order of the checks *)

(** X7: on a resource that has no value and no default, the query getters
    answer [LE_UNAVAILABLE] whatever kind is asked for, since they look for
    the value before they look at the type; the typed getters of the I/O API
    look at the type first, so that a get of the wrong kind terminates the
    client session even though there is nothing to fetch. *)
Theorem no_value_wrong_kind (s s1 : HubState) (path ioPath : string) (valueSize : nat)
    (ref ioRef : list string) :
  resTree_FindEntryAtAbsolutePath (tree s) path = Some ref ->
  resTree_IsResource (tree s) (Some ref) = true ->
  resTree_GetCurrentValue (tree s) (Some ref) = None ->
  FindResource ioPath s = Done (Some ioRef) s1 ->
  resTree_GetCurrentValue (tree s1) (Some ioRef) = None ->
  query_GetBoolean (tree s) path = mkFetched LE_UNAVAILABLE None None
  ∧ query_GetNumeric (tree s) path = mkFetched LE_UNAVAILABLE None None
  ∧ query_GetString (tree s) path valueSize = mkFetched LE_UNAVAILABLE None None
  ∧ query_GetTimestamp (tree s) path = (LE_UNAVAILABLE, None)
  ∧ (∀ printDouble jsonEscape,
       query_GetJson printDouble jsonEscape (tree s) path valueSize
       = mkFetched LE_UNAVAILABLE None None)
  ∧ (resTree_GetDataType (tree s1) (Some ioRef) ≠ IO_DATA_TYPE_BOOLEAN ->
     io_GetBoolean ioPath s = Done (mkFetched LE_UNAVAILABLE None None) (killClient s1))
  ∧ (resTree_GetDataType (tree s1) (Some ioRef) = IO_DATA_TYPE_BOOLEAN ->
     io_GetBoolean ioPath s = Done (mkFetched LE_UNAVAILABLE None None) s1)
  ∧ (resTree_GetDataType (tree s1) (Some ioRef) ≠ IO_DATA_TYPE_NUMERIC ->
     io_GetNumeric ioPath s = Done (mkFetched LE_UNAVAILABLE None None) (killClient s1))
  ∧ (resTree_GetDataType (tree s1) (Some ioRef) = IO_DATA_TYPE_NUMERIC ->
     io_GetNumeric ioPath s = Done (mkFetched LE_UNAVAILABLE None None) s1)
  ∧ io_GetTimestamp ioPath s = Done (LE_UNAVAILABLE, None) s1.
Proof.
  intros Hfind Hres Hcur Hio Hiocur.
  unfold query_GetBoolean, query_GetNumeric, query_GetString, query_GetTimestamp,
    query_GetJson.
  rewrite Hfind, Hres, Hcur. cbn [negb].
  do 5 (split; [done|]).
  unfold io_GetBoolean, io_GetNumeric, io_GetTimestamp, hub_bind. rewrite Hio.
  repeat split.
  - intros Hkind. by rewrite (GetCurrentValue_wrong_kind _ _ _ Hkind).
  - intros Hkind. by rewrite (GetCurrentValue_right_kind _ _ _ Hkind), Hiocur.
  - intros Hkind. by rewrite (GetCurrentValue_wrong_kind _ _ _ Hkind).
  - intros Hkind. by rewrite (GetCurrentValue_right_kind _ _ _ Hkind), Hiocur.
  - hub_unfold. by rewrite Hiocur.
Qed.

(** The numeric Input [temp], before any push. *)
Lemma no_value_wrong_kind_witness :
  query_GetBoolean (tree inputHub) "/app/sensord/temp" = mkFetched LE_UNAVAILABLE None None
  ∧ io_GetBoolean "temp" inputHub
    = Done (mkFetched LE_UNAVAILABLE None None) (killClient inputHub)
  ∧ io_GetNumeric "temp" inputHub = Done (mkFetched LE_UNAVAILABLE None None) inputHub.
Proof.
  pose proof (no_value_wrong_kind inputHub inputHub "/app/sensord/temp" "temp" 16
                ["app"%string; "sensord"%string; "temp"%string]
                ["app"%string; "sensord"%string; "temp"%string]) as H.
  destruct H as (Hq & _ & _ & _ & _ & Hbool & _ & _ & Hnum & _);
    try (vm_compute; reflexivity).
  split; [exact Hq|]. split; [apply Hbool|apply Hnum]; vm_compute; [discriminate|reflexivity].
Defined.

(** X8: the error ladder of the query getters. Where the path resolves to
    nothing, all seven return [LE_NOT_FOUND]; where it resolves to a
    Namespace, all seven return [LE_UNSUPPORTED]; in both cases nothing is
    written through any pointer. *)
Theorem query_error_ladder (t : Tree) (path : string) (size : nat)
    (printDouble : float -> string) (jsonEscape : string -> string) :
  (resTree_FindEntryAtAbsolutePath t path = None ->
   query_GetDataType t path = (LE_NOT_FOUND, None)
   ∧ query_GetUnits t path size = (LE_NOT_FOUND, None)
   ∧ query_GetTimestamp t path = (LE_NOT_FOUND, None)
   ∧ query_GetBoolean t path = mkFetched LE_NOT_FOUND None None
   ∧ query_GetNumeric t path = mkFetched LE_NOT_FOUND None None
   ∧ query_GetString t path size = mkFetched LE_NOT_FOUND None None
   ∧ query_GetJson printDouble jsonEscape t path size = mkFetched LE_NOT_FOUND None None)
  ∧ (∀ ref,
       resTree_FindEntryAtAbsolutePath t path = Some ref ->
       resTree_GetEntryType t (Some ref) = ADMIN_ENTRY_TYPE_NAMESPACE ->
       query_GetDataType t path = (LE_UNSUPPORTED, None)
       ∧ query_GetUnits t path size = (LE_UNSUPPORTED, None)
       ∧ query_GetTimestamp t path = (LE_UNSUPPORTED, None)
       ∧ query_GetBoolean t path = mkFetched LE_UNSUPPORTED None None
       ∧ query_GetNumeric t path = mkFetched LE_UNSUPPORTED None None
       ∧ query_GetString t path size = mkFetched LE_UNSUPPORTED None None
       ∧ query_GetJson printDouble jsonEscape t path size
         = mkFetched LE_UNSUPPORTED None None).
Proof.
  unfold query_GetDataType, query_GetUnits, query_GetTimestamp, query_GetBoolean,
    query_GetNumeric, query_GetString, query_GetJson.
  split.
  - intros ->. repeat split.
  - intros ref -> Hns. unfold resTree_IsResource. rewrite Hns.
    rewrite bool_decide_eq_false_2 by (intros H; by apply H). repeat split.
Qed.

Ltac fetched_solver :=
  cbn in *; repeat split; intros;
  repeat match goal with
         | H : _ ∧ _ |- _ => destruct H
         | H : is_Some None |- _ => by destruct H
         | H : ?x ≠ ?x |- _ => by destruct H
         | H : _ ∨ _ |- _ => destruct H
         end;
  first [done|by eexists|by left|by right].

(** X9: a typed query getter writes through its pointers only when it
    succeeds. [query_GetBoolean] and [query_GetNumeric] write the timestamp
    and the value exactly when they return [LE_OK]; [query_GetString] and
    [query_GetJson] write both exactly when they return [LE_OK] or
    [LE_OVERFLOW]. *)
Theorem query_writes_on_success (t : Tree) (path : string) (size : nat)
    (printDouble : float -> string) (jsonEscape : string -> string) :
  (result (query_GetBoolean t path) = LE_OK
   ↔ is_Some (timestampOut (query_GetBoolean t path))
     ∧ is_Some (valueOut (query_GetBoolean t path)))
  ∧ (result (query_GetBoolean t path) ≠ LE_OK ->
     timestampOut (query_GetBoolean t path) = None
     ∧ valueOut (query_GetBoolean t path) = None)
  ∧ (result (query_GetNumeric t path) = LE_OK
     ↔ is_Some (timestampOut (query_GetNumeric t path))
       ∧ is_Some (valueOut (query_GetNumeric t path)))
  ∧ (result (query_GetNumeric t path) ≠ LE_OK ->
     timestampOut (query_GetNumeric t path) = None
     ∧ valueOut (query_GetNumeric t path) = None)
  ∧ (result (query_GetString t path size) = LE_OK
     ∨ result (query_GetString t path size) = LE_OVERFLOW
     ↔ is_Some (timestampOut (query_GetString t path size))
       ∧ is_Some (valueOut (query_GetString t path size)))
  ∧ (result (query_GetJson printDouble jsonEscape t path size) = LE_OK
     ∨ result (query_GetJson printDouble jsonEscape t path size) = LE_OVERFLOW
     ↔ is_Some (timestampOut (query_GetJson printDouble jsonEscape t path size))
       ∧ is_Some (valueOut (query_GetJson printDouble jsonEscape t path size))).
Proof.
  assert (∀ src n, (le_utf8_Copy src n).1 = LE_OK ∨ (le_utf8_Copy src n).1 = LE_OVERFLOW)
    as Hcopy.
  { intros src n. destruct (le_utf8_Copy_result src n) as [[_ ->]|[_ ->]]; by eauto. }
  unfold query_GetBoolean, query_GetNumeric, query_GetString, query_GetJson,
    dataSample_ConvertToJson.
  destruct (resTree_FindEntryAtAbsolutePath t path) as [ref|]; [|clear Hcopy; fetched_solver].
  destruct (resTree_IsResource t (Some ref)); cbn [negb]; [|clear Hcopy; fetched_solver].
  destruct (resTree_GetCurrentValue t (Some ref)) as [sample|];
    [|clear Hcopy; fetched_solver].
  pose proof (Hcopy (dataSample_GetString sample) size) as Hstring.
  pose proof (Hcopy (dataSample_GetJson sample) size) as Hjson.
  pose proof (Hcopy (jsonProjection printDouble jsonEscape sample
                                    (resTree_GetDataType t (Some ref))) size) as Hproj.
  clear Hcopy.
  destruct (bool_decide (resTree_GetDataType t (Some ref) ≠ IO_DATA_TYPE_BOOLEAN));
    destruct (bool_decide (resTree_GetDataType t (Some ref) ≠ IO_DATA_TYPE_NUMERIC));
    destruct (bool_decide (resTree_GetDataType t (Some ref) ≠ IO_DATA_TYPE_STRING));
    destruct (decide (resTree_GetDataType t (Some ref) = IO_DATA_TYPE_JSON));
    destruct (le_utf8_Copy (dataSample_GetString sample) size);
    destruct (le_utf8_Copy (dataSample_GetJson sample) size);
    destruct (le_utf8_Copy (jsonProjection printDouble jsonEscape sample
                                           (resTree_GetDataType t (Some ref))) size);
    fetched_solver.
Qed.

(** ** Push handlers and the optional mark *)

(** X10: a push handler is registered on exactly the resources
    [FindResource] finds, although [AddPushHandler] does its own lookup.
    On an Input or Output of the client's namespace the five
    [io_Add*PushHandler] hand the entry to the resource tree with the kind
    of the function that was called, whatever the data type of the resource;
    on anything else they terminate the client session, return [NULL] and
    register nothing. *)
Theorem push_handler_registration
    (resTree_AddPushHandler :
       resTree_EntryRef_t -> io_DataType_t -> Z -> Z -> Hub hub_HandlerRef_t)
    (path : string) (callbackPtr contextPtr : Z) (s s1 : HubState)
    (found : resTree_EntryRef_t) :
  FindResource path s = Done found s1 ->
  (∀ ref, found = Some ref ->
     io_AddTriggerPushHandler resTree_AddPushHandler path callbackPtr contextPtr s
     = resTree_AddPushHandler (Some ref) IO_DATA_TYPE_TRIGGER callbackPtr contextPtr s1
     ∧ io_AddBooleanPushHandler resTree_AddPushHandler path callbackPtr contextPtr s
       = resTree_AddPushHandler (Some ref) IO_DATA_TYPE_BOOLEAN callbackPtr contextPtr s1
     ∧ io_AddNumericPushHandler resTree_AddPushHandler path callbackPtr contextPtr s
       = resTree_AddPushHandler (Some ref) IO_DATA_TYPE_NUMERIC callbackPtr contextPtr s1
     ∧ io_AddStringPushHandler resTree_AddPushHandler path callbackPtr contextPtr s
       = resTree_AddPushHandler (Some ref) IO_DATA_TYPE_STRING callbackPtr contextPtr s1
     ∧ io_AddJsonPushHandler resTree_AddPushHandler path callbackPtr contextPtr s
       = resTree_AddPushHandler (Some ref) IO_DATA_TYPE_JSON callbackPtr contextPtr s1)
  ∧ (found = None ->
     io_AddTriggerPushHandler resTree_AddPushHandler path callbackPtr contextPtr s
     = Done None (killClient s1)
     ∧ io_AddBooleanPushHandler resTree_AddPushHandler path callbackPtr contextPtr s
       = Done None (killClient s1)
     ∧ io_AddNumericPushHandler resTree_AddPushHandler path callbackPtr contextPtr s
       = Done None (killClient s1)
     ∧ io_AddStringPushHandler resTree_AddPushHandler path callbackPtr contextPtr s
       = Done None (killClient s1)
     ∧ io_AddJsonPushHandler resTree_AddPushHandler path callbackPtr contextPtr s
       = Done None (killClient s1)).
Proof.
  intros Hres.
  assert (∀ dt,
            AddPushHandler resTree_AddPushHandler path dt callbackPtr contextPtr s
            = match found with
              | Some ref => resTree_AddPushHandler (Some ref) dt callbackPtr contextPtr s1
              | None => Done None (killClient s1)
              end) as Hadd.
  { intros dt. rewrite FindResource_eq in Hres.
    unfold AddPushHandler. hub_unfold.
    destruct (GetClientNamespace s) as [[ns|] s0|] eqn:Hns; [| |done].
    - apply Done_inj in Hres as [Hfound ->]. rewrite <- Hfound. unfold onlyIO.
      destruct (resTree_FindEntry (tree s1) (Some ns) path) as [ref|]; [|done].
      by destruct (bool_decide _ && bool_decide _).
    - by apply Done_inj in Hres as [<- ->]. }
  unfold io_AddTriggerPushHandler, io_AddBooleanPushHandler, io_AddNumericPushHandler,
    io_AddStringPushHandler, io_AddJsonPushHandler.
  split; [intros ref ->|intros ->]; by rewrite !Hadd.
Qed.

(** On the numeric Input [temp] a Boolean handler is registered all the
    same. *)
Lemma push_handler_registration_witness :
  io_AddBooleanPushHandler echoAddPushHandler "temp" 5 6 inputHub
  = Done (Some 5%Z) inputHub.
Proof.
  pose proof (push_handler_registration echoAddPushHandler "temp" 5 6 inputHub inputHub
                (Some ["app"%string; "sensord"%string; "temp"%string])) as H.
  destruct H as [Hfound _]; [vm_compute; reflexivity|].
  destruct (Hfound _ eq_refl) as (_ & Hbool & _). exact Hbool.
Defined.

(** X11: only an Output of the client's namespace can be marked optional.
    Where the path resolves to an Output, [io_MarkOptional] hands that entry
    to the resource tree; in every other case (nothing there, an Input, a
    Namespace, an Observation, a client without a namespace) the client
    session is terminated and the resource tree is not called. *)
Theorem only_outputs_marked_optional (resTree_MarkOptional : resTree_EntryRef_t -> Hub unit)
    (path : string) (s s1 : HubState) (nsRef : resTree_EntryRef_t) :
  GetClientNamespace s = Done nsRef s1 ->
  (resTree_GetEntryType (tree s1) (resTree_FindEntry (tree s1) nsRef path)
   = ADMIN_ENTRY_TYPE_OUTPUT ->
   io_MarkOptional resTree_MarkOptional path s
   = resTree_MarkOptional (resTree_FindEntry (tree s1) nsRef path) s1)
  ∧ (resTree_GetEntryType (tree s1) (resTree_FindEntry (tree s1) nsRef path)
     ≠ ADMIN_ENTRY_TYPE_OUTPUT ->
     io_MarkOptional resTree_MarkOptional path s = Done tt (killClient s1)).
Proof.
  intros Hns. unfold io_MarkOptional. hub_unfold. rewrite FindResource_eq, Hns.
  unfold onlyIO.
  destruct (resTree_FindEntry (tree s1) nsRef path) as [ref|] eqn:Hfind.
  - split.
    + intros Hout. rewrite Hout.
      rewrite (bool_decide_eq_false_2 (ADMIN_ENTRY_TYPE_OUTPUT ≠ ADMIN_ENTRY_TYPE_OUTPUT))
        by (intros H; by apply H).
      rewrite andb_false_r. rewrite Hout.
      by rewrite bool_decide_eq_false_2 by (intros H; by apply H).
    + intros Hother.
      rewrite (bool_decide_eq_true_2 _ Hother), andb_true_r.
      case_bool_decide; [done|]. by rewrite (bool_decide_eq_true_2 _ Hother).
  - split; [done|]. intros _.
    by destruct (bool_decide _ && bool_decide _).
Qed.

(** The Boolean Output [y] is marked; the numeric Input [temp] is not, and
    the client is killed. *)
Lemma only_outputs_marked_optional_witness :
  io_MarkOptional idleMarkOptional "y" outputHub = Done tt outputHub
  ∧ io_MarkOptional idleMarkOptional "temp" inputHub = Done tt (killClient inputHub).
Proof.
  split.
  - apply (only_outputs_marked_optional idleMarkOptional "y" outputHub outputHub
             (Some ["app"%string; "sensord"%string]));
      vm_compute; reflexivity.
  - apply (only_outputs_marked_optional idleMarkOptional "temp" inputHub inputHub
             (Some ["app"%string; "sensord"%string]));
      vm_compute; [reflexivity|discriminate].
Defined.

(** X12: a default of another kind than the resource's data type is never
    stored and never passed over in silence: [io_Set*Default] terminates
    the client session and leaves the tree as it is, also where the
    resource has a default already, since the data type is checked before
    the default is looked for. With the right kind and a default in place,
    nothing changes and the session goes on, whatever has been pushed since
    the default was set. *)
Theorem io_SetDefault_checks (path : string) (s s1 : HubState) (ref : list string) :
  FindResource path s = Done (Some ref) s1 ->
  (resTree_GetDataType (tree s1) (Some ref) ≠ IO_DATA_TYPE_BOOLEAN ->
   ∀ v, io_SetBooleanDefault path v s = Done tt (killClient s1))
  ∧ (resTree_GetDataType (tree s1) (Some ref) ≠ IO_DATA_TYPE_NUMERIC ->
     ∀ v, io_SetNumericDefault path v s = Done tt (killClient s1))
  ∧ (resTree_GetDataType (tree s1) (Some ref) ≠ IO_DATA_TYPE_STRING ->
     ∀ v, io_SetStringDefault path v s = Done tt (killClient s1))
  ∧ (resTree_GetDataType (tree s1) (Some ref) ≠ IO_DATA_TYPE_JSON ->
     ∀ v, io_SetJsonDefault path v s = Done tt (killClient s1))
  ∧ tree (killClient s1) = tree s1
  ∧ (resTree_HasDefault (tree s1) (Some ref) = true ->
     (resTree_GetDataType (tree s1) (Some ref) = IO_DATA_TYPE_BOOLEAN ->
      ∀ v, io_SetBooleanDefault path v s = Done tt s1)
     ∧ (resTree_GetDataType (tree s1) (Some ref) = IO_DATA_TYPE_NUMERIC ->
        ∀ v, io_SetNumericDefault path v s = Done tt s1)
     ∧ (resTree_GetDataType (tree s1) (Some ref) = IO_DATA_TYPE_STRING ->
        ∀ v, io_SetStringDefault path v s = Done tt s1)
     ∧ (resTree_GetDataType (tree s1) (Some ref) = IO_DATA_TYPE_JSON ->
        ∀ v, io_SetJsonDefault path v s = Done tt s1)).
Proof.
  intros Hres.
  unfold io_SetBooleanDefault, io_SetNumericDefault, io_SetStringDefault, io_SetJsonDefault.
  hub_unfold. rewrite Hres.
  do 4 (split; [intros Hne v; by rewrite bool_decide_eq_true_2 by done|]).
  split; [done|]. intros Hdefault.
  repeat split; intros Heq v;
    rewrite Heq, bool_decide_eq_false_2 by (intros Hne; by apply Hne);
    by rewrite Hdefault.
Qed.

(** The Boolean Output [y] has the default [true]: a numeric default kills
    the client, another Boolean default is passed over. *)
Lemma io_SetDefault_checks_witness :
  io_SetNumericDefault "y" 1 defaultedHub = Done tt (killClient defaultedHub)
  ∧ io_SetBooleanDefault "y" false defaultedHub = Done tt defaultedHub.
Proof.
  pose proof (io_SetDefault_checks "y" defaultedHub defaultedHub
                ["app"%string; "sensord"%string; "y"%string]) as H.
  destruct H as (_ & Hnum & _ & _ & _ & Hset); [vm_compute; reflexivity|].
  destruct Hset as (Hbool & _); [vm_compute; reflexivity|].
  split; [apply Hnum|apply Hbool]; vm_compute; [discriminate|reflexivity].
Defined.

(** ** The two APIs on the same resource *)

(** X13: the I/O API and the Query API agree on an Input or Output. Where
    the client's path and an absolute path name the same entry,
    [io_GetTimestamp] returns what [query_GetTimestamp] returns; a typed
    get of the resource's own kind returns the result code and the value of
    its query counterpart, and so does [io_GetJson] for every kind. The
    one difference is the timestamp of the typed gets and of the JSON get,
    which only the Query API writes. *)
Theorem io_query_agree (printDouble : float -> string) (jsonEscape : string -> string)
    (path qpath : string) (size : nat) (s s1 : HubState) (ref : list string) :
  FindResource path s = Done (Some ref) s1 ->
  resTree_FindEntryAtAbsolutePath (tree s1) qpath = Some ref ->
  io_GetTimestamp path s = Done (query_GetTimestamp (tree s1) qpath) s1
  ∧ (resTree_GetDataType (tree s1) (Some ref) = IO_DATA_TYPE_BOOLEAN ->
     io_GetBoolean path s
     = Done (mkFetched (result (query_GetBoolean (tree s1) qpath)) None
                       (valueOut (query_GetBoolean (tree s1) qpath))) s1)
  ∧ (resTree_GetDataType (tree s1) (Some ref) = IO_DATA_TYPE_NUMERIC ->
     io_GetNumeric path s
     = Done (mkFetched (result (query_GetNumeric (tree s1) qpath)) None
                       (valueOut (query_GetNumeric (tree s1) qpath))) s1)
  ∧ (resTree_GetDataType (tree s1) (Some ref) = IO_DATA_TYPE_STRING ->
     io_GetString path size s
     = Done (mkFetched (result (query_GetString (tree s1) qpath size)) None
                       (valueOut (query_GetString (tree s1) qpath size))) s1)
  ∧ io_GetJson printDouble jsonEscape path size s
    = Done (mkFetched (result (query_GetJson printDouble jsonEscape (tree s1) qpath size))
                      None
                      (valueOut (query_GetJson printDouble jsonEscape (tree s1) qpath size)))
           s1
  ∧ (is_Some (resTree_GetCurrentValue (tree s1) (Some ref)) ->
     is_Some (timestampOut (query_GetJson printDouble jsonEscape (tree s1) qpath size))).
Proof.
  intros Hres Habs.
  destruct (FindResource_found _ _ _ _ Hres) as (ns & e & _ & _ & _ & He & Hrole).
  pose proof (io_resource_IsResource _ _ _ He Hrole) as Hio.
  unfold io_GetTimestamp, io_GetBoolean, io_GetNumeric, io_GetString, io_GetJson,
    GetCurrentValue, query_GetTimestamp, query_GetBoolean, query_GetNumeric,
    query_GetString, query_GetJson, dataSample_ConvertToJson.
  hub_unfold. rewrite Hres, Habs, Hio. cbn [negb].
  split; [by destruct (resTree_GetCurrentValue _ _)|].
  split.
  { intros Hdt. rewrite Hdt.
    rewrite !bool_decide_eq_false_2 by (intros Hne; by apply Hne).
    by destruct (resTree_GetCurrentValue _ _). }
  split.
  { intros Hdt. rewrite Hdt.
    rewrite !bool_decide_eq_false_2 by (intros Hne; by apply Hne).
    by destruct (resTree_GetCurrentValue _ _). }
  split.
  { intros Hdt. rewrite Hdt.
    rewrite !bool_decide_eq_false_2 by (intros Hne; by apply Hne).
    destruct (resTree_GetCurrentValue _ _) as [sample|]; [|done].
    by destruct (le_utf8_Copy _ _). }
  split.
  - destruct (resTree_GetCurrentValue _ _) as [sample|]; [|done].
    destruct (decide _) as [Hjson|Hother].
    + rewrite Hjson. cbn [jsonProjection]. by destruct (le_utf8_Copy _ _).
    + by destruct (le_utf8_Copy _ _).
  - intros [sample Hsample]. rewrite Hsample.
    destruct (decide _); by destruct (le_utf8_Copy _ _).
Qed.

(** The pushed Input [temp], read through both APIs. *)
Lemma io_query_agree_witness :
  query_GetNumeric (tree pushedHub) "/app/sensord/temp"
  = mkFetched LE_OK (Some 1700000000%float) (Some 21.5%float)
  ∧ io_GetNumeric "temp" pushedHub = Done (mkFetched LE_OK None (Some 21.5%float)) pushedHub.
Proof.
  split; [vm_compute; reflexivity|].
  pose proof (io_query_agree printNothing id "temp" "/app/sensord/temp" 16 pushedHub pushedHub
                ["app"%string; "sensord"%string; "temp"%string]) as H.
  destruct H as (_ & _ & Hnum & _); [vm_compute; reflexivity..|].
  apply Hnum. vm_compute; reflexivity.
Defined.

(** ** A created resource holds its path *)

Lemma io_CreateOutput_existing (s : HubState) (ns ref : list string) (path : string)
    (dt : io_DataType_t) (u : string) (e : Entry) :
  sessionContextPtr s = Some ns ->
  resTree_FindEntry (tree s) (Some ns) path = Some ref ->
  tree s !! ref = Some e ->
  entryType e = ADMIN_ENTRY_TYPE_OUTPUT -> dataType e = dt -> units e = u ->
  io_CreateOutput path dt u s = Done LE_OK s.
Proof.
  intros Hctx Hfind He Hrole Hdt Hu.
  unfold io_CreateOutput. hub_unfold.
  rewrite (GetClientNamespace_cached _ _ Hctx), Hfind.
  unfold resTree_GetEntryType, resTree_GetDataType, resTree_GetUnits, entryAt.
  rewrite He. cbn [default from_option id]. rewrite Hrole.
  rewrite !He. cbn [default from_option id].
  rewrite bool_decide_eq_false_2; [|by intros ?].
  rewrite bool_decide_eq_false_2; [done|]. intros H. by apply H.
Qed.

(** The creating tail of [io_CreateInput] and [io_CreateOutput], when it
    ends in [LE_OK]. *)
Lemma io_Create_tail (type : admin_EntryType_t) (ns : list string) (path : string)
    (dt : io_DataType_t) (u : string) (msg : string) (s0 s1 : HubState) :
  type = ADMIN_ENTRY_TYPE_INPUT ∨ type = ADMIN_ENTRY_TYPE_OUTPUT ->
  hub_bind (onTree (fun t => resTree_GetIO type t (Some ns) path dt u))
           (fun resRef : resTree_EntryRef_t =>
              match resRef with
              | None => hub_bind (LE_KILL_CLIENT msg) (fun _ => hub_ret LE_FAULT)
              | Some _ => hub_ret LE_OK
              end) s0
  = Done LE_OK s1 ->
  sessionContextPtr s0 = Some ns ->
  ∃ ref e,
    sessionContextPtr s1 = Some ns
    ∧ resTree_FindEntry (tree s1) (Some ns) path = Some ref
    ∧ tree s1 !! ref = Some e
    ∧ entryType e = type ∧ dataType e = dt ∧ units e = u.
Proof.
  intros Htype. hub_unfold.
  destruct (resTree_GetIO type (tree s0) (Some ns) path dt u) as [[ref0|] t0] eqn:Hget;
    [|done].
  intros [_ <-]%Done_inj Hctx.
  destruct (resTree_GetIO_found _ _ _ _ _ _ _ _ Htype Hget)
    as (Hfind & e & He & Hrole & Hdt & Hu).
  by exists ref0, e.
Qed.

(** What a successful create leaves behind: the resource, as asked for,
    where the client's namespace and the path lead. *)
Lemma io_Create_leaves (output : bool) (s s1 : HubState) (path : string) (dt : io_DataType_t)
    (u : string) :
  (if output then io_CreateOutput else io_CreateInput) path dt u s = Done LE_OK s1 ->
  ∃ ns ref e,
    sessionContextPtr s1 = Some ns
    ∧ resTree_FindEntry (tree s1) (Some ns) path = Some ref
    ∧ tree s1 !! ref = Some e
    ∧ entryType e = (if output then ADMIN_ENTRY_TYPE_OUTPUT else ADMIN_ENTRY_TYPE_INPUT)
    ∧ dataType e = dt ∧ units e = u.
Proof.
  destruct output.
  - unfold io_CreateOutput. hub_unfold.
    destruct (GetClientNamespace s) as [[ns|] s0|] eqn:Hns; [| |done].
    2: { by cbn. }
    destruct (GetClientNamespace_Some _ _ _ Hns) as (Hctx & _).
    assert (∀ msg,
              hub_bind (onTree (fun t => resTree_GetOutput t (Some ns) path dt u))
                (fun resRef : resTree_EntryRef_t =>
                   match resRef with
                   | None => hub_bind (LE_KILL_CLIENT msg) (fun _ => hub_ret LE_FAULT)
                   | Some _ => hub_ret LE_OK
                   end) s0
              = Done LE_OK s1 ->
              ∃ ns0 ref e,
                sessionContextPtr s1 = Some ns0
                ∧ resTree_FindEntry (tree s1) (Some ns0) path = Some ref
                ∧ tree s1 !! ref = Some e
                ∧ entryType e = ADMIN_ENTRY_TYPE_OUTPUT ∧ dataType e = dt ∧ units e = u)
      as Htail.
    { intros msg Hrun.
      destruct (io_Create_tail ADMIN_ENTRY_TYPE_OUTPUT ns path dt u msg s0 s1
                  (or_intror eq_refl) Hrun Hctx) as (ref & e & H).
      by exists ns, ref, e. }
    hub_unfold.
    destruct (resTree_FindEntry (tree s0) (Some ns) path) as [ref|] eqn:Hfind;
      [|by apply (Htail "Failed to create Output."%string)].
    destruct (resTree_FindEntry_lookup _ _ _ _ Hfind)
      as (b & segs & e & [= <-] & Hp & -> & He).
    unfold resTree_GetEntryType, resTree_GetDataType, resTree_GetUnits, entryAt.
    rewrite He. cbn [default from_option id].
    destruct (entryType e) eqn:Hrole; try done;
      try (by apply (Htail "Failed to create Output."%string)).
    rewrite !He. cbn [default from_option id].
    case_bool_decide as Hdt; [done|]. case_bool_decide as Hu; [done|].
    cbn [orb]. intros [_ <-]%Done_inj.
    assert (dataType e = dt) as Hdt' by by destruct (decide (dataType e = dt)).
    assert (units e = u) as Hu' by by destruct (decide (u = units e)).
    by exists ns, (ns ++ segs), e.
  - intros Hrun.
    destruct (io_CreateInput_Ok _ _ _ _ _ Hrun)
      as (ns & s0 & _ & ref & e & _ & Hctx & Hfind & He & Hrole & Hdt & Hu).
    by exists ns, ref, e.
Qed.

(** X14: a resource that has been created holds its path. After an
    [io_CreateInput] or [io_CreateOutput] that returned [LE_OK], the same
    call again returns [LE_OK] and changes nothing; the call for the other
    role returns [LE_DUPLICATE] whatever the data type and units, and so
    does the call for the same role with another data type or other units;
    none of them changes the hub, and [FindResource] finds the resource. *)
Theorem created_resource_holds_path (output : bool) (s s1 : HubState) (path : string)
    (dt : io_DataType_t) (u : string) :
  (if output then io_CreateOutput else io_CreateInput) path dt u s = Done LE_OK s1 ->
  (if output then io_CreateOutput else io_CreateInput) path dt u s1 = Done LE_OK s1
  ∧ (∀ dt' u',
       (if output then io_CreateInput else io_CreateOutput) path dt' u' s1
       = Done LE_DUPLICATE s1)
  ∧ (∀ dt' u', dt' ≠ dt ∨ u' ≠ u ->
       (if output then io_CreateOutput else io_CreateInput) path dt' u' s1
       = Done LE_DUPLICATE s1)
  ∧ ∃ ref, FindResource path s1 = Done (Some ref) s1.
Proof.
  intros Hfirst.
  destruct (io_Create_leaves _ _ _ _ _ _ Hfirst)
    as (ns & ref & e & Hctx & Hfind & He & Hrole & Hdt & Hu).
  pose proof (GetClientNamespace_cached _ _ Hctx) as Hns.
  split; [|split; [|split]].
  - destruct output.
    + by apply (io_CreateOutput_existing s1 ns ref path dt u e).
    + by apply (io_CreateInput_existing s1 ns ref path dt u e).
  - intros dt' u'. destruct output.
    + apply (io_CreateInput_conflict _ _ ns ref _ _ _ e); try done.
      split; [right; left; done|]. left. by rewrite Hrole.
    + apply (io_CreateOutput_conflict _ _ ns ref _ _ _ e); try done.
      split; [left; done|]. left. by rewrite Hrole.
  - intros dt' u' Hdiff.
    assert (dataType e ≠ dt' ∨ units e ≠ u') as Hdiff'.
    { destruct Hdiff as [Hd|Hd]; [left|right]; intros <-; by apply Hd. }
    destruct output.
    + apply (io_CreateOutput_conflict _ _ ns ref _ _ _ e); try done.
      split; [right; left; done|]. by right.
    + apply (io_CreateInput_conflict _ _ ns ref _ _ _ e); try done.
      split; [left; done|]. by right.
  - exists ref. rewrite (FindResource_cached _ _ _ Hctx), Hfind.
    f_equal. apply (onlyIO_io _ _ e He). destruct output; by eauto.
Qed.

(** The numeric Output [x] in metres, created on a hub that has just
    started. *)
Lemma created_resource_holds_path_witness :
  io_CreateOutput "x" IO_DATA_TYPE_NUMERIC "m" outputXHub = Done LE_OK outputXHub
  ∧ io_CreateInput "x" IO_DATA_TYPE_NUMERIC "m" outputXHub = Done LE_DUPLICATE outputXHub
  ∧ io_CreateOutput "x" IO_DATA_TYPE_NUMERIC "km" outputXHub = Done LE_DUPLICATE outputXHub.
Proof.
  pose proof (created_resource_holds_path true startHub outputXHub "x"
                IO_DATA_TYPE_NUMERIC "m") as H.
  destruct H as (Hagain & Hother & Hsame & _); [vm_compute; reflexivity|].
  split; [exact Hagain|]. split; [apply Hother|apply Hsame].
  right. discriminate.
Defined.

(** ** Push and get, for the other kinds *)

(** The state a push of the resource's own kind leaves, and what is found
    there afterwards. *)
Lemma pushed_state (path : string) (s s1 : HubState) (ref : list string) (e : Entry)
    (sample : dataSample) :
  FindResource path s = Done (Some ref) s1 ->
  tree s1 !! ref = Some e ->
  PrimFloat.eqb (timestamp sample) 0 = false ->
  resTree_Push (Some ref) (dataType e) sample s1
  = Done tt (setTree (<[ref := setCurrentValue (Some sample) e]> (tree s1)) s1)
  ∧ FindResource path (setTree (<[ref := setCurrentValue (Some sample) e]> (tree s1)) s1)
    = Done (Some ref) (setTree (<[ref := setCurrentValue (Some sample) e]> (tree s1)) s1)
  ∧ entryAt (tree (setTree (<[ref := setCurrentValue (Some sample) e]> (tree s1)) s1))
            (Some ref)
    = setCurrentValue (Some sample) e.
Proof.
  intros Hres He Hts.
  destruct (FindResource_found _ _ _ _ Hres) as (ns & e0 & Hns & Hctx & Hfind & He0 & Hrole).
  assert (e0 = e) as -> by congruence.
  split; [by apply resTree_Push_io|].
  split; [by apply (FindResource_after_update s1 ns ref path e)|].
  apply entryAt_insert.
Qed.

(** X15: what is pushed is what is got, for every kind. On an Input or
    Output and for a timestamp other than zero, a push of the resource's
    own kind followed by a get of that kind returns [LE_OK] and the value
    pushed, whatever the resource held before, and [io_GetTimestamp] returns
    the timestamp pushed; a string or JSON value comes back through
    [le_utf8_Copy], cut to the caller's buffer. A trigger has no value: its
    timestamp comes back, and its JSON form is [null]. *)
Theorem io_push_get_round_trip (path : string) (s s1 : HubState) (ref : list string)
    (e : Entry) (ts : float) :
  FindResource path s = Done (Some ref) s1 ->
  tree s1 !! ref = Some e ->
  PrimFloat.eqb ts 0 = false ->
  (dataType e = IO_DATA_TYPE_TRIGGER ->
   ∃ s2, io_PushTrigger path ts s = Done tt s2
         ∧ io_GetTimestamp path s2 = Done (LE_OK, Some ts) s2
         ∧ ∀ printDouble jsonEscape size,
             io_GetJson printDouble jsonEscape path size s2
             = Done (mkFetched (le_utf8_Copy "null" size).1 None
                               (Some (le_utf8_Copy "null" size).2)) s2)
  ∧ (dataType e = IO_DATA_TYPE_BOOLEAN -> ∀ value,
     ∃ s2, io_PushBoolean path ts value s = Done tt s2
           ∧ io_GetBoolean path s2 = Done (mkFetched LE_OK None (Some value)) s2
           ∧ io_GetTimestamp path s2 = Done (LE_OK, Some ts) s2)
  ∧ (dataType e = IO_DATA_TYPE_STRING -> ∀ value,
     ∃ s2, io_PushString path ts value s = Done tt s2
           ∧ (∀ size, io_GetString path size s2
                      = Done (mkFetched (le_utf8_Copy value size).1 None
                                        (Some (le_utf8_Copy value size).2)) s2)
           ∧ io_GetTimestamp path s2 = Done (LE_OK, Some ts) s2)
  ∧ (dataType e = IO_DATA_TYPE_JSON -> ∀ value,
     ∃ s2, io_PushJson path ts value s = Done tt s2
           ∧ (∀ printDouble jsonEscape size,
                io_GetJson printDouble jsonEscape path size s2
                = Done (mkFetched (le_utf8_Copy value size).1 None
                                  (Some (le_utf8_Copy value size).2)) s2)
           ∧ io_GetTimestamp path s2 = Done (LE_OK, Some ts) s2).
Proof.
  intros Hres He Hts.
  assert (∀ sample, timestamp sample = ts ->
            let s2 := setTree (<[ref := setCurrentValue (Some sample) e]> (tree s1)) s1 in
            resTree_Push (Some ref) (dataType e) sample s1 = Done tt s2
            ∧ FindResource path s2 = Done (Some ref) s2
            ∧ entryAt (tree s2) (Some ref) = setCurrentValue (Some sample) e) as Hpushed.
  { intros sample Hsample. apply (pushed_state path s); try done. by rewrite Hsample. }
  split; [|split; [|split]].
  - intros Hkind.
    destruct (Hpushed (dataSample_CreateTrigger ts) eq_refl) as (Hpush & Hres2 & Hentry).
    eexists. split; [|split].
    + unfold io_PushTrigger, hub_bind. rewrite Hres, <- Hkind. exact Hpush.
    + unfold io_GetTimestamp. hub_unfold. rewrite Hres2.
      unfold resTree_GetCurrentValue. by rewrite Hentry.
    + intros printDouble jsonEscape size.
      unfold io_GetJson, dataSample_ConvertToJson. hub_unfold. rewrite Hres2.
      unfold resTree_GetCurrentValue, resTree_GetDataType. rewrite Hentry.
      cbn [currentValue dataType setCurrentValue]. rewrite Hkind. cbn [jsonProjection].
      by destruct (le_utf8_Copy _ _).
  - intros Hkind value.
    destruct (Hpushed (dataSample_CreateBoolean ts value) eq_refl)
      as (Hpush & Hres2 & Hentry).
    eexists. split; [|split].
    + unfold io_PushBoolean, hub_bind. rewrite Hres, <- Hkind. exact Hpush.
    + unfold io_GetBoolean, hub_bind. rewrite Hres2.
      rewrite GetCurrentValue_right_kind.
      * unfold resTree_GetCurrentValue. by rewrite Hentry.
      * unfold resTree_GetDataType. by rewrite Hentry.
    + unfold io_GetTimestamp. hub_unfold. rewrite Hres2.
      unfold resTree_GetCurrentValue. by rewrite Hentry.
  - intros Hkind value.
    destruct (Hpushed (dataSample_CreateString ts value) eq_refl)
      as (Hpush & Hres2 & Hentry).
    eexists. split; [|split].
    + unfold io_PushString, hub_bind. rewrite Hres, <- Hkind. exact Hpush.
    + intros size. unfold io_GetString, hub_bind. rewrite Hres2.
      rewrite GetCurrentValue_right_kind.
      * unfold resTree_GetCurrentValue. rewrite Hentry.
        cbn [currentValue setCurrentValue dataSample_GetString dataSample_CreateString
             payload].
        by destruct (le_utf8_Copy _ _).
      * unfold resTree_GetDataType. by rewrite Hentry.
    + unfold io_GetTimestamp. hub_unfold. rewrite Hres2.
      unfold resTree_GetCurrentValue. by rewrite Hentry.
  - intros Hkind value.
    destruct (Hpushed (dataSample_CreateJson ts value) eq_refl)
      as (Hpush & Hres2 & Hentry).
    eexists. split; [|split].
    + unfold io_PushJson, hub_bind. rewrite Hres, <- Hkind. exact Hpush.
    + intros printDouble jsonEscape size.
      unfold io_GetJson, dataSample_ConvertToJson. hub_unfold. rewrite Hres2.
      unfold resTree_GetCurrentValue, resTree_GetDataType. rewrite Hentry.
      cbn [currentValue dataType setCurrentValue]. rewrite Hkind.
      cbn [jsonProjection dataSample_GetJson dataSample_CreateJson payload].
      by destruct (le_utf8_Copy _ _).
    + unfold io_GetTimestamp. hub_unfold. rewrite Hres2.
      unfold resTree_GetCurrentValue. by rewrite Hentry.
Qed.

(** The Boolean Output [y], whose default is [true], pushed [false]. *)
Lemma io_push_get_round_trip_witness :
  ∃ s2, io_PushBoolean "y" 1700000000 false defaultedHub = Done tt s2
        ∧ io_GetBoolean "y" s2 = Done (mkFetched LE_OK None (Some false)) s2
        ∧ io_GetTimestamp "y" s2 = Done (LE_OK, Some 1700000000%float) s2.
Proof.
  pose proof (io_push_get_round_trip "y" defaultedHub defaultedHub
                ["app"%string; "sensord"%string; "y"%string]
                (setDefaultValue (Some (mkSample 0 (PBoolean true)))
                                 (newIO ADMIN_ENTRY_TYPE_OUTPUT IO_DATA_TYPE_BOOLEAN
                                        EmptyString))
                1700000000%float) as H.
  destruct H as (_ & Hbool & _); [vm_compute; reflexivity..|].
  apply Hbool. reflexivity.
Defined.

(** X16: what a client creates is what the Query API describes. After an
    [io_CreateInput] or [io_CreateOutput] that returned [LE_OK], under
    every absolute path that leads to the resource [query_GetDataType]
    returns [LE_OK] and the data type given at creation, and
    [query_GetUnits] returns the units given at creation through
    [le_utf8_Copy]: [LE_OK] and the units when they fit the caller's buffer,
    [LE_OVERFLOW] otherwise. *)
Theorem created_resource_described (output : bool) (s s1 : HubState) (path : string)
    (dt : io_DataType_t) (u : string) :
  (if output then io_CreateOutput else io_CreateInput) path dt u s = Done LE_OK s1 ->
  ∃ ref,
    FindResource path s1 = Done (Some ref) s1
    ∧ ∀ qpath size,
        resTree_FindEntryAtAbsolutePath (tree s1) qpath = Some ref ->
        query_GetDataType (tree s1) qpath = (LE_OK, Some dt)
        ∧ query_GetUnits (tree s1) qpath size
          = ((le_utf8_Copy u size).1, Some (le_utf8_Copy u size).2)
        ∧ (String.length u < size -> query_GetUnits (tree s1) qpath size = (LE_OK, Some u))
        ∧ (size ≤ String.length u -> (query_GetUnits (tree s1) qpath size).1 = LE_OVERFLOW).
Proof.
  intros Hfirst.
  destruct (io_Create_leaves _ _ _ _ _ _ Hfirst)
    as (ns & ref & e & Hctx & Hfind & He & Hrole & Hdt & Hu).
  assert (entryType e = ADMIN_ENTRY_TYPE_INPUT ∨ entryType e = ADMIN_ENTRY_TYPE_OUTPUT)
    as Hio by (destruct output; by eauto).
  exists ref. split.
  { rewrite (FindResource_cached _ _ _ Hctx), Hfind. f_equal. by apply (onlyIO_io _ _ e). }
  intros qpath size Habs.
  unfold query_GetDataType, query_GetUnits.
  rewrite Habs, (io_resource_IsResource _ _ _ He Hio). cbn [negb].
  unfold resTree_GetDataType, resTree_GetUnits.
  rewrite (entryAt_lookup _ _ _ He), Hdt, Hu.
  split; [done|].
  destruct (le_utf8_Copy_result u size) as [[Hfits Hcopy]|[Hlong Hcopy]].
  - rewrite Hcopy. repeat split; try done. lia.
  - destruct (le_utf8_Copy u size) as [copied text]. cbn [fst snd] in *.
    repeat split; try done. lia.
Qed.

(** The numeric Input [temp] in degrees Celsius, asked for with room for
    its units and without. *)
Lemma created_resource_described_witness :
  query_GetDataType (tree inputHub) "/app/sensord/temp" = (LE_OK, Some IO_DATA_TYPE_NUMERIC)
  ∧ query_GetUnits (tree inputHub) "/app/sensord/temp" 8 = (LE_OK, Some "degC"%string)
  ∧ (query_GetUnits (tree inputHub) "/app/sensord/temp" 3).1 = LE_OVERFLOW.
Proof.
  destruct (created_resource_described false startHub inputHub "temp"
              IO_DATA_TYPE_NUMERIC "degC") as (ref & Hres & Hdescribed);
    [vm_compute; reflexivity|].
  assert (ref = ["app"%string; "sensord"%string; "temp"%string]) as ->.
  { assert (FindResource "temp" inputHub
            = Done (Some ["app"%string; "sensord"%string; "temp"%string]) inputHub) as Hres'
      by (vm_compute; reflexivity).
    rewrite Hres' in Hres. by apply Done_inj in Hres as [[= <-] _]. }
  destruct (Hdescribed "/app/sensord/temp"%string 8) as (Htype & _ & Hfits & _);
    [vm_compute; reflexivity|].
  destruct (Hdescribed "/app/sensord/temp"%string 3) as (_ & _ & _ & Hlong);
    [vm_compute; reflexivity|].
  split; [exact Htype|]. split; [apply Hfits|apply Hlong]; cbn; lia.
Defined.

(** ** A client stays in its namespace *)

Lemma materialise_other (t : Tree) (cur segs p : list string) :
  ¬ p `prefix_of` cur ++ segs -> materialise t cur segs !! p = t !! p.
Proof.
  revert t cur. induction segs as [|seg rest IH]; intros t cur Hp; [done|].
  cbn [materialise]. rewrite IH.
  - destruct (t !! (cur ++ [seg])); [done|].
    apply lookup_insert_ne. intros <-. apply Hp.
    exists rest. by rewrite <- app_assoc.
  - by rewrite <- app_assoc.
Qed.

Lemma pruneUp_other (t : Tree) (rp p : list string) :
  ¬ p `prefix_of` rev rp -> pruneUp t rp !! p = t !! p.
Proof.
  revert t. induction rp as [|seg up IH]; intros t Hp; [done|].
  cbn [pruneUp]. destruct (t !! rev (seg :: up)); [|done].
  destruct (_ && _); [|done].
  rewrite IH.
  - apply lookup_delete_ne. intros <-. by apply Hp.
  - intros Hup. apply Hp. cbn [rev]. by apply prefix_app_r.
Qed.

Lemma deleteIO_other (t t' : Tree) (ref p : list string) :
  deleteIO t (Some ref) = Some t' -> ¬ p `prefix_of` ref -> t' !! p = t !! p.
Proof.
  unfold deleteIO. intros Hdel Hp.
  destruct (t !! ref) as [e|]; [|done]. destruct (bool_decide _); [|done].
  destruct (hasChildren t ref); injection Hdel as <-.
  - apply lookup_insert_ne. by intros <-.
  - rewrite pruneUp_other.
    + apply lookup_delete_ne. by intros <-.
    + intros Hup. apply Hp. etrans; [exact Hup|].
      rewrite <- (rev_involutive ref) at 2.
      destruct (rev ref) as [|seg up]; [done|]. cbn [tail rev]. by apply prefix_app_r.
Qed.

Lemma resTree_GetIO_other (type : admin_EntryType_t) (t t' : Tree) (ns p : list string)
    (r : resTree_EntryRef_t) (path : string) (dt : io_DataType_t) (u : string) :
  resTree_GetIO type t (Some ns) path dt u = (r, t') ->
  ¬ ns `prefix_of` p -> ¬ p `prefix_of` ns -> t' !! p = t !! p.
Proof.
  unfold resTree_GetIO. intros Hget Hbelow Habove.
  destruct (parsePath path) as [segs|]; [|by injection Hget as _ <-].
  assert (¬ p `prefix_of` ns ++ segs) as Hp.
  { intros Hp. by destruct (prefix_weak_total _ _ _ Hp (prefix_app_r ns ns segs (reflexivity ns))). }
  assert (p ≠ ns ++ segs) as Hne by (by intros ->).
  destruct (t !! (ns ++ segs)) as [e|].
  - destruct (entryType e);
      try (injection Hget as _ <-; by apply lookup_insert_ne);
      destruct (decide _); by injection Hget as _ <-.
  - injection Hget as _ <-. rewrite lookup_insert_ne by done.
    by apply materialise_other.
Qed.

Lemma outside_namespace (ns segs p : list string) :
  ¬ ns `prefix_of` p -> p ≠ ns ++ segs.
Proof. intros Hbelow ->. apply Hbelow. by apply prefix_app_r. Qed.

Lemma resTree_Push_other (ns segs p : list string) (kind : io_DataType_t)
    (sample : dataSample) (s s' : HubState) :
  resTree_Push (Some (ns ++ segs)) kind sample s = Done tt s' ->
  ¬ ns `prefix_of` p -> tree s' !! p = tree s !! p.
Proof.
  unfold resTree_Push. hub_unfold. intros Hrun Hbelow.
  pose proof (outside_namespace ns segs p Hbelow) as Hne.
  destruct (entryType (entryAt (tree s) (Some (ns ++ segs)))); try done;
    try (apply Done_inj in Hrun as [_ <-]; by apply lookup_insert_ne);
    destruct (decide _); apply Done_inj in Hrun as [_ <-];
    first [by apply lookup_insert_ne|done].
Qed.

Lemma resTree_SetDefault_other (t : Tree) (ns segs p : list string) (dt : io_DataType_t)
    (sample : dataSample) :
  ¬ ns `prefix_of` p -> resTree_SetDefault t (Some (ns ++ segs)) dt sample !! p = t !! p.
Proof.
  intros Hbelow. pose proof (outside_namespace ns segs p Hbelow) as Hne.
  unfold resTree_SetDefault. destruct (t !! (ns ++ segs)) as [e|]; [|done].
  destruct (defaultValue e); [done|]. by apply lookup_insert_ne.
Qed.

(** What [FindResource] finds once the namespace is cached: nothing
    changes, and the entry lies below the namespace. *)
Lemma FindResource_below (path : string) (s s1 : HubState) (ns : list string)
    (r : resTree_EntryRef_t) :
  sessionContextPtr s = Some ns ->
  FindResource path s = Done r s1 ->
  s1 = s ∧ ∀ ref, r = Some ref -> ∃ segs, ref = ns ++ segs.
Proof.
  intros Hctx. rewrite (FindResource_cached _ _ _ Hctx).
  intros [<- <-]%Done_inj. split; [done|].
  intros ref [Hfind _]%onlyIO_Some.
  destruct (resTree_FindEntry_lookup _ _ _ _ Hfind) as (b & segs & e & [= <-] & _ & -> & _).
  by exists segs.
Qed.

Ltac found_below Hctx :=
  unfold GetCurrentValue; hub_unfold;
  match goal with
  | |- context [FindResource ?path ?s] =>
      let Hres := fresh "Hres" in
      let Hbelow := fresh "Hbelow" in
      let r := fresh "r" in
      destruct (FindResource path s) as [r ?|] eqn:Hres; [|done];
      destruct (FindResource_below _ _ _ _ _ Hctx Hres) as [-> Hbelow];
      destruct r as [?|];
      [destruct (Hbelow _ eq_refl) as [? ->]; clear Hbelow|clear Hbelow]
  end.

Lemma io_Create_other (type : admin_EntryType_t) (s0 s' : HubState) (ns p : list string)
    (path : string) (dt : io_DataType_t) (u : string) (r : le_result_t) (msg : string) :
  ¬ ns `prefix_of` p -> ¬ p `prefix_of` ns ->
  hub_bind (onTree (fun t => resTree_GetIO type t (Some ns) path dt u))
           (fun resRef : resTree_EntryRef_t =>
              match resRef with
              | None => hub_bind (LE_KILL_CLIENT msg) (fun _ => hub_ret LE_FAULT)
              | Some _ => hub_ret LE_OK
              end) s0
  = Done r s' ->
  tree s' !! p = tree s0 !! p.
Proof.
  intros Houtside Habove. hub_unfold.
  destruct (resTree_GetIO type (tree s0) (Some ns) path dt u) as [ref t'] eqn:Hget.
  pose proof (resTree_GetIO_other _ _ _ _ _ _ _ _ _ Hget Houtside Habove) as Hsame.
  destruct ref; by intros [_ <-]%Done_inj.
Qed.

Lemma io_CreateInput_other (path : string) (dt : io_DataType_t) (u : string)
    (s s' : HubState) (r : le_result_t) (ns p : list string) :
  sessionContextPtr s = Some ns ->
  ¬ ns `prefix_of` p -> ¬ p `prefix_of` ns ->
  io_CreateInput path dt u s = Done r s' -> tree s' !! p = tree s !! p.
Proof.
  intros Hctx Houtside Habove. unfold io_CreateInput. hub_unfold.
  rewrite (GetClientNamespace_cached _ _ Hctx).
  destruct (resTree_FindEntry (tree s) (Some ns) path) as [ref|].
  - destruct (resTree_GetEntryType (tree s) (Some ref)); try done.
    + intros Hrun. exact (io_Create_other ADMIN_ENTRY_TYPE_INPUT s s' ns p path dt u r EmptyString Houtside Habove Hrun).
    + intros Hrun. exact (io_Create_other ADMIN_ENTRY_TYPE_INPUT s s' ns p path dt u r EmptyString Houtside Habove Hrun).
    + destruct (_ || _); by intros [_ <-]%Done_inj.
    + by intros [_ <-]%Done_inj.
    + by intros [_ <-]%Done_inj.
  - intros Hrun. exact (io_Create_other ADMIN_ENTRY_TYPE_INPUT s s' ns p path dt u r EmptyString Houtside Habove Hrun).
Qed.

Lemma io_CreateOutput_other (path : string) (dt : io_DataType_t) (u : string)
    (s s' : HubState) (r : le_result_t) (ns p : list string) :
  sessionContextPtr s = Some ns ->
  ¬ ns `prefix_of` p -> ¬ p `prefix_of` ns ->
  io_CreateOutput path dt u s = Done r s' -> tree s' !! p = tree s !! p.
Proof.
  intros Hctx Houtside Habove. unfold io_CreateOutput. hub_unfold.
  rewrite (GetClientNamespace_cached _ _ Hctx).
  destruct (resTree_FindEntry (tree s) (Some ns) path) as [ref|].
  - destruct (resTree_GetEntryType (tree s) (Some ref)); try done.
    + intros Hrun. exact (io_Create_other ADMIN_ENTRY_TYPE_OUTPUT s s' ns p path dt u r EmptyString Houtside Habove Hrun).
    + intros Hrun. exact (io_Create_other ADMIN_ENTRY_TYPE_OUTPUT s s' ns p path dt u r EmptyString Houtside Habove Hrun).
    + by intros [_ <-]%Done_inj.
    + destruct (_ || _); by intros [_ <-]%Done_inj.
    + by intros [_ <-]%Done_inj.
  - intros Hrun. exact (io_Create_other ADMIN_ENTRY_TYPE_OUTPUT s s' ns p path dt u r EmptyString Houtside Habove Hrun).
Qed.

Lemma GetClientNamespace_other (s s1 : HubState) (ns p : list string) :
  GetClientNamespace s = Done (Some ns) s1 ->
  ¬ p `prefix_of` ns -> tree s1 !! p = tree s !! p.
Proof.
  unfold GetClientNamespace. hub_unfold.
  destruct (sessionContextPtr s) as [ns0|]; [by intros [_ <-]%Done_inj|].
  destruct (processId (client s)) as [res pid]. destruct (decide (res ≠ LE_OK)); [done|].
  destruct (appName (client s)) as [res' name]. destruct (decide (res' ≠ LE_OK)); [done|].
  unfold resTree_GetEntry, resTree_GetRoot.
  change (parsePath "app") with (Some ["app"%string]).
  cbn [setTree tree setSessionContextPtr].
  destruct (parsePath name) as [segs|]; [|done].
  intros [[= <-] <-]%Done_inj Habove. cbn [setTree tree setSessionContextPtr].
  rewrite !materialise_other; [done| |done].
  intros Hp. apply Habove. etrans; [exact Hp|]. by exists segs.
Qed.

(** Once the namespace of the session is known, a call leaves alone what
    is neither below the namespace nor on the way from the root to it. *)
Lemma perform_other (call : ApiCall) (s s' : HubState) (ns p : list string) :
  sessionContextPtr s = Some ns ->
  ¬ ns `prefix_of` p -> ¬ p `prefix_of` ns ->
  perform call s = Done tt s' -> tree s' !! p = tree s !! p.
Proof.
  intros Hctx Houtside Habove.
  destruct call; cbn [perform].
  - unfold hub_bind, hub_ret.
    destruct (io_CreateInput path dt u s) as [r s1|] eqn:Hrun; [|done].
    intros [_ <-]%Done_inj. by apply (io_CreateInput_other path dt u s s1 r ns p).
  - unfold hub_bind, hub_ret.
    destruct (io_CreateOutput path dt u s) as [r s1|] eqn:Hrun; [|done].
    intros [_ <-]%Done_inj. by apply (io_CreateOutput_other path dt u s s1 r ns p).
  - unfold io_DeleteResource, resTree_DeleteIO. found_below Hctx;
      [|by intros [_ <-]%Done_inj].
    destruct (deleteIO _ _) as [t'|] eqn:Hdel; [|done].
    intros [_ <-]%Done_inj. apply (deleteIO_other _ _ _ _ Hdel).
    intros Hp.
    by destruct (prefix_weak_total _ _ _ Hp (prefix_app_r ns ns x (reflexivity ns))).
  - unfold io_PushTrigger. found_below Hctx; [|by intros [_ <-]%Done_inj].
    intros Hrun. by apply (resTree_Push_other _ _ _ _ _ _ _ Hrun).
  - unfold io_PushBoolean. found_below Hctx; [|by intros [_ <-]%Done_inj].
    intros Hrun. by apply (resTree_Push_other _ _ _ _ _ _ _ Hrun).
  - unfold io_PushNumeric. found_below Hctx; [|by intros [_ <-]%Done_inj].
    intros Hrun. by apply (resTree_Push_other _ _ _ _ _ _ _ Hrun).
  - unfold io_PushString. found_below Hctx; [|by intros [_ <-]%Done_inj].
    intros Hrun. by apply (resTree_Push_other _ _ _ _ _ _ _ Hrun).
  - unfold io_PushJson. found_below Hctx; [|by intros [_ <-]%Done_inj].
    intros Hrun. by apply (resTree_Push_other _ _ _ _ _ _ _ Hrun).
  - unfold io_SetBooleanDefault. found_below Hctx; [|by intros [_ <-]%Done_inj].
    case_bool_decide; [by intros [_ <-]%Done_inj|].
    destruct (negb _); intros [_ <-]%Done_inj; [by apply resTree_SetDefault_other|done].
  - unfold io_SetNumericDefault. found_below Hctx; [|by intros [_ <-]%Done_inj].
    case_bool_decide; [by intros [_ <-]%Done_inj|].
    destruct (negb _); intros [_ <-]%Done_inj; [by apply resTree_SetDefault_other|done].
  - unfold io_SetStringDefault. found_below Hctx; [|by intros [_ <-]%Done_inj].
    case_bool_decide; [by intros [_ <-]%Done_inj|].
    destruct (negb _); intros [_ <-]%Done_inj; [by apply resTree_SetDefault_other|done].
  - unfold io_SetJsonDefault. found_below Hctx; [|by intros [_ <-]%Done_inj].
    case_bool_decide; [by intros [_ <-]%Done_inj|].
    destruct (negb _); intros [_ <-]%Done_inj; [by apply resTree_SetDefault_other|done].
  - unfold io_GetTimestamp. found_below Hctx; [|by intros [_ <-]%Done_inj].
    destruct (resTree_GetCurrentValue _ _); by intros [_ <-]%Done_inj.
  - unfold io_GetBoolean. found_below Hctx; [|by intros [_ <-]%Done_inj].
    case_bool_decide; [by intros [_ <-]%Done_inj|].
    destruct (resTree_GetCurrentValue _ _); by intros [_ <-]%Done_inj.
  - unfold io_GetNumeric. found_below Hctx; [|by intros [_ <-]%Done_inj].
    case_bool_decide; [by intros [_ <-]%Done_inj|].
    destruct (resTree_GetCurrentValue _ _); by intros [_ <-]%Done_inj.
  - unfold io_GetString. found_below Hctx; [|by intros [_ <-]%Done_inj].
    case_bool_decide; [by intros [_ <-]%Done_inj|].
    destruct (resTree_GetCurrentValue _ _); [|by intros [_ <-]%Done_inj].
    destruct (le_utf8_Copy _ _). by intros [_ <-]%Done_inj.
  - unfold query_ReadBufferJson, resTree_ReadBufferJson. hub_unfold.
    destruct (FindObservation (tree s) obsPath); [|by intros [_ <-]%Done_inj].
    destruct (PrimFloat.ltb startAfter 0); [by intros [_ <-]%Done_inj|].
    destruct (samplesAfter _ _ _); by intros [_ <-]%Done_inj.
Qed.

(** X18: a client stays in its namespace. Finding the namespace of the
    session changes no entry but those on the way from the root to the
    namespace, which it creates where they are missing. After that, with
    the namespace in the tree, no call changes, creates or removes an entry
    that is neither below the namespace nor on the way from the root to it,
    whatever path the client gives; so the Observations, and everything
    below a namespace that neither lies within the client's nor holds it,
    are out of reach of the I/O API. Nothing is said of two apps one of
    whose namespaces lies within the other's. *)
Theorem calls_stay_in_namespace (s s1 : HubState) (ns : list string) :
  GetClientNamespace s = Done (Some ns) s1 ->
  is_Some (tree s1 !! ns) ->
  (∀ p, ¬ p `prefix_of` ns -> tree s1 !! p = tree s !! p)
  ∧ (∀ call s' p,
       perform call s1 = Done tt s' ->
       ¬ ns `prefix_of` p -> ¬ p `prefix_of` ns ->
       tree s' !! p = tree s1 !! p)
  ∧ (∀ call s' other p,
       perform call s1 = Done tt s' ->
       ¬ ns `prefix_of` other -> ¬ other `prefix_of` ns ->
       other `prefix_of` p ->
       tree s' !! p = tree s1 !! p).
Proof.
  intros Hns _.
  destruct (GetClientNamespace_Some _ _ _ Hns) as (Hctx & _).
  split; [|split].
  - intros p Habove. by apply (GetClientNamespace_other s s1 ns p).
  - intros call s' p Hrun Houtside Habove.
    by apply (perform_other call s1 s' ns p).
  - intros call s' other p Hrun Hwithin Hholds Hbelow.
    apply (perform_other call s1 s' ns p); try done.
    + intros Hp. by destruct (prefix_weak_total _ _ _ Hp Hbelow).
    + intros Hp. apply Hholds. by etrans.
Qed.

(** The client of [/app/sensord] deletes its Input: the Observation
    [/obs/o], below [/obs], is as it was. *)
Lemma calls_stay_in_namespace_witness :
  tree (stateAfter (perform (CallDeleteResource "temp")) mixedHub)
    !! ["obs"%string; "o"%string]
  = tree mixedHub !! ["obs"%string; "o"%string].
Proof.
  pose proof (calls_stay_in_namespace mixedHub mixedHub
                ["app"%string; "sensord"%string]) as H.
  destruct H as (_ & _ & Hcalls).
  - vm_compute; reflexivity.
  - apply (bool_decide_unpack _). vm_compute. exact I.
  - apply (Hcalls (CallDeleteResource "temp") _ ["obs"%string]).
    + vm_compute; reflexivity.
    + apply (bool_decide_unpack _). vm_compute. exact I.
    + apply (bool_decide_unpack _). vm_compute. exact I.
    + apply (bool_decide_unpack _). vm_compute. exact I.
Defined.

(** ** The namespace goes by the app name *)

(** The first lookup of a session, taken apart. *)
Lemma GetClientNamespace_first (s s1 : HubState) (ns : list string) :
  sessionContextPtr s = None ->
  GetClientNamespace s = Done (Some ns) s1 ->
  ∃ name segs,
    (processId (client s)).1 = LE_OK
    ∧ appName (client s) = (LE_OK, name)
    ∧ parsePath name = Some segs
    ∧ ns = "app"%string :: segs
    ∧ s1 = setSessionContextPtr (Some ns)
             (setTree (materialise (materialise (tree s) [] ["app"%string]) [] ns) s).
Proof.
  intros Hctx. unfold GetClientNamespace. hub_unfold. rewrite Hctx.
  destruct (processId (client s)) as [res pid].
  destruct (decide (res ≠ LE_OK)) as [|Hpid]; [done|].
  destruct (appName (client s)) as [res' name].
  destruct (decide (res' ≠ LE_OK)) as [|Hname]; [done|].
  unfold resTree_GetEntry, resTree_GetRoot.
  change (parsePath "app") with (Some ["app"%string]).
  cbn [setTree tree setSessionContextPtr].
  destruct (parsePath name) as [segs|] eqn:Hsegs; [|done].
  intros [[= <-] <-]%Done_inj. exists name, segs.
  split; [by destruct (decide (res = LE_OK))|].
  split; [by destruct (decide (res' = LE_OK)) as [->|]|].
  by destruct s.
Qed.

(** X19: the namespace of a client goes by the name of its app, and by
    nothing else. A session that starts after another one of the same app
    is given the same namespace, whatever its process id, the tree being
    left as it is; so it finds, under the same paths, the resources the
    earlier session found. *)
Theorem namespace_by_app_name (s s1 : HubState) (ns : list string) (who : ClientIdentity)
    (now : float) (path : string) :
  is_Some (tree s !! []) -> tree_wf (tree s) ->
  sessionContextPtr s = None ->
  GetClientNamespace s = Done (Some ns) s1 ->
  (processId who).1 = LE_OK ->
  appName who = appName (client s) ->
  GetClientNamespace (mkHub (tree s1) None who false now (outputFiles s1))
  = Done (Some ns) (mkHub (tree s1) (Some ns) who false now (outputFiles s1))
  ∧ (∃ r, FindResource path s1 = Done r s1
          ∧ FindResource path (mkHub (tree s1) None who false now (outputFiles s1))
            = Done r (mkHub (tree s1) (Some ns) who false now (outputFiles s1))).
Proof.
  intros Hroot Hwf Hctx Hns Hpid Hname.
  destruct (GetClientNamespace_first _ _ _ Hctx Hns)
    as (name & segs & _ & Happ & Hsegs & -> & Hs1).
  assert (tree_wf (tree s1) ∧ is_Some (tree s1 !! ("app"%string :: segs))) as [Hwf1 Hleaf].
  { rewrite Hs1. cbn [tree setTree setSessionContextPtr].
    pose proof (materialise_wf (tree s) [] ["app"%string] Hwf Hroot) as Hwf0.
    assert (is_Some (materialise (tree s) [] ["app"%string] !! [])) as Hroot0.
    { destruct Hroot as [root Hroot].
      by rewrite (lookup_weaken _ _ _ _ Hroot (materialise_subseteq _ _ _)). }
    split; [by apply materialise_wf|].
    by apply (materialise_leaf _ [] ("app"%string :: segs)). }
  assert (is_Some (tree s1 !! ["app"%string])) as Happ1.
  { by apply (tree_wf_prefix (tree s1) ["app"%string] segs). }
  assert (GetClientNamespace (mkHub (tree s1) None who false now (outputFiles s1))
          = Done (Some ("app"%string :: segs))
                 (mkHub (tree s1) (Some ("app"%string :: segs)) who false now
                        (outputFiles s1))) as Hfresh.
  { unfold GetClientNamespace. hub_unfold. cbn [sessionContextPtr client].
    destruct (processId who) as [res pid]. cbn [fst] in Hpid. subst res.
    destruct (decide (LE_OK ≠ LE_OK)) as [Hne|_]; [by destruct Hne|].
    rewrite Hname, Happ.
    destruct (decide (LE_OK ≠ LE_OK)) as [Hne|_]; [by destruct Hne|].
    unfold resTree_GetEntry, resTree_GetRoot.
    change (parsePath "app") with (Some ["app"%string]).
    cbn [setTree tree setSessionContextPtr]. rewrite Hsegs.
    cbn [setTree tree setSessionContextPtr sessionContextPtr client clientKilled wallClock
         outputFiles].
    rewrite (materialise_present (tree s1) [] ([] ++ ["app"%string])) by done.
    by rewrite (materialise_present (tree s1) [] (([] ++ ["app"%string]) ++ segs)) by done. }
  split; [done|].
  exists (onlyIO (tree s1) (resTree_FindEntry (tree s1) (Some ("app"%string :: segs)) path)).
  split.
  - apply FindResource_cached. by rewrite Hs1.
  - by rewrite FindResource_eq, Hfresh.
Qed.

(** After [sensord] has created [temp], a session of the same app under
    another process id finds it. *)
Lemma namespace_by_app_name_witness :
  ∃ r, FindResource "temp" inputHub = Done r inputHub
       ∧ FindResource "temp"
           (mkHub (tree inputHub) None (mkClient (LE_OK, 4242%Z) (LE_OK, "sensord"%string))
                  false 1700000200 (outputFiles inputHub))
         = Done r (mkHub (tree inputHub) (Some ["app"%string; "sensord"%string])
                         (mkClient (LE_OK, 4242%Z) (LE_OK, "sensord"%string))
                         false 1700000200 (outputFiles inputHub)).
Proof.
  pose proof (namespace_by_app_name
                (mkHub (tree inputHub) None sensord false 1700000100 []) inputHub
                ["app"%string; "sensord"%string]
                (mkClient (LE_OK, 4242%Z) (LE_OK, "sensord"%string)) 1700000200%float
                "temp") as H.
  destruct H as [_ Hfinds].
  - apply (bool_decide_unpack _). vm_compute. exact I.
  - apply (bool_decide_unpack (tree_wf _)). vm_compute. exact I.
  - reflexivity.
  - vm_compute; reflexivity.
  - reflexivity.
  - reflexivity.
  - exact Hfinds.
Defined.
